(** * HelperForKeyboardReaderIOKit: a shallow embedding and its properties

    The C++ class [GitHubSample::HelperForKeyboardReaderIOKit] reads the
    keyboard through IOKit's HID layer.  This development embeds the class
    as state-passing functions over an explicit machine state: the object's
    members, the chronological list of calls made into the driver layer and
    the messages handed to the error-logger functor.  The driver itself is a
    record of answers, so that every theorem holds for every driver. *)

From stdpp Require Import base list strings pretty.
From Stdlib Require Import ZArith Lia.

Local Open Scope Z_scope.

(** ** Platform constants

    The values below come from the platform headers the source includes
    ([IOKit/IOReturn.h], [IOKit/hid/IOHIDUsageTables.h],
    [IOKit/hid/IOHIDLib.h]); they are not part of the repository. *)

(** [IOReturn] is [kern_return_t], an [int]. *)
Definition IOReturn := Z.
Definition kIOReturnSuccess : IOReturn := 0.
(** [iokit_common_err(0x2bc)] and [iokit_common_err(0x2e7)] read as [int]. *)
Definition kIOReturnError : IOReturn := 0xe00002bc - 2 ^ 32.
Definition kIOReturnUnderrun : IOReturn := 0xe00002e7 - 2 ^ 32.

Definition HRESULT := Z.
Definition S_OK : HRESULT := 0.

Definition kHIDPage_KeyboardOrKeypad : Z := 0x07.
Definition kIOHIDElementTypeInput_Button : Z := 2.

(** Usage codes of the keyboard/keypad page, in the order of the header. *)
Module IOHIDUsageTables.
Definition kHIDUsage_KeyboardErrorRollOver : Z := 0x01.
Definition kHIDUsage_KeyboardPOSTFail : Z := 0x02.
Definition kHIDUsage_KeyboardErrorUndefined : Z := 0x03.
Definition kHIDUsage_KeyboardA : Z := 0x04.
Definition kHIDUsage_KeyboardB : Z := 0x05.
Definition kHIDUsage_KeyboardC : Z := 0x06.
Definition kHIDUsage_KeyboardD : Z := 0x07.
Definition kHIDUsage_KeyboardE : Z := 0x08.
Definition kHIDUsage_KeyboardF : Z := 0x09.
Definition kHIDUsage_KeyboardG : Z := 0x0A.
Definition kHIDUsage_KeyboardH : Z := 0x0B.
Definition kHIDUsage_KeyboardI : Z := 0x0C.
Definition kHIDUsage_KeyboardJ : Z := 0x0D.
Definition kHIDUsage_KeyboardK : Z := 0x0E.
Definition kHIDUsage_KeyboardL : Z := 0x0F.
Definition kHIDUsage_KeyboardM : Z := 0x10.
Definition kHIDUsage_KeyboardN : Z := 0x11.
Definition kHIDUsage_KeyboardO : Z := 0x12.
Definition kHIDUsage_KeyboardP : Z := 0x13.
Definition kHIDUsage_KeyboardQ : Z := 0x14.
Definition kHIDUsage_KeyboardR : Z := 0x15.
Definition kHIDUsage_KeyboardS : Z := 0x16.
Definition kHIDUsage_KeyboardT : Z := 0x17.
Definition kHIDUsage_KeyboardU : Z := 0x18.
Definition kHIDUsage_KeyboardV : Z := 0x19.
Definition kHIDUsage_KeyboardW : Z := 0x1A.
Definition kHIDUsage_KeyboardX : Z := 0x1B.
Definition kHIDUsage_KeyboardY : Z := 0x1C.
Definition kHIDUsage_KeyboardZ : Z := 0x1D.
Definition kHIDUsage_Keyboard1 : Z := 0x1E.
Definition kHIDUsage_Keyboard2 : Z := 0x1F.
Definition kHIDUsage_Keyboard3 : Z := 0x20.
Definition kHIDUsage_Keyboard4 : Z := 0x21.
Definition kHIDUsage_Keyboard5 : Z := 0x22.
Definition kHIDUsage_Keyboard6 : Z := 0x23.
Definition kHIDUsage_Keyboard7 : Z := 0x24.
Definition kHIDUsage_Keyboard8 : Z := 0x25.
Definition kHIDUsage_Keyboard9 : Z := 0x26.
Definition kHIDUsage_Keyboard0 : Z := 0x27.
Definition kHIDUsage_KeyboardReturnOrEnter : Z := 0x28.
Definition kHIDUsage_KeyboardEscape : Z := 0x29.
Definition kHIDUsage_KeyboardDeleteOrBackspace : Z := 0x2A.
Definition kHIDUsage_KeyboardTab : Z := 0x2B.
Definition kHIDUsage_KeyboardSpacebar : Z := 0x2C.
Definition kHIDUsage_KeyboardHyphen : Z := 0x2D.
Definition kHIDUsage_KeyboardEqualSign : Z := 0x2E.
Definition kHIDUsage_KeyboardOpenBracket : Z := 0x2F.
Definition kHIDUsage_KeyboardCloseBracket : Z := 0x30.
Definition kHIDUsage_KeyboardBackslash : Z := 0x31.
Definition kHIDUsage_KeyboardNonUSPound : Z := 0x32.
Definition kHIDUsage_KeyboardSemicolon : Z := 0x33.
Definition kHIDUsage_KeyboardQuote : Z := 0x34.
Definition kHIDUsage_KeyboardGraveAccentAndTilde : Z := 0x35.
Definition kHIDUsage_KeyboardComma : Z := 0x36.
Definition kHIDUsage_KeyboardPeriod : Z := 0x37.
Definition kHIDUsage_KeyboardSlash : Z := 0x38.
Definition kHIDUsage_KeyboardCapsLock : Z := 0x39.
Definition kHIDUsage_KeyboardF1 : Z := 0x3A.
Definition kHIDUsage_KeyboardF2 : Z := 0x3B.
Definition kHIDUsage_KeyboardF3 : Z := 0x3C.
Definition kHIDUsage_KeyboardF4 : Z := 0x3D.
Definition kHIDUsage_KeyboardF5 : Z := 0x3E.
Definition kHIDUsage_KeyboardF6 : Z := 0x3F.
Definition kHIDUsage_KeyboardF7 : Z := 0x40.
Definition kHIDUsage_KeyboardF8 : Z := 0x41.
Definition kHIDUsage_KeyboardF9 : Z := 0x42.
Definition kHIDUsage_KeyboardF10 : Z := 0x43.
Definition kHIDUsage_KeyboardF11 : Z := 0x44.
Definition kHIDUsage_KeyboardF12 : Z := 0x45.
Definition kHIDUsage_KeyboardPrintScreen : Z := 0x46.
Definition kHIDUsage_KeyboardScrollLock : Z := 0x47.
Definition kHIDUsage_KeyboardPause : Z := 0x48.
Definition kHIDUsage_KeyboardInsert : Z := 0x49.
Definition kHIDUsage_KeyboardHome : Z := 0x4A.
Definition kHIDUsage_KeyboardPageUp : Z := 0x4B.
Definition kHIDUsage_KeyboardDeleteForward : Z := 0x4C.
Definition kHIDUsage_KeyboardEnd : Z := 0x4D.
Definition kHIDUsage_KeyboardPageDown : Z := 0x4E.
Definition kHIDUsage_KeyboardRightArrow : Z := 0x4F.
Definition kHIDUsage_KeyboardLeftArrow : Z := 0x50.
Definition kHIDUsage_KeyboardDownArrow : Z := 0x51.
Definition kHIDUsage_KeyboardUpArrow : Z := 0x52.
Definition kHIDUsage_KeypadNumLock : Z := 0x53.
Definition kHIDUsage_KeypadSlash : Z := 0x54.
Definition kHIDUsage_KeypadAsterisk : Z := 0x55.
Definition kHIDUsage_KeypadHyphen : Z := 0x56.
Definition kHIDUsage_KeypadPlus : Z := 0x57.
Definition kHIDUsage_KeypadEnter : Z := 0x58.
Definition kHIDUsage_Keypad1 : Z := 0x59.
Definition kHIDUsage_Keypad2 : Z := 0x5A.
Definition kHIDUsage_Keypad3 : Z := 0x5B.
Definition kHIDUsage_Keypad4 : Z := 0x5C.
Definition kHIDUsage_Keypad5 : Z := 0x5D.
Definition kHIDUsage_Keypad6 : Z := 0x5E.
Definition kHIDUsage_Keypad7 : Z := 0x5F.
Definition kHIDUsage_Keypad8 : Z := 0x60.
Definition kHIDUsage_Keypad9 : Z := 0x61.
Definition kHIDUsage_Keypad0 : Z := 0x62.
Definition kHIDUsage_KeypadPeriod : Z := 0x63.
Definition kHIDUsage_KeyboardNonUSBackslash : Z := 0x64.
Definition kHIDUsage_KeyboardApplication : Z := 0x65.
Definition kHIDUsage_KeyboardPower : Z := 0x66.
Definition kHIDUsage_KeypadEqualSign : Z := 0x67.
Definition kHIDUsage_KeyboardF13 : Z := 0x68.
Definition kHIDUsage_KeyboardF14 : Z := 0x69.
Definition kHIDUsage_KeyboardF15 : Z := 0x6A.
Definition kHIDUsage_KeyboardF16 : Z := 0x6B.
Definition kHIDUsage_KeyboardF17 : Z := 0x6C.
Definition kHIDUsage_KeyboardF18 : Z := 0x6D.
Definition kHIDUsage_KeyboardF19 : Z := 0x6E.
Definition kHIDUsage_KeyboardF20 : Z := 0x6F.
Definition kHIDUsage_KeyboardF21 : Z := 0x70.
Definition kHIDUsage_KeyboardF22 : Z := 0x71.
Definition kHIDUsage_KeyboardF23 : Z := 0x72.
Definition kHIDUsage_KeyboardF24 : Z := 0x73.
Definition kHIDUsage_KeyboardExecute : Z := 0x74.
Definition kHIDUsage_KeyboardHelp : Z := 0x75.
Definition kHIDUsage_KeyboardMenu : Z := 0x76.
Definition kHIDUsage_KeyboardSelect : Z := 0x77.
Definition kHIDUsage_KeyboardStop : Z := 0x78.
Definition kHIDUsage_KeyboardAgain : Z := 0x79.
Definition kHIDUsage_KeyboardUndo : Z := 0x7A.
Definition kHIDUsage_KeyboardCut : Z := 0x7B.
Definition kHIDUsage_KeyboardCopy : Z := 0x7C.
Definition kHIDUsage_KeyboardPaste : Z := 0x7D.
Definition kHIDUsage_KeyboardFind : Z := 0x7E.
Definition kHIDUsage_KeyboardMute : Z := 0x7F.
Definition kHIDUsage_KeyboardVolumeUp : Z := 0x80.
Definition kHIDUsage_KeyboardVolumeDown : Z := 0x81.
Definition kHIDUsage_KeyboardLockingCapsLock : Z := 0x82.
Definition kHIDUsage_KeyboardLockingNumLock : Z := 0x83.
Definition kHIDUsage_KeyboardLockingScrollLock : Z := 0x84.
Definition kHIDUsage_KeypadComma : Z := 0x85.
Definition kHIDUsage_KeypadEqualSignAS400 : Z := 0x86.
Definition kHIDUsage_KeyboardInternational1 : Z := 0x87.
Definition kHIDUsage_KeyboardInternational2 : Z := 0x88.
Definition kHIDUsage_KeyboardInternational3 : Z := 0x89.
Definition kHIDUsage_KeyboardInternational4 : Z := 0x8A.
Definition kHIDUsage_KeyboardInternational5 : Z := 0x8B.
Definition kHIDUsage_KeyboardInternational6 : Z := 0x8C.
Definition kHIDUsage_KeyboardInternational7 : Z := 0x8D.
Definition kHIDUsage_KeyboardInternational8 : Z := 0x8E.
Definition kHIDUsage_KeyboardInternational9 : Z := 0x8F.
Definition kHIDUsage_KeyboardLANG1 : Z := 0x90.
Definition kHIDUsage_KeyboardLANG2 : Z := 0x91.
Definition kHIDUsage_KeyboardLANG3 : Z := 0x92.
Definition kHIDUsage_KeyboardLANG4 : Z := 0x93.
Definition kHIDUsage_KeyboardLANG5 : Z := 0x94.
Definition kHIDUsage_KeyboardLANG6 : Z := 0x95.
Definition kHIDUsage_KeyboardLANG7 : Z := 0x96.
Definition kHIDUsage_KeyboardLANG8 : Z := 0x97.
Definition kHIDUsage_KeyboardLANG9 : Z := 0x98.
Definition kHIDUsage_KeyboardAlternateErase : Z := 0x99.
Definition kHIDUsage_KeyboardSysReqOrAttention : Z := 0x9A.
Definition kHIDUsage_KeyboardCancel : Z := 0x9B.
Definition kHIDUsage_KeyboardClear : Z := 0x9C.
Definition kHIDUsage_KeyboardPrior : Z := 0x9D.
Definition kHIDUsage_KeyboardReturn : Z := 0x9E.
Definition kHIDUsage_KeyboardSeparator : Z := 0x9F.
Definition kHIDUsage_KeyboardOut : Z := 0xA0.
Definition kHIDUsage_KeyboardOper : Z := 0xA1.
Definition kHIDUsage_KeyboardClearOrAgain : Z := 0xA2.
Definition kHIDUsage_KeyboardCrSelOrProps : Z := 0xA3.
Definition kHIDUsage_KeyboardExSel : Z := 0xA4.
End IOHIDUsageTables.
Import IOHIDUsageTables.

(** The keys of [IOKit/hid/IOHIDKeys.h] that [GetKeyboardProperties] asks for,
    with the text of each [CFSTR]. *)
Inductive PropertyKey :=
| kIOHIDTransportKey | kIOHIDVendorIDKey | kIOHIDVendorIDSourceKey
| kIOHIDProductIDKey | kIOHIDVersionNumberKey | kIOHIDManufacturerKey
| kIOHIDProductKey | kIOHIDSerialNumberKey | kIOHIDCountryCodeKey
| kIOHIDLocationIDKey.

Definition CFSTR (k : PropertyKey) : string :=
  match k with
  | kIOHIDTransportKey => "Transport"
  | kIOHIDVendorIDKey => "VendorID"
  | kIOHIDVendorIDSourceKey => "VendorIDSource"
  | kIOHIDProductIDKey => "ProductID"
  | kIOHIDVersionNumberKey => "VersionNumber"
  | kIOHIDManufacturerKey => "Manufacturer"
  | kIOHIDProductKey => "Product"
  | kIOHIDSerialNumberKey => "SerialNumber"
  | kIOHIDCountryCodeKey => "CountryCode"
  | kIOHIDLocationIDKey => "LocationID"
  end.

(** ** Core Foundation values

    A [CFTypeRef] as the code inspects it: a number (with the value
    [CFNumberGetValue] stores for [kCFNumberLongType] and whether the
    conversion was lossless, which is its return value), a string (carried
    as the text [CF2StdString] yields for it), or an object of another type. *)
Inductive CFType :=
| CFNumber (lossless : bool) (as_long : Z)
| CFString (text : string)
| CFOther.

(** One element descriptor: the three entries of the [CFDictionary] that
    [FindKeypressCookies] looks up; [None] is a key that is absent
    ([CFDictionaryGetValue] returns 0). *)
Record Element := {
  kIOHIDElementCookieKey : option CFType;
  kIOHIDElementUsageKey : option CFType;
  kIOHIDElementUsagePageKey : option CFType
}.

(** The test the source repeats for each of the three fields:
    [temp_object_reused == 0 || CFGetTypeID(..) != CFNumberGetTypeID()
     || !CFNumberGetValue(.., kCFNumberLongType, &temp_number_reused)].
    [Some n] when the test is false, with [n] the number read. *)
Definition read_long (temp_object_reused : option CFType) : option Z :=
  match temp_object_reused with
  | None => None
  | Some (CFNumber true temp_number_reused) => Some temp_number_reused
  | Some (CFNumber false _) => None
  | Some _ => None
  end.

(** [IOHIDEventStruct], the fields the code reads. *)
Record IOHIDEventStruct := {
  type : Z;
  elementCookie : Z;
  value : Z
}.

(** ** The key table *)

(** [struct PerKeyData]: one key of the keyboard. *)
Record PerKeyData := {
  name : string;
  usbOfficialUsageID : Z;
  macCookieValue : Z;
  mustBeIgnoredByOurApplication : bool
}.

(** [PerKeyData::PushOneItem]: [keysVector.push_back(ptr)].  The source's
    last parameter defaults to [false]; callers that omit it pass [false]
    here. *)
Definition PushOneItem (keysVector : list PerKeyData) (keyName : string)
    (usageId cookie : Z) (ignore : bool) : list PerKeyData :=
  keysVector ++ [ {| name := keyName; usbOfficialUsageID := usageId;
                     macCookieValue := cookie;
                     mustBeIgnoredByOurApplication := ignore |} ].

(** [m_keys[usage]->macCookieValue = cookie]. *)
Definition set_cookie (cookie : Z) (k : PerKeyData) : PerKeyData :=
  {| name := name k; usbOfficialUsageID := usbOfficialUsageID k;
     macCookieValue := cookie;
     mustBeIgnoredByOurApplication := mustBeIgnoredByOurApplication k |}.

(** The condition of the three loops over [m_keys]:
    [macCookieValue != 0 && mustBeIgnoredByOurApplication == false]. *)
Definition resolved (k : PerKeyData) : bool :=
  negb (macCookieValue k =? 0) && negb (mustBeIgnoredByOurApplication k).

(** [struct PrivateImpl]: the four driver handles, 0 when not held. *)
Record PrivateImpl := {
  m_hidDevice : Z;
  m_hidDeviceInterface : Z;
  m_plugInInterface : Z;
  m_hidQueue : Z
}.

Definition PrivateImpl_new : PrivateImpl :=
  {| m_hidDevice := 0; m_hidDeviceInterface := 0;
     m_plugInInterface := 0; m_hidQueue := 0 |}.

(** ** The driver layer *)

(** Calls into IOKit, as recorded in the machine's trace. *)
Inductive DriverCall :=
| Call_IOServiceMatching
| Call_IOServiceGetMatchingService
| Call_IOCreatePlugInInterfaceForService (device : Z)
| Call_IORegistryEntryCreateCFProperty (device : Z) (key : PropertyKey)
| Call_QueryInterface (plugIn : Z)
| Call_open (interface : Z)
| Call_copyMatchingElements (interface : Z)
| Call_getElementValue (interface cookie : Z)
| Call_allocQueue (interface : Z)
| Call_queue_create (queue : Z)
| Call_queue_start (queue : Z)
| Call_queue_stop (queue : Z)
| Call_queue_addElement (queue cookie : Z)
| Call_queue_getNextEvent (queue : Z)
| Call_queue_Release (queue : Z)
| Call_close (interface : Z)
| Call_Release (interface : Z)
| Call_IODestroyPlugInInterface (plugIn : Z)
| Call_IOObjectRelease (device : Z).

Global Instance PropertyKey_eq_dec : EqDecision PropertyKey :=
  ltac:(solve_decision).
Global Instance DriverCall_eq_dec : EqDecision DriverCall :=
  ltac:(solve_decision).

(** What the driver answers.  Out-parameters are part of the answer: the
    value the call leaves in the handle it was given the address of.  The
    element array of [copyMatchingElements] and the event of
    [getElementValue] are stored only when the call reports success; after a
    failure the local that was to receive them holds what it held before. *)
Record Driver := {
  drv_IOServiceMatching : bool;
  drv_CFNumberCreate_usagePage : bool;
  drv_CFNumberCreate_usage : bool;
  drv_IOServiceGetMatchingService : Z;
  drv_IOCreatePlugInInterfaceForService : Z -> IOReturn * Z;
  drv_IORegistryEntryCreateCFProperty : Z -> PropertyKey -> option CFType;
  drv_QueryInterface : Z -> HRESULT * Z;
  drv_open : Z -> IOReturn;
  drv_copyMatchingElements : Z -> IOReturn * list Element;
  drv_getElementValue : Z -> Z -> IOReturn * Z;
  drv_allocQueue : Z -> Z;
  drv_queue_create : Z -> IOReturn;
  drv_queue_start : Z -> IOReturn;
  drv_queue_addElement : Z -> Z -> IOReturn;
  (** the answer to the n-th [getNextEvent] on the queue *)
  drv_queue_getNextEvent : Z -> nat -> IOReturn * IOHIDEventStruct
}.

(** ** The machine state

    The members of [HelperForKeyboardReaderIOKit] followed by what an
    observer of the process sees: the calls made into the driver layer in
    the order they were made, the messages the error-logger functor
    received, and how many events were taken from the queue so far.

    Two locals of the source are read on a path on which nothing was stored
    in them ([elements] in [FindKeypressCookies], [theEvent] in
    [CountOfCurrentlyDepressedKeys]).  What such a read finds is left open by
    the language; [uninitialised n] is the value found by a read made after
    [n] calls into the driver, and the theorems hold whatever it is. *)
Record Machine := {
  m_pimpl : option PrivateImpl;
  m_keys : list PerKeyData;
  (** [true] when the functor is not empty *)
  m_errorLoggerFunctor : bool;
  m_deviceInformationProperties : list string;
  m_queueEnabled : bool;
  driver_calls : list DriverCall;
  logged : list string;
  queue_reads : nat;
  uninitialised : nat -> Z
}.

Definition set_pimpl (p : option PrivateImpl) (st : Machine) : Machine :=
  {| m_pimpl := p; m_keys := m_keys st;
     m_errorLoggerFunctor := m_errorLoggerFunctor st;
     m_deviceInformationProperties := m_deviceInformationProperties st;
     m_queueEnabled := m_queueEnabled st;
     driver_calls := driver_calls st; logged := logged st;
     queue_reads := queue_reads st;
     uninitialised := uninitialised st |}.

Definition set_keys (ks : list PerKeyData) (st : Machine) : Machine :=
  {| m_pimpl := m_pimpl st; m_keys := ks;
     m_errorLoggerFunctor := m_errorLoggerFunctor st;
     m_deviceInformationProperties := m_deviceInformationProperties st;
     m_queueEnabled := m_queueEnabled st;
     driver_calls := driver_calls st; logged := logged st;
     queue_reads := queue_reads st;
     uninitialised := uninitialised st |}.

Definition set_properties (ps : list string) (st : Machine) : Machine :=
  {| m_pimpl := m_pimpl st; m_keys := m_keys st;
     m_errorLoggerFunctor := m_errorLoggerFunctor st;
     m_deviceInformationProperties := ps;
     m_queueEnabled := m_queueEnabled st;
     driver_calls := driver_calls st; logged := logged st;
     queue_reads := queue_reads st;
     uninitialised := uninitialised st |}.

Definition add_call (c : DriverCall) (st : Machine) : Machine :=
  {| m_pimpl := m_pimpl st; m_keys := m_keys st;
     m_errorLoggerFunctor := m_errorLoggerFunctor st;
     m_deviceInformationProperties := m_deviceInformationProperties st;
     m_queueEnabled := m_queueEnabled st;
     driver_calls := driver_calls st ++ [c]; logged := logged st;
     queue_reads := queue_reads st;
     uninitialised := uninitialised st |}.

Definition add_log (msg : string) (st : Machine) : Machine :=
  {| m_pimpl := m_pimpl st; m_keys := m_keys st;
     m_errorLoggerFunctor := m_errorLoggerFunctor st;
     m_deviceInformationProperties := m_deviceInformationProperties st;
     m_queueEnabled := m_queueEnabled st;
     driver_calls := driver_calls st; logged := logged st ++ [msg];
     queue_reads := queue_reads st;
     uninitialised := uninitialised st |}.

Definition next_read (st : Machine) : Machine :=
  {| m_pimpl := m_pimpl st; m_keys := m_keys st;
     m_errorLoggerFunctor := m_errorLoggerFunctor st;
     m_deviceInformationProperties := m_deviceInformationProperties st;
     m_queueEnabled := m_queueEnabled st;
     driver_calls := driver_calls st; logged := logged st;
     queue_reads := S (queue_reads st);
     uninitialised := uninitialised st |}.

(** ** Computations

    A member function is a function from the machine state to an outcome and
    the state it leaves.  A run either returns or stops the process: on a
    failed [assert] (in a build without [NDEBUG]) or on undefined behaviour
    the source does not guard against (a null handle dereferenced, a vector
    indexed out of range, [CFRelease] of a pointer that was never set). *)
Inductive Fault :=
| AssertionFailed (msg : string)
| NullDereference
| IndexOutOfRange
| ReleaseOfIndeterminatePointer.

Inductive Outcome (A : Type) :=
| Returned (a : A)
| Aborted (f : Fault).
Arguments Returned {A} a.
Arguments Aborted {A} f.

Definition M (A : Type) : Type := Machine -> Outcome A * Machine.

Definition ret {A} (a : A) : M A := fun st => (Returned a, st).

Definition bind {A B} (c : M A) (k : A -> M B) : M B :=
  fun st =>
    match c st with
    | (Returned a, st') => k a st'
    | (Aborted f, st') => (Aborted f, st')
    end.

Notation "x <- c1 ;; c2" := (bind c1 (fun x => c2))
  (at level 20, c1 at level 99, c2 at level 200).
Notation "c1 ;; c2" := (bind c1 (fun _ => c2))
  (at level 100, c2 at level 200, right associativity).

Definition abort {A} (f : Fault) : M A := fun st => (Aborted f, st).
Definition gets {A} (f : Machine -> A) : M A := fun st => (Returned (f st), st).
Definition modify (f : Machine -> Machine) : M unit :=
  fun st => (Returned tt, f st).

(** The state a computation leaves and what it yields. *)
Definition final {A} (c : M A) (st : Machine) : Machine := snd (c st).
Definition yields {A} (c : M A) (st : Machine) : Outcome A := fst (c st).

(** A call into the driver layer is appended to the trace. *)
Definition call (c : DriverCall) : M unit := modify (add_call c).

(** A call through a handle (a pointer to a pointer to a function table)
    reads the handle first. *)
Definition call_through (handle : Z) (c : DriverCall) : M unit :=
  if handle =? 0 then abort NullDereference else call c.

(** The read of a local in which nothing was stored. *)
Definition read_uninitialised : M Z :=
  gets (fun st => uninitialised st (length (driver_calls st))).

(** [m_pimpl->..] *)
Definition pimpl : M PrivateImpl :=
  p <- gets m_pimpl ;;
  match p with
  | Some p => ret p
  | None => abort NullDereference
  end.

(** [c1 && c2] *)
Definition andM (c1 c2 : M bool) : M bool :=
  b <- c1 ;; if b then c2 else ret false.
Infix "&&&" := andM (at level 40, left associativity).

(** A loop over a container, one body per item. *)
Fixpoint for_each {A} (body : A -> M unit) (items : list A) : M unit :=
  match items with
  | [] => ret tt
  | x :: rest => body x ;; for_each body rest
  end.

(** A loop over a container that carries a local variable along. *)
Fixpoint for_each_with {A S} (body : S -> A -> M S) (s : S) (items : list A)
    : M S :=
  match items with
  | [] => ret s
  | x :: rest => s' <- body s x ;; for_each_with body s' rest
  end.

(** [LogErrorWhenFunctorIsntEmpty] of the anonymous namespace. *)
Definition LogErrorWhenFunctorIsntEmpty (error : string) : M unit :=
  errorLoggerFunctor <- gets m_errorLoggerFunctor ;;
  if errorLoggerFunctor then modify (add_log error) else ret tt.

Definition newline : string := String (Ascii.ascii_of_nat 10) EmptyString.

(** [boost::str(boost::format("%1%") % n)] for an integer [n]. *)
Definition format_int (n : Z) : string := pretty n.

(** ** The member functions *)

Section HelperForKeyboardReaderIOKit.

(** The build: [NDEBUG] compiles the [assert]s away, [_DEBUG] compiles the
    body of [DebugCheckErrorKeys] in. *)
Variables NDEBUG _DEBUG : bool.

(** The conversion [(IOHIDElementCookie)temp_number_reused]: the cookie type
    is declared by the platform ([void *] or [uint32_t]). *)
Variable to_IOHIDElementCookie : Z -> Z.

Variable drv : Driver.

(** [assert(cond)] *)
Definition assert_ (cond : bool) (msg : string) : M unit :=
  if NDEBUG then ret tt
  else if cond then ret tt else abort (AssertionFailed msg).

(** [PrivateImpl::~PrivateImpl] *)
Definition PrivateImpl_destructor (this : PrivateImpl) : M unit :=
  (if negb (m_hidDeviceInterface this =? 0) then
     call (Call_close (m_hidDeviceInterface this)) ;;
     call (Call_Release (m_hidDeviceInterface this))
   else ret tt) ;;
  (if negb (m_plugInInterface this =? 0) then
     call (Call_IODestroyPlugInInterface (m_plugInInterface this))
   else ret tt) ;;
  (if negb (m_hidQueue this =? 0) then
     call (Call_queue_Release (m_hidQueue this))
   else ret tt) ;;
  (if negb (m_hidDevice this =? 0) then
     call (Call_IOObjectRelease (m_hidDevice this))
   else ret tt).

(** [m_pimpl.reset()]: [m_pimpl] is the only owner of the [PrivateImpl], so
    the object is destroyed. *)
Definition m_pimpl_reset : M unit :=
  p <- gets m_pimpl ;;
  match p with
  | Some this => modify (set_pimpl None) ;; PrivateImpl_destructor this
  | None => ret tt
  end.

(** The implicit destructor of the class: of the members only [m_pimpl]
    owns driver resources. *)
Definition HelperForKeyboardReaderIOKit_destructor : M unit := m_pimpl_reset.

(** [LogInitializationError] *)
Definition LogInitializationError (errorDesc : string) : M unit :=
  properties <- gets m_deviceInformationProperties ;;
  let keyboardInfo :=
    fold_left (fun keyboardInfo iter => keyboardInfo +:+ iter +:+ newline)
              properties "" in
  let keyboardInfo :=
    match properties with
    | [] => errorDesc
    | _ => errorDesc +:+ " Keyboard description follows:" +:+ newline
           +:+ keyboardInfo
    end in
  LogErrorWhenFunctorIsntEmpty keyboardInfo.

(** [FindKeyboard] *)
Definition FindKeyboard : M bool :=
  call Call_IOServiceMatching ;;
  if negb (drv_IOServiceMatching drv) then
    LogErrorWhenFunctorIsntEmpty
      "Failed to retrieve device key matching dictionary." ;;
    ret false
  else
    result <-
      (if negb (drv_CFNumberCreate_usagePage drv)
          || negb (drv_CFNumberCreate_usage drv) then
         LogErrorWhenFunctorIsntEmpty
           "Failed to find kHIDPage_GenericDesktop and/or kHIDUsage_GD_Keyboard." ;;
         ret 0
       else
         call Call_IOServiceGetMatchingService ;;
         ret (drv_IOServiceGetMatchingService drv)) ;;
    this <- pimpl ;;
    modify (set_pimpl (Some
      {| m_hidDevice := result;
         m_hidDeviceInterface := m_hidDeviceInterface this;
         m_plugInInterface := m_plugInInterface this;
         m_hidQueue := m_hidQueue this |})) ;;
    ret (negb (result =? 0)).

(** [StoreOneProperty] *)
Definition StoreOneProperty (propertyKey : PropertyKey) : M unit :=
  this <- pimpl ;;
  call (Call_IORegistryEntryCreateCFProperty (m_hidDevice this) propertyKey) ;;
  match drv_IORegistryEntryCreateCFProperty drv (m_hidDevice this) propertyKey with
  | None => ret tt
  | Some propertyValueString =>
      let property := CFSTR propertyKey in
      let asStdString :=
        match propertyValueString with
        | CFNumber _ value => format_int value
        | CFString text => text
        | CFOther => "<type error>"
        end in
      properties <- gets m_deviceInformationProperties ;;
      modify (set_properties (properties ++ [property +:+ ": " +:+ asStdString]))
  end.

(** [GetKeyboardProperties] *)
Definition GetKeyboardProperties : M unit :=
  StoreOneProperty kIOHIDTransportKey ;;
  StoreOneProperty kIOHIDVendorIDKey ;;
  StoreOneProperty kIOHIDVendorIDSourceKey ;;
  StoreOneProperty kIOHIDProductIDKey ;;
  StoreOneProperty kIOHIDVersionNumberKey ;;
  StoreOneProperty kIOHIDManufacturerKey ;;
  StoreOneProperty kIOHIDProductKey ;;
  StoreOneProperty kIOHIDSerialNumberKey ;;
  StoreOneProperty kIOHIDCountryCodeKey ;;
  StoreOneProperty kIOHIDLocationIDKey.

(** [CreatePluginInterface] *)
Definition CreatePluginInterface : M bool :=
  this <- pimpl ;;
  call (Call_IOCreatePlugInInterfaceForService (m_hidDevice this)) ;;
  let '(ioReturnValue, plugInInterface) :=
    drv_IOCreatePlugInInterfaceForService drv (m_hidDevice this) in
  modify (set_pimpl (Some
    {| m_hidDevice := m_hidDevice this;
       m_hidDeviceInterface := m_hidDeviceInterface this;
       m_plugInInterface := plugInInterface;
       m_hidQueue := m_hidQueue this |})) ;;
  (if negb (ioReturnValue =? kIOReturnSuccess) then
     LogErrorWhenFunctorIsntEmpty
       ("IOCreatePlugInInterfaceForService failed with value "
          +:+ format_int ioReturnValue)
   else GetKeyboardProperties) ;;
  ret (ioReturnValue =? kIOReturnSuccess).

(** [CreateDeviceInterface] *)
Definition CreateDeviceInterface : M bool :=
  this <- pimpl ;;
  call_through (m_plugInInterface this)
    (Call_QueryInterface (m_plugInInterface this)) ;;
  let '(plugInResult, hidDeviceInterface) :=
    drv_QueryInterface drv (m_plugInInterface this) in
  modify (set_pimpl (Some
    {| m_hidDevice := m_hidDevice this;
       m_hidDeviceInterface := hidDeviceInterface;
       m_plugInInterface := m_plugInInterface this;
       m_hidQueue := m_hidQueue this |})) ;;
  if negb (plugInResult =? S_OK) then
    LogErrorWhenFunctorIsntEmpty "Failed to create IOHIDDeviceInterface." ;;
    ret false
  else
    call_through hidDeviceInterface (Call_open hidDeviceInterface) ;;
    let ioReturnValue := drv_open drv hidDeviceInterface in
    if negb (ioReturnValue =? kIOReturnSuccess) then
      LogErrorWhenFunctorIsntEmpty
        ("Failed to open the IOHIDDeviceInterface. Failed with value "
           +:+ format_int ioReturnValue) ;;
      ret false
    else ret true.

(** The body of the [for] loop of [FindKeypressCookies], for one element of
    the array; each [continue] ends the body. *)
Definition FindKeypressCookies_element (element : Element) : M unit :=
  match read_long (kIOHIDElementCookieKey element) with
  | None => ret tt (* wxLogDebug, defined away; continue *)
  | Some temp_number_reused =>
      let cookie := to_IOHIDElementCookie temp_number_reused in
      match read_long (kIOHIDElementUsageKey element) with
      | None =>
          LogErrorWhenFunctorIsntEmpty "A cookie without a usage id?"
      | Some usage =>
          match read_long (kIOHIDElementUsagePageKey element) with
          | None =>
              LogErrorWhenFunctorIsntEmpty "A cookie without a usage page?"
          | Some usagePage =>
              if usagePage =? kHIDPage_KeyboardOrKeypad then
                keys <- gets m_keys ;;
                if usage >=? Z.of_nat (length keys) then ret tt
                else if usage <? 0 then ret tt (* wxLogDebug *)
                else
                  match keys !! Z.to_nat usage with
                  | None => abort IndexOutOfRange
                  | Some key =>
                      if negb (macCookieValue key =? 0) then
                        assert_ false
                          "we found the same usage key twice (or more) ?"
                      else
                        modify (set_keys
                          (<[Z.to_nat usage := set_cookie cookie key]> keys))
                  end
              else ret tt
          end
      end
  end.

(** The [while] loop that ends [FindKeypressCookies]: [score]. *)
Definition FindKeypressCookies_score (keys : list PerKeyData) : Z :=
  fold_left (fun score iter => if resolved iter then score + 1 else score)
            keys 0.

(** The [if(elements) CFRelease(elements)] that ends [FindKeypressCookies].
    The local [elements] has no initialiser, and the driver stores the array
    in it when [copyMatchingElements] succeeds; the array is then given back
    (memory is not modelled).  After a failed call nothing was stored: the
    test reads what the local happens to hold, and a value other than null
    is handed to [CFRelease]. *)
Definition FindKeypressCookies_release (elements : option (list Element))
    : M unit :=
  match elements with
  | Some _ => ret tt
  | None =>
      pointer <- read_uninitialised ;;
      if negb (pointer =? 0) then abort ReleaseOfIndeterminatePointer
      else ret tt
  end.

(** [FindKeypressCookies] *)
Definition FindKeypressCookies : M bool :=
  this <- pimpl ;;
  call_through (m_hidDeviceInterface this)
    (Call_copyMatchingElements (m_hidDeviceInterface this)) ;;
  let '(ioReturnValue, array) :=
    drv_copyMatchingElements drv (m_hidDeviceInterface this) in
  let elements :=
    if ioReturnValue =? kIOReturnSuccess then Some array else None in
  (if negb (ioReturnValue =? kIOReturnSuccess) then
     LogErrorWhenFunctorIsntEmpty
       ("copyMatchingElements failed. code: " +:+ format_int ioReturnValue)
   else for_each FindKeypressCookies_element array) ;;
  keys <- gets m_keys ;;
  let score := FindKeypressCookies_score keys in
  FindKeypressCookies_release elements ;;
  ret (40 <? score).

(** [CreateQueue] *)
Definition CreateQueue : M bool :=
  this <- pimpl ;;
  call_through (m_hidDeviceInterface this)
    (Call_allocQueue (m_hidDeviceInterface this)) ;;
  let hidQueue := drv_allocQueue drv (m_hidDeviceInterface this) in
  modify (set_pimpl (Some
    {| m_hidDevice := m_hidDevice this;
       m_hidDeviceInterface := m_hidDeviceInterface this;
       m_plugInInterface := m_plugInInterface this;
       m_hidQueue := hidQueue |})) ;;
  if hidQueue =? 0 then
    LogErrorWhenFunctorIsntEmpty
      "Failed to alloc IOHIDQueueInterface ** via allocQueue" ;;
    ret false
  else
    call (Call_queue_create hidQueue) ;;
    let ioReturnValue := drv_queue_create drv hidQueue in
    if negb (kIOReturnSuccess =? ioReturnValue) then
      LogErrorWhenFunctorIsntEmpty
        ("Failed to create queue. Error: " +:+ format_int ioReturnValue) ;;
      ret false
    else
      call (Call_queue_start hidQueue) ;;
      let ioReturnValue := drv_queue_start drv hidQueue in
      if negb (ioReturnValue =? kIOReturnSuccess) then
        LogErrorWhenFunctorIsntEmpty "Failed to start queue." ;;
        ret false
      else ret true.

(** [AddElementsToQueue] *)
Definition AddElementsToQueue : M bool :=
  this <- pimpl ;;
  keys <- gets m_keys ;;
  for_each_with
    (fun success iter =>
       if resolved iter then
         call_through (m_hidQueue this)
           (Call_queue_addElement (m_hidQueue this) (macCookieValue iter)) ;;
         let ioReturnValue :=
           drv_queue_addElement drv (m_hidQueue this) (macCookieValue iter) in
         if negb (ioReturnValue =? kIOReturnSuccess) then
           assert_ false "failed to add element to the queue" ;;
           ret false
         else ret success
       else ret success)
    true keys.

(** [m_keys.empty()] *)
Definition vector_empty (keys : list PerKeyData) : bool :=
  match keys with [] => true | _ :: _ => false end.

Definition FORCE_APPLICATION_TO_IGNORE_THIS_KEY : bool := true.

(** [PopulateVectorOfKeyInfo].  [m_keys.reserve(250)] sets the capacity of
    the vector, which no code reads; the vector's size is the number of
    items pushed. *)
Definition PopulateVectorOfKeyInfo : M bool :=
  keys <- gets m_keys ;;
  if negb (vector_empty keys) then
    assert_ false
      "you should only ever call this function ONCE, and that is when we do initial population" ;;
    ret false
  else
    modify (fun st =>
      let m_keys := m_keys st in
      let m_keys := PushOneItem m_keys "BOGUS PLACEHOLDER AT INDEX ZERO" 0 0 false in
      let m_keys := PushOneItem m_keys "kHIDUsage_KeyboardErrorRollOver" kHIDUsage_KeyboardErrorRollOver 0 FORCE_APPLICATION_TO_IGNORE_THIS_KEY in
      let m_keys := PushOneItem m_keys "kHIDUsage_KeyboardPOSTFail" kHIDUsage_KeyboardPOSTFail 0 FORCE_APPLICATION_TO_IGNORE_THIS_KEY in
      let m_keys := PushOneItem m_keys "kHIDUsage_KeyboardErrorUndefined" kHIDUsage_KeyboardErrorUndefined 0 FORCE_APPLICATION_TO_IGNORE_THIS_KEY in
      let m_keys := PushOneItem m_keys "kHIDUsage_KeyboardA" kHIDUsage_KeyboardA 0 false in
      let m_keys := PushOneItem m_keys "kHIDUsage_KeyboardB" kHIDUsage_KeyboardB 0 false in
      let m_keys := PushOneItem m_keys "kHIDUsage_KeyboardC" kHIDUsage_KeyboardC 0 false in
      let m_keys := PushOneItem m_keys "kHIDUsage_KeyboardD" kHIDUsage_KeyboardD 0 false in
      let m_keys := PushOneItem m_keys "kHIDUsage_KeyboardE" kHIDUsage_KeyboardE 0 false in
      let m_keys := PushOneItem m_keys "kHIDUsage_KeyboardF" kHIDUsage_KeyboardF 0 false in
      let m_keys := PushOneItem m_keys "kHIDUsage_KeyboardG" kHIDUsage_KeyboardG 0 false in
      let m_keys := PushOneItem m_keys "kHIDUsage_KeyboardH" kHIDUsage_KeyboardH 0 false in
      let m_keys := PushOneItem m_keys "kHIDUsage_KeyboardI" kHIDUsage_KeyboardI 0 false in
      let m_keys := PushOneItem m_keys "kHIDUsage_KeyboardJ" kHIDUsage_KeyboardJ 0 false in
      let m_keys := PushOneItem m_keys "kHIDUsage_KeyboardK" kHIDUsage_KeyboardK 0 false in
      let m_keys := PushOneItem m_keys "kHIDUsage_KeyboardL" kHIDUsage_KeyboardL 0 false in
      let m_keys := PushOneItem m_keys "kHIDUsage_KeyboardM" kHIDUsage_KeyboardM 0 false in
      let m_keys := PushOneItem m_keys "kHIDUsage_KeyboardN" kHIDUsage_KeyboardN 0 false in
      let m_keys := PushOneItem m_keys "kHIDUsage_KeyboardO" kHIDUsage_KeyboardO 0 false in
      let m_keys := PushOneItem m_keys "kHIDUsage_KeyboardP" kHIDUsage_KeyboardP 0 false in
      let m_keys := PushOneItem m_keys "kHIDUsage_KeyboardQ" kHIDUsage_KeyboardQ 0 false in
      let m_keys := PushOneItem m_keys "kHIDUsage_KeyboardR" kHIDUsage_KeyboardR 0 false in
      let m_keys := PushOneItem m_keys "kHIDUsage_KeyboardS" kHIDUsage_KeyboardS 0 false in
      let m_keys := PushOneItem m_keys "kHIDUsage_KeyboardT" kHIDUsage_KeyboardT 0 false in
      let m_keys := PushOneItem m_keys "kHIDUsage_KeyboardU" kHIDUsage_KeyboardU 0 false in
      let m_keys := PushOneItem m_keys "kHIDUsage_KeyboardV" kHIDUsage_KeyboardV 0 false in
      let m_keys := PushOneItem m_keys "kHIDUsage_KeyboardW" kHIDUsage_KeyboardW 0 false in
      let m_keys := PushOneItem m_keys "kHIDUsage_KeyboardX" kHIDUsage_KeyboardX 0 false in
      let m_keys := PushOneItem m_keys "kHIDUsage_KeyboardY" kHIDUsage_KeyboardY 0 false in
      let m_keys := PushOneItem m_keys "kHIDUsage_KeyboardZ" kHIDUsage_KeyboardZ 0 false in
      let m_keys := PushOneItem m_keys "kHIDUsage_Keyboard1" kHIDUsage_Keyboard1 0 false in
      let m_keys := PushOneItem m_keys "kHIDUsage_Keyboard2" kHIDUsage_Keyboard2 0 false in
      let m_keys := PushOneItem m_keys "kHIDUsage_Keyboard3" kHIDUsage_Keyboard3 0 false in
      let m_keys := PushOneItem m_keys "kHIDUsage_Keyboard4" kHIDUsage_Keyboard4 0 false in
      let m_keys := PushOneItem m_keys "kHIDUsage_Keyboard5" kHIDUsage_Keyboard5 0 false in
      let m_keys := PushOneItem m_keys "kHIDUsage_Keyboard6" kHIDUsage_Keyboard6 0 false in
      let m_keys := PushOneItem m_keys "kHIDUsage_Keyboard7" kHIDUsage_Keyboard7 0 false in
      let m_keys := PushOneItem m_keys "kHIDUsage_Keyboard8" kHIDUsage_Keyboard8 0 false in
      let m_keys := PushOneItem m_keys "kHIDUsage_Keyboard9" kHIDUsage_Keyboard9 0 false in
      let m_keys := PushOneItem m_keys "kHIDUsage_Keyboard0" kHIDUsage_Keyboard0 0 false in
      let m_keys := PushOneItem m_keys "kHIDUsage_KeyboardReturnOrEnter" kHIDUsage_KeyboardReturnOrEnter 0 false in
      let m_keys := PushOneItem m_keys "kHIDUsage_KeyboardEscape" kHIDUsage_KeyboardEscape 0 false in
      let m_keys := PushOneItem m_keys "kHIDUsage_KeyboardDeleteOrBackspace" kHIDUsage_KeyboardDeleteOrBackspace 0 false in
      let m_keys := PushOneItem m_keys "kHIDUsage_KeyboardTab" kHIDUsage_KeyboardTab 0 false in
      let m_keys := PushOneItem m_keys "kHIDUsage_KeyboardSpacebar" kHIDUsage_KeyboardSpacebar 0 false in
      let m_keys := PushOneItem m_keys "kHIDUsage_KeyboardHyphen" kHIDUsage_KeyboardHyphen 0 false in
      let m_keys := PushOneItem m_keys "kHIDUsage_KeyboardEqualSign" kHIDUsage_KeyboardEqualSign 0 false in
      let m_keys := PushOneItem m_keys "kHIDUsage_KeyboardOpenBracket" kHIDUsage_KeyboardOpenBracket 0 false in
      let m_keys := PushOneItem m_keys "kHIDUsage_KeyboardCloseBracket" kHIDUsage_KeyboardCloseBracket 0 false in
      let m_keys := PushOneItem m_keys "kHIDUsage_KeyboardBackslash" kHIDUsage_KeyboardBackslash 0 false in
      let m_keys := PushOneItem m_keys "kHIDUsage_KeyboardNonUSPound" kHIDUsage_KeyboardNonUSPound 0 false in
      let m_keys := PushOneItem m_keys "kHIDUsage_KeyboardSemicolon" kHIDUsage_KeyboardSemicolon 0 false in
      let m_keys := PushOneItem m_keys "kHIDUsage_KeyboardQuote" kHIDUsage_KeyboardQuote 0 false in
      let m_keys := PushOneItem m_keys "kHIDUsage_KeyboardGraveAccentAndTilde" kHIDUsage_KeyboardGraveAccentAndTilde 0 false in
      let m_keys := PushOneItem m_keys "kHIDUsage_KeyboardComma" kHIDUsage_KeyboardComma 0 false in
      let m_keys := PushOneItem m_keys "kHIDUsage_KeyboardPeriod" kHIDUsage_KeyboardPeriod 0 false in
      let m_keys := PushOneItem m_keys "kHIDUsage_KeyboardSlash" kHIDUsage_KeyboardSlash 0 false in
      let m_keys := PushOneItem m_keys "kHIDUsage_KeyboardCapsLock" kHIDUsage_KeyboardCapsLock 0 false in
      let m_keys := PushOneItem m_keys "kHIDUsage_KeyboardF1" kHIDUsage_KeyboardF1 0 FORCE_APPLICATION_TO_IGNORE_THIS_KEY in
      let m_keys := PushOneItem m_keys "kHIDUsage_KeyboardF2" kHIDUsage_KeyboardF2 0 FORCE_APPLICATION_TO_IGNORE_THIS_KEY in
      let m_keys := PushOneItem m_keys "kHIDUsage_KeyboardF3" kHIDUsage_KeyboardF3 0 FORCE_APPLICATION_TO_IGNORE_THIS_KEY in
      let m_keys := PushOneItem m_keys "kHIDUsage_KeyboardF4" kHIDUsage_KeyboardF4 0 FORCE_APPLICATION_TO_IGNORE_THIS_KEY in
      let m_keys := PushOneItem m_keys "kHIDUsage_KeyboardF5" kHIDUsage_KeyboardF5 0 FORCE_APPLICATION_TO_IGNORE_THIS_KEY in
      let m_keys := PushOneItem m_keys "kHIDUsage_KeyboardF6" kHIDUsage_KeyboardF6 0 FORCE_APPLICATION_TO_IGNORE_THIS_KEY in
      let m_keys := PushOneItem m_keys "kHIDUsage_KeyboardF7" kHIDUsage_KeyboardF7 0 FORCE_APPLICATION_TO_IGNORE_THIS_KEY in
      let m_keys := PushOneItem m_keys "kHIDUsage_KeyboardF8" kHIDUsage_KeyboardF8 0 FORCE_APPLICATION_TO_IGNORE_THIS_KEY in
      let m_keys := PushOneItem m_keys "kHIDUsage_KeyboardF9" kHIDUsage_KeyboardF9 0 FORCE_APPLICATION_TO_IGNORE_THIS_KEY in
      let m_keys := PushOneItem m_keys "kHIDUsage_KeyboardF10" kHIDUsage_KeyboardF10 0 FORCE_APPLICATION_TO_IGNORE_THIS_KEY in
      let m_keys := PushOneItem m_keys "kHIDUsage_KeyboardF11" kHIDUsage_KeyboardF11 0 FORCE_APPLICATION_TO_IGNORE_THIS_KEY in
      let m_keys := PushOneItem m_keys "kHIDUsage_KeyboardF12" kHIDUsage_KeyboardF12 0 FORCE_APPLICATION_TO_IGNORE_THIS_KEY in
      let m_keys := PushOneItem m_keys "kHIDUsage_KeyboardPrintScreen" kHIDUsage_KeyboardPrintScreen 0 FORCE_APPLICATION_TO_IGNORE_THIS_KEY in
      let m_keys := PushOneItem m_keys "kHIDUsage_KeyboardScrollLock" kHIDUsage_KeyboardScrollLock 0 FORCE_APPLICATION_TO_IGNORE_THIS_KEY in
      let m_keys := PushOneItem m_keys "kHIDUsage_KeyboardPause" kHIDUsage_KeyboardPause 0 FORCE_APPLICATION_TO_IGNORE_THIS_KEY in
      let m_keys := PushOneItem m_keys "kHIDUsage_KeyboardInsert" kHIDUsage_KeyboardInsert 0 FORCE_APPLICATION_TO_IGNORE_THIS_KEY in
      let m_keys := PushOneItem m_keys "kHIDUsage_KeyboardHome" kHIDUsage_KeyboardHome 0 FORCE_APPLICATION_TO_IGNORE_THIS_KEY in
      let m_keys := PushOneItem m_keys "kHIDUsage_KeyboardPageUp" kHIDUsage_KeyboardPageUp 0 FORCE_APPLICATION_TO_IGNORE_THIS_KEY in
      let m_keys := PushOneItem m_keys "kHIDUsage_KeyboardDeleteForward" kHIDUsage_KeyboardDeleteForward 0 FORCE_APPLICATION_TO_IGNORE_THIS_KEY in
      let m_keys := PushOneItem m_keys "kHIDUsage_KeyboardEnd" kHIDUsage_KeyboardEnd 0 FORCE_APPLICATION_TO_IGNORE_THIS_KEY in
      let m_keys := PushOneItem m_keys "kHIDUsage_KeyboardPageDown" kHIDUsage_KeyboardPageDown 0 FORCE_APPLICATION_TO_IGNORE_THIS_KEY in
      let m_keys := PushOneItem m_keys "kHIDUsage_KeyboardRightArrow" kHIDUsage_KeyboardRightArrow 0 FORCE_APPLICATION_TO_IGNORE_THIS_KEY in
      let m_keys := PushOneItem m_keys "kHIDUsage_KeyboardLeftArrow" kHIDUsage_KeyboardLeftArrow 0 FORCE_APPLICATION_TO_IGNORE_THIS_KEY in
      let m_keys := PushOneItem m_keys "kHIDUsage_KeyboardDownArrow" kHIDUsage_KeyboardDownArrow 0 FORCE_APPLICATION_TO_IGNORE_THIS_KEY in
      let m_keys := PushOneItem m_keys "kHIDUsage_KeyboardUpArrow" kHIDUsage_KeyboardUpArrow 0 FORCE_APPLICATION_TO_IGNORE_THIS_KEY in
      let m_keys := PushOneItem m_keys "kHIDUsage_KeypadNumLock" kHIDUsage_KeypadNumLock 0 FORCE_APPLICATION_TO_IGNORE_THIS_KEY in
      let m_keys := PushOneItem m_keys "kHIDUsage_KeypadSlash" kHIDUsage_KeypadSlash 0 FORCE_APPLICATION_TO_IGNORE_THIS_KEY in
      let m_keys := PushOneItem m_keys "kHIDUsage_KeypadAsterisk" kHIDUsage_KeypadAsterisk 0 FORCE_APPLICATION_TO_IGNORE_THIS_KEY in
      let m_keys := PushOneItem m_keys "kHIDUsage_KeypadHyphen" kHIDUsage_KeypadHyphen 0 FORCE_APPLICATION_TO_IGNORE_THIS_KEY in
      let m_keys := PushOneItem m_keys "kHIDUsage_KeypadPlus" kHIDUsage_KeypadPlus 0 FORCE_APPLICATION_TO_IGNORE_THIS_KEY in
      let m_keys := PushOneItem m_keys "kHIDUsage_KeypadEnter" kHIDUsage_KeypadEnter 0 FORCE_APPLICATION_TO_IGNORE_THIS_KEY in
      let m_keys := PushOneItem m_keys "kHIDUsage_Keypad1" kHIDUsage_Keypad1 0 FORCE_APPLICATION_TO_IGNORE_THIS_KEY in
      let m_keys := PushOneItem m_keys "kHIDUsage_Keypad2" kHIDUsage_Keypad2 0 FORCE_APPLICATION_TO_IGNORE_THIS_KEY in
      let m_keys := PushOneItem m_keys "kHIDUsage_Keypad3" kHIDUsage_Keypad3 0 FORCE_APPLICATION_TO_IGNORE_THIS_KEY in
      let m_keys := PushOneItem m_keys "kHIDUsage_Keypad4" kHIDUsage_Keypad4 0 FORCE_APPLICATION_TO_IGNORE_THIS_KEY in
      let m_keys := PushOneItem m_keys "kHIDUsage_Keypad5" kHIDUsage_Keypad5 0 FORCE_APPLICATION_TO_IGNORE_THIS_KEY in
      let m_keys := PushOneItem m_keys "kHIDUsage_Keypad6" kHIDUsage_Keypad6 0 FORCE_APPLICATION_TO_IGNORE_THIS_KEY in
      let m_keys := PushOneItem m_keys "kHIDUsage_Keypad7" kHIDUsage_Keypad7 0 FORCE_APPLICATION_TO_IGNORE_THIS_KEY in
      let m_keys := PushOneItem m_keys "kHIDUsage_Keypad8" kHIDUsage_Keypad8 0 FORCE_APPLICATION_TO_IGNORE_THIS_KEY in
      let m_keys := PushOneItem m_keys "kHIDUsage_Keypad9" kHIDUsage_Keypad9 0 FORCE_APPLICATION_TO_IGNORE_THIS_KEY in
      let m_keys := PushOneItem m_keys "kHIDUsage_Keypad0" kHIDUsage_Keypad0 0 FORCE_APPLICATION_TO_IGNORE_THIS_KEY in
      let m_keys := PushOneItem m_keys "kHIDUsage_KeypadPeriod" kHIDUsage_KeypadPeriod 0 FORCE_APPLICATION_TO_IGNORE_THIS_KEY in
      let m_keys := PushOneItem m_keys "kHIDUsage_KeyboardNonUSBackslash" kHIDUsage_KeyboardNonUSBackslash 0 false in
      let m_keys := PushOneItem m_keys "kHIDUsage_KeyboardApplication" kHIDUsage_KeyboardApplication 0 false in
      let m_keys := PushOneItem m_keys "kHIDUsage_KeyboardPower" kHIDUsage_KeyboardPower 0 FORCE_APPLICATION_TO_IGNORE_THIS_KEY in
      let m_keys := PushOneItem m_keys "kHIDUsage_KeypadEqualSign" kHIDUsage_KeypadEqualSign 0 FORCE_APPLICATION_TO_IGNORE_THIS_KEY in
      let m_keys := PushOneItem m_keys "kHIDUsage_KeyboardF13" kHIDUsage_KeyboardF13 0 FORCE_APPLICATION_TO_IGNORE_THIS_KEY in
      let m_keys := PushOneItem m_keys "kHIDUsage_KeyboardF14" kHIDUsage_KeyboardF14 0 FORCE_APPLICATION_TO_IGNORE_THIS_KEY in
      let m_keys := PushOneItem m_keys "kHIDUsage_KeyboardF15" kHIDUsage_KeyboardF15 0 FORCE_APPLICATION_TO_IGNORE_THIS_KEY in
      let m_keys := PushOneItem m_keys "kHIDUsage_KeyboardF16" kHIDUsage_KeyboardF16 0 FORCE_APPLICATION_TO_IGNORE_THIS_KEY in
      let m_keys := PushOneItem m_keys "kHIDUsage_KeyboardF17" kHIDUsage_KeyboardF17 0 FORCE_APPLICATION_TO_IGNORE_THIS_KEY in
      let m_keys := PushOneItem m_keys "kHIDUsage_KeyboardF18" kHIDUsage_KeyboardF18 0 FORCE_APPLICATION_TO_IGNORE_THIS_KEY in
      let m_keys := PushOneItem m_keys "kHIDUsage_KeyboardF19" kHIDUsage_KeyboardF19 0 FORCE_APPLICATION_TO_IGNORE_THIS_KEY in
      let m_keys := PushOneItem m_keys "kHIDUsage_KeyboardF20" kHIDUsage_KeyboardF20 0 FORCE_APPLICATION_TO_IGNORE_THIS_KEY in
      let m_keys := PushOneItem m_keys "kHIDUsage_KeyboardF21" kHIDUsage_KeyboardF21 0 FORCE_APPLICATION_TO_IGNORE_THIS_KEY in
      let m_keys := PushOneItem m_keys "kHIDUsage_KeyboardF22" kHIDUsage_KeyboardF22 0 FORCE_APPLICATION_TO_IGNORE_THIS_KEY in
      let m_keys := PushOneItem m_keys "kHIDUsage_KeyboardF23" kHIDUsage_KeyboardF23 0 FORCE_APPLICATION_TO_IGNORE_THIS_KEY in
      let m_keys := PushOneItem m_keys "kHIDUsage_KeyboardF24" kHIDUsage_KeyboardF24 0 FORCE_APPLICATION_TO_IGNORE_THIS_KEY in
      let m_keys := PushOneItem m_keys "kHIDUsage_KeyboardExecute" kHIDUsage_KeyboardExecute 0 FORCE_APPLICATION_TO_IGNORE_THIS_KEY in
      let m_keys := PushOneItem m_keys "kHIDUsage_KeyboardHelp" kHIDUsage_KeyboardHelp 0 FORCE_APPLICATION_TO_IGNORE_THIS_KEY in
      let m_keys := PushOneItem m_keys "kHIDUsage_KeyboardMenu" kHIDUsage_KeyboardMenu 0 FORCE_APPLICATION_TO_IGNORE_THIS_KEY in
      let m_keys := PushOneItem m_keys "kHIDUsage_KeyboardSelect" kHIDUsage_KeyboardSelect 0 FORCE_APPLICATION_TO_IGNORE_THIS_KEY in
      let m_keys := PushOneItem m_keys "kHIDUsage_KeyboardStop" kHIDUsage_KeyboardStop 0 FORCE_APPLICATION_TO_IGNORE_THIS_KEY in
      let m_keys := PushOneItem m_keys "kHIDUsage_KeyboardAgain" kHIDUsage_KeyboardAgain 0 FORCE_APPLICATION_TO_IGNORE_THIS_KEY in
      let m_keys := PushOneItem m_keys "kHIDUsage_KeyboardUndo" kHIDUsage_KeyboardUndo 0 FORCE_APPLICATION_TO_IGNORE_THIS_KEY in
      let m_keys := PushOneItem m_keys "kHIDUsage_KeyboardCut" kHIDUsage_KeyboardCut 0 FORCE_APPLICATION_TO_IGNORE_THIS_KEY in
      let m_keys := PushOneItem m_keys "kHIDUsage_KeyboardCopy" kHIDUsage_KeyboardCopy 0 FORCE_APPLICATION_TO_IGNORE_THIS_KEY in
      let m_keys := PushOneItem m_keys "kHIDUsage_KeyboardPaste" kHIDUsage_KeyboardPaste 0 FORCE_APPLICATION_TO_IGNORE_THIS_KEY in
      let m_keys := PushOneItem m_keys "kHIDUsage_KeyboardFind" kHIDUsage_KeyboardFind 0 FORCE_APPLICATION_TO_IGNORE_THIS_KEY in
      let m_keys := PushOneItem m_keys "kHIDUsage_KeyboardMute" kHIDUsage_KeyboardMute 0 FORCE_APPLICATION_TO_IGNORE_THIS_KEY in
      let m_keys := PushOneItem m_keys "kHIDUsage_KeyboardVolumeUp" kHIDUsage_KeyboardVolumeUp 0 FORCE_APPLICATION_TO_IGNORE_THIS_KEY in
      let m_keys := PushOneItem m_keys "kHIDUsage_KeyboardVolumeDown" kHIDUsage_KeyboardVolumeDown 0 FORCE_APPLICATION_TO_IGNORE_THIS_KEY in
      let m_keys := PushOneItem m_keys "kHIDUsage_KeyboardLockingCapsLock" kHIDUsage_KeyboardLockingCapsLock 0 FORCE_APPLICATION_TO_IGNORE_THIS_KEY in
      let m_keys := PushOneItem m_keys "kHIDUsage_KeyboardLockingNumLock" kHIDUsage_KeyboardLockingNumLock 0 FORCE_APPLICATION_TO_IGNORE_THIS_KEY in
      let m_keys := PushOneItem m_keys "kHIDUsage_KeyboardLockingScrollLock" kHIDUsage_KeyboardLockingScrollLock 0 FORCE_APPLICATION_TO_IGNORE_THIS_KEY in
      let m_keys := PushOneItem m_keys "kHIDUsage_KeypadComma" kHIDUsage_KeypadComma 0 FORCE_APPLICATION_TO_IGNORE_THIS_KEY in
      let m_keys := PushOneItem m_keys "kHIDUsage_KeypadEqualSignAS400" kHIDUsage_KeypadEqualSignAS400 0 FORCE_APPLICATION_TO_IGNORE_THIS_KEY in
      let m_keys := PushOneItem m_keys "kHIDUsage_KeyboardInternational1" kHIDUsage_KeyboardInternational1 0 false in
      let m_keys := PushOneItem m_keys "kHIDUsage_KeyboardInternational2" kHIDUsage_KeyboardInternational2 0 false in
      let m_keys := PushOneItem m_keys "kHIDUsage_KeyboardInternational3" kHIDUsage_KeyboardInternational3 0 false in
      let m_keys := PushOneItem m_keys "kHIDUsage_KeyboardInternational4" kHIDUsage_KeyboardInternational4 0 false in
      let m_keys := PushOneItem m_keys "kHIDUsage_KeyboardInternational5" kHIDUsage_KeyboardInternational5 0 false in
      let m_keys := PushOneItem m_keys "kHIDUsage_KeyboardInternational6" kHIDUsage_KeyboardInternational6 0 false in
      let m_keys := PushOneItem m_keys "kHIDUsage_KeyboardInternational7" kHIDUsage_KeyboardInternational7 0 false in
      let m_keys := PushOneItem m_keys "kHIDUsage_KeyboardInternational8" kHIDUsage_KeyboardInternational8 0 false in
      let m_keys := PushOneItem m_keys "kHIDUsage_KeyboardInternational9" kHIDUsage_KeyboardInternational9 0 false in
      let m_keys := PushOneItem m_keys "kHIDUsage_KeyboardLANG1" kHIDUsage_KeyboardLANG1 0 false in
      let m_keys := PushOneItem m_keys "kHIDUsage_KeyboardLANG2" kHIDUsage_KeyboardLANG2 0 false in
      let m_keys := PushOneItem m_keys "kHIDUsage_KeyboardLANG3" kHIDUsage_KeyboardLANG3 0 false in
      let m_keys := PushOneItem m_keys "kHIDUsage_KeyboardLANG4" kHIDUsage_KeyboardLANG4 0 false in
      let m_keys := PushOneItem m_keys "kHIDUsage_KeyboardLANG5" kHIDUsage_KeyboardLANG5 0 false in
      let m_keys := PushOneItem m_keys "kHIDUsage_KeyboardLANG6" kHIDUsage_KeyboardLANG6 0 false in
      let m_keys := PushOneItem m_keys "kHIDUsage_KeyboardLANG7" kHIDUsage_KeyboardLANG7 0 false in
      let m_keys := PushOneItem m_keys "kHIDUsage_KeyboardLANG8" kHIDUsage_KeyboardLANG8 0 false in
      let m_keys := PushOneItem m_keys "kHIDUsage_KeyboardLANG9" kHIDUsage_KeyboardLANG9 0 false in
      let m_keys := PushOneItem m_keys "kHIDUsage_KeyboardAlternateErase" kHIDUsage_KeyboardAlternateErase 0 false in
      let m_keys := PushOneItem m_keys "kHIDUsage_KeyboardSysReqOrAttention" kHIDUsage_KeyboardSysReqOrAttention 0 false in
      let m_keys := PushOneItem m_keys "kHIDUsage_KeyboardCancel" kHIDUsage_KeyboardCancel 0 false in
      let m_keys := PushOneItem m_keys "kHIDUsage_KeyboardClear" kHIDUsage_KeyboardClear 0 false in
      let m_keys := PushOneItem m_keys "kHIDUsage_KeyboardPrior" kHIDUsage_KeyboardPrior 0 false in
      let m_keys := PushOneItem m_keys "kHIDUsage_KeyboardReturn" kHIDUsage_KeyboardReturn 0 false in
      let m_keys := PushOneItem m_keys "kHIDUsage_KeyboardSeparator" kHIDUsage_KeyboardSeparator 0 false in
      let m_keys := PushOneItem m_keys "kHIDUsage_KeyboardOut" kHIDUsage_KeyboardOut 0 false in
      let m_keys := PushOneItem m_keys "kHIDUsage_KeyboardOper" kHIDUsage_KeyboardOper 0 false in
      let m_keys := PushOneItem m_keys "kHIDUsage_KeyboardClearOrAgain" kHIDUsage_KeyboardClearOrAgain 0 false in
      let m_keys := PushOneItem m_keys "kHIDUsage_KeyboardCrSelOrProps" kHIDUsage_KeyboardCrSelOrProps 0 false in
      let m_keys := PushOneItem m_keys "kHIDUsage_KeyboardExSel" kHIDUsage_KeyboardExSel 0 false in
      set_keys m_keys st) ;;
    ret true.

(** The condition of the first [if] of [Initialize]: the five stages of the
    basic initialization, each run only when those before it succeeded. *)
Definition Initialize_basic : M bool :=
  FindKeyboard
    &&& CreatePluginInterface
    &&& CreateDeviceInterface
    &&& PopulateVectorOfKeyInfo
    &&& FindKeypressCookies.

(** [Initialize] *)
Definition Initialize : M unit :=
  basicSuccess <- Initialize_basic ;;
  (if basicSuccess then ret tt
   else
     LogInitializationError "Failed basic keyboard initialization." ;;
     m_pimpl_reset) ;;
  queueEnabled <- gets m_queueEnabled ;;
  if basicSuccess && queueEnabled then
    queueSuccess <- (CreateQueue &&& AddElementsToQueue) ;;
    if queueSuccess then ret tt
    else
      LogInitializationError
        "Failed basic keyboard input queue initialization."
  else ret tt.

(** The member initialisers of the constructor.  What the process did
    before (the trace, the log, the queue position) stays. *)
Definition member_initialisers (enableQueue : bool) (errorLoggerFunctor : bool)
    (st : Machine) : Machine :=
  {| m_pimpl := Some PrivateImpl_new;
     m_keys := [];
     m_errorLoggerFunctor := errorLoggerFunctor;
     m_deviceInformationProperties := [];
     m_queueEnabled := enableQueue;
     driver_calls := driver_calls st; logged := logged st;
     queue_reads := queue_reads st;
     uninitialised := uninitialised st |}.

(** The constructor: the member initialisers, then [Initialize]. *)
Definition HelperForKeyboardReaderIOKit_constructor
    (enableQueue : bool) (errorLoggerFunctor : bool) : M unit :=
  modify (member_initialisers enableQueue errorLoggerFunctor) ;;
  Initialize.

(** One of the four blocks of [DebugCheckErrorKeys], which differ in the
    usage code and in the text logged. *)
Definition DebugCheckErrorKey (usage : Z) (label : string) : M unit :=
  this <- pimpl ;;
  keys <- gets m_keys ;;
  match keys !! Z.to_nat usage with
  | None => abort IndexOutOfRange
  | Some key =>
      call_through (m_hidDeviceInterface this)
        (Call_getElementValue (m_hidDeviceInterface this) (macCookieValue key)) ;;
      let '(ioReturnValue, theEvent_value) :=
        drv_getElementValue drv (m_hidDeviceInterface this) (macCookieValue key) in
      if ioReturnValue =? kIOReturnSuccess then
        if negb (theEvent_value =? 0) then LogErrorWhenFunctorIsntEmpty label
        else ret tt
      else ret tt
  end.

(** [DebugCheckErrorKeys] *)
Definition DebugCheckErrorKeys : M unit :=
  if _DEBUG then
    DebugCheckErrorKey kHIDUsage_KeyboardErrorRollOver
      "kHIDUsage_KeyboardErrorRollOver" ;;
    DebugCheckErrorKey kHIDUsage_KeyboardPOSTFail
      "kHIDUsage_KeyboardPOSTFail" ;;
    DebugCheckErrorKey kHIDUsage_KeyboardErrorUndefined
      "kHIDUsage_KeyboardErrorUndefined" ;;
    DebugCheckErrorKey kHIDUsage_KeyboardPower
      "kHIDUsage_KeyboardPower"
  else ret tt.

(** The body of the [while] loop of [CountOfCurrentlyDepressedKeys].  The
    local [theEvent] has no initialiser, and the driver stores the event in
    it when [getElementValue] succeeds.  After a failed call (in a build
    without [assert]s, which goes on) nothing was stored, and
    [theEvent.value] is what the local happens to hold. *)
Definition CountOfCurrentlyDepressedKeys_key (this : PrivateImpl)
    (score : Z) (iter : PerKeyData) : M Z :=
  if resolved iter then
    call_through (m_hidDeviceInterface this)
      (Call_getElementValue (m_hidDeviceInterface this) (macCookieValue iter)) ;;
    let '(ioReturnValue, stored) :=
      drv_getElementValue drv (m_hidDeviceInterface this) (macCookieValue iter) in
    (if negb (ioReturnValue =? kIOReturnSuccess) then
       assert_ false "failed to get element value."
     else ret tt) ;;
    theEvent_value <-
      (if ioReturnValue =? kIOReturnSuccess then ret stored
       else read_uninitialised) ;;
    if negb (theEvent_value =? 0) then ret (score + 1) else ret score
  else ret score.

(** [CountOfCurrentlyDepressedKeys] *)
Definition CountOfCurrentlyDepressedKeys : M Z :=
  p <- gets m_pimpl ;;
  match p with
  | None => ret (-1)
  | Some this =>
      DebugCheckErrorKeys ;;
      keys <- gets m_keys ;;
      for_each_with (CountOfCurrentlyDepressedKeys_key this) 0 keys
  end.

(** The text [ReadFromQueue_Experimental] builds for a button event (and
    does nothing with). *)
Definition event_message (the_event : IOHIDEventStruct) : string :=
  let msg :=
    "event from queue. code: " +:+ format_int (type the_event)
      +:+ ". cookie: " +:+ format_int (elementCookie the_event)
      +:+ ". value " +:+ format_int (value the_event) in
  if negb (value the_event =? 0) then "KEY PRESS " +:+ msg
  else "KEY RELEASE " +:+ msg.

(** The [while] loop of [ReadFromQueue_Experimental]: it runs for as long as
    [getNextEvent] answers [kIOReturnSuccess], and yields the first other
    answer.  [fuel] bounds the number of iterations; [None] says the bound
    was reached with the loop still running. *)
Fixpoint ReadFromQueue_loop (fuel : nat) (hidQueue : Z) : M (option IOReturn) :=
  match fuel with
  | O => ret None
  | S fuel' =>
      call_through hidQueue (Call_queue_getNextEvent hidQueue) ;;
      n <- gets queue_reads ;;
      modify next_read ;;
      let '(ioReturnValue, the_event) := drv_queue_getNextEvent drv hidQueue n in
      if kIOReturnSuccess =? ioReturnValue then
        (if negb (type the_event =? kIOHIDElementTypeInput_Button) then ret tt
         else let msg := event_message the_event in ret tt) ;;
        ReadFromQueue_loop fuel' hidQueue
      else ret (Some ioReturnValue)
  end.

(** [ReadFromQueue_Experimental]; [Some tt] when the function returned,
    [None] when [fuel] was too small for the loop. *)
Definition ReadFromQueue_Experimental (fuel : nat) : M (option unit) :=
  p <- gets m_pimpl ;;
  match p with
  | None => ret (Some tt)
  | Some this =>
      if m_hidQueue this =? 0 then ret (Some tt)
      else
        r <- ReadFromQueue_loop fuel (m_hidQueue this) ;;
        match r with
        | None => ret None
        | Some ioReturnValue =>
            (if negb (ioReturnValue =? kIOReturnUnderrun) then
               (if kIOReturnSuccess =? ioReturnValue then
                  assert_ false "if we had gotten this, then we should have kept looping"
                else ret tt) ;;
               LogErrorWhenFunctorIsntEmpty
                 ("getNextEvent failed. code: " +:+ format_int ioReturnValue)
             else ret tt) ;;
            ret (Some tt)
        end
  end.

End HelperForKeyboardReaderIOKit.

(** ** Simulated drivers

    Concrete drivers and states on which the theorems below are run. *)

(** An element descriptor holding three numbers. *)
Definition descriptor (cookie usage usagePage : Z) : Element :=
  {| kIOHIDElementCookieKey := Some (CFNumber true cookie);
     kIOHIDElementUsageKey := Some (CFNumber true usage);
     kIOHIDElementUsagePageKey := Some (CFNumber true usagePage) |}.

(** A descriptor with a cookie and nothing else. *)
Definition descriptor_cookie_only (cookie : Z) : Element :=
  {| kIOHIDElementCookieKey := Some (CFNumber true cookie);
     kIOHIDElementUsageKey := None;
     kIOHIDElementUsagePageKey := None |}.

(** The cookie type where it is [uint32_t]. *)
Definition cookie_uint32 (n : Z) : Z := n mod 2 ^ 32.

Definition no_event : IOHIDEventStruct :=
  {| type := 0; elementCookie := 0; value := 0 |}.

(** A keyboard whose driver reports the given elements, with handles 11
    (device), 12 (plug-in), 13 (device interface) and 14 (queue); key 104 is
    held down, and three events wait in the queue. *)
Definition keyboard_reporting (elements : list Element) : Driver :=
  {| drv_IOServiceMatching := true;
     drv_CFNumberCreate_usagePage := true;
     drv_CFNumberCreate_usage := true;
     drv_IOServiceGetMatchingService := 11;
     drv_IOCreatePlugInInterfaceForService := fun _ => (kIOReturnSuccess, 12);
     drv_IORegistryEntryCreateCFProperty := fun _ key =>
       match key with
       | kIOHIDVendorIDKey => Some (CFNumber true 1452)
       | kIOHIDProductKey => Some (CFString "Keyboard")
       | _ => None
       end;
     drv_QueryInterface := fun _ => (S_OK, 13);
     drv_open := fun _ => kIOReturnSuccess;
     drv_copyMatchingElements := fun _ => (kIOReturnSuccess, elements);
     drv_getElementValue := fun _ cookie =>
       (kIOReturnSuccess, if cookie =? 104 then 1 else 0);
     drv_allocQueue := fun _ => 14;
     drv_queue_create := fun _ => kIOReturnSuccess;
     drv_queue_start := fun _ => kIOReturnSuccess;
     drv_queue_addElement := fun _ _ => kIOReturnSuccess;
     drv_queue_getNextEvent := fun _ n =>
       if (n <? 3)%nat then
         (kIOReturnSuccess,
          {| type := kIOHIDElementTypeInput_Button;
             elementCookie := 104; value := Z.of_nat n mod 2 |})
       else (kIOReturnUnderrun, no_event) |}.

(** Elements for the usage codes [first .. first + count - 1] of the
    keyboard page, the cookie of usage [u] being [100 + u]. *)
Definition keys_from (first count : nat) : list Element :=
  map (fun u => descriptor (100 + Z.of_nat u) (Z.of_nat u)
                           kHIDPage_KeyboardOrKeypad)
      (seq first count).

(** 41 keys from the letter A on: enough for [FindKeypressCookies]. *)
Definition full_keyboard : Driver := keyboard_reporting (keys_from 4 41).

(** 40 keys: one too few. *)
Definition small_keyboard : Driver := keyboard_reporting (keys_from 4 40).

(** The full keyboard with a queue that delivers two events and then fails
    with [kIOReturnError]. *)
Definition failing_queue_keyboard : Driver :=
  {| drv_IOServiceMatching := drv_IOServiceMatching full_keyboard;
     drv_CFNumberCreate_usagePage := drv_CFNumberCreate_usagePage full_keyboard;
     drv_CFNumberCreate_usage := drv_CFNumberCreate_usage full_keyboard;
     drv_IOServiceGetMatchingService := drv_IOServiceGetMatchingService full_keyboard;
     drv_IOCreatePlugInInterfaceForService :=
       drv_IOCreatePlugInInterfaceForService full_keyboard;
     drv_IORegistryEntryCreateCFProperty :=
       drv_IORegistryEntryCreateCFProperty full_keyboard;
     drv_QueryInterface := drv_QueryInterface full_keyboard;
     drv_open := drv_open full_keyboard;
     drv_copyMatchingElements := drv_copyMatchingElements full_keyboard;
     drv_getElementValue := drv_getElementValue full_keyboard;
     drv_allocQueue := drv_allocQueue full_keyboard;
     drv_queue_create := drv_queue_create full_keyboard;
     drv_queue_start := drv_queue_start full_keyboard;
     drv_queue_addElement := drv_queue_addElement full_keyboard;
     drv_queue_getNextEvent := fun _ n =>
       if (n <? 2)%nat then
         (kIOReturnSuccess,
          {| type := kIOHIDElementTypeInput_Button;
             elementCookie := 104; value := 1 |})
       else (kIOReturnError, no_event) |}.

(** A system without a keyboard. *)
Definition no_keyboard : Driver :=
  {| drv_IOServiceMatching := true;
     drv_CFNumberCreate_usagePage := true;
     drv_CFNumberCreate_usage := true;
     drv_IOServiceGetMatchingService := 0;
     drv_IOCreatePlugInInterfaceForService := fun _ => (kIOReturnError, 0);
     drv_IORegistryEntryCreateCFProperty := fun _ _ => None;
     drv_QueryInterface := fun _ => (1, 0);
     drv_open := fun _ => kIOReturnError;
     drv_copyMatchingElements := fun _ => (kIOReturnError, []);
     drv_getElementValue := fun _ _ => (kIOReturnError, 0);
     drv_allocQueue := fun _ => 0;
     drv_queue_create := fun _ => kIOReturnError;
     drv_queue_start := fun _ => kIOReturnError;
     drv_queue_addElement := fun _ _ => kIOReturnError;
     drv_queue_getNextEvent := fun _ _ => (kIOReturnError, no_event) |}.

(** A keyboard whose device interface cannot be opened. *)
Definition unopenable_keyboard : Driver :=
  {| drv_IOServiceMatching := true;
     drv_CFNumberCreate_usagePage := true;
     drv_CFNumberCreate_usage := true;
     drv_IOServiceGetMatchingService := 11;
     drv_IOCreatePlugInInterfaceForService := fun _ => (kIOReturnSuccess, 12);
     drv_IORegistryEntryCreateCFProperty := fun _ _ => None;
     drv_QueryInterface := fun _ => (S_OK, 13);
     drv_open := fun _ => kIOReturnError;
     drv_copyMatchingElements := fun _ => (kIOReturnError, []);
     drv_getElementValue := fun _ _ => (kIOReturnError, 0);
     drv_allocQueue := fun _ => 0;
     drv_queue_create := fun _ => kIOReturnError;
     drv_queue_start := fun _ => kIOReturnError;
     drv_queue_addElement := fun _ _ => kIOReturnError;
     drv_queue_getNextEvent := fun _ _ => (kIOReturnError, no_event) |}.

(** What the uninitialised locals hold in the simulated process: the read
    made after [n] driver calls finds [n + 1], never 0. *)
Definition leftover (n : nat) : Z := Z.of_nat n + 1.

(** The process before any object is constructed. *)
Definition process_start : Machine :=
  {| m_pimpl := None; m_keys := []; m_errorLoggerFunctor := false;
     m_deviceInformationProperties := []; m_queueEnabled := false;
     driver_calls := []; logged := []; queue_reads := 0;
     uninitialised := leftover |}.

(** An object right after its member initialisers, with a logger. *)
Definition fresh_object : Machine :=
  {| m_pimpl := Some PrivateImpl_new; m_keys := [];
     m_errorLoggerFunctor := true;
     m_deviceInformationProperties := []; m_queueEnabled := true;
     driver_calls := []; logged := []; queue_reads := 0;
     uninitialised := leftover |}.

(** The table [PopulateVectorOfKeyInfo] builds in an empty vector. *)
Definition populated_table : list PerKeyData :=
  m_keys (final (PopulateVectorOfKeyInfo true) process_start).

(** An object holding the interface handle 13 and the populated table, as
    [FindKeypressCookies] finds it. *)
Definition before_resolution : Machine :=
  {| m_pimpl := Some {| m_hidDevice := 11; m_hidDeviceInterface := 13;
                        m_plugInInterface := 12; m_hidQueue := 0 |};
     m_keys := populated_table;
     m_errorLoggerFunctor := true;
     m_deviceInformationProperties := []; m_queueEnabled := true;
     driver_calls := []; logged := []; queue_reads := 0;
     uninitialised := leftover |}.

(** The object a release build constructs on the full keyboard, with the
    queue enabled and a logger. *)
Definition running_session : Machine :=
  final (HelperForKeyboardReaderIOKit_constructor
           true cookie_uint32 full_keyboard true true) process_start.

(** ** Vocabulary of the properties *)

(** The numbers a descriptor carries in its three fields. *)
Definition reports (d : Element) (temp_number usage usagePage : Z) : Prop :=
  read_long (kIOHIDElementCookieKey d) = Some temp_number /\
  read_long (kIOHIDElementUsageKey d) = Some usage /\
  read_long (kIOHIDElementUsagePageKey d) = Some usagePage.

(** A descriptor that lacks one of the three numbers: the key is absent, the
    value is not a number, or the number does not convert. *)
Definition malformed (d : Element) : Prop :=
  read_long (kIOHIDElementCookieKey d) = None \/
  read_long (kIOHIDElementUsageKey d) = None \/
  read_long (kIOHIDElementUsagePageKey d) = None.

(** The slot at index [i] holds a handle. *)
Definition bound_at (keys : list PerKeyData) (i : nat) : Prop :=
  exists k, keys !! i = Some k /\ macCookieValue k <> 0.

(** What the scan leaves alone: every member but the table and everything
    observable but the log; in the table, the number of entries, and of each
    entry all but the cookie, and the cookie too once it is not 0. *)
Definition scan_frame (st st' : Machine) : Prop :=
  m_pimpl st' = m_pimpl st /\
  m_errorLoggerFunctor st' = m_errorLoggerFunctor st /\
  m_deviceInformationProperties st' = m_deviceInformationProperties st /\
  m_queueEnabled st' = m_queueEnabled st /\
  driver_calls st' = driver_calls st /\
  queue_reads st' = queue_reads st /\
  length (m_keys st') = length (m_keys st) /\
  forall i k, m_keys st !! i = Some k ->
    exists k', m_keys st' !! i = Some k' /\
      name k' = name k /\
      usbOfficialUsageID k' = usbOfficialUsageID k /\
      mustBeIgnoredByOurApplication k' = mustBeIgnoredByOurApplication k /\
      (macCookieValue k <> 0 -> k' = k).

(** The machine after some more calls into the driver. *)
Definition add_calls (cs : list DriverCall) (st : Machine) : Machine :=
  {| m_pimpl := m_pimpl st; m_keys := m_keys st;
     m_errorLoggerFunctor := m_errorLoggerFunctor st;
     m_deviceInformationProperties := m_deviceInformationProperties st;
     m_queueEnabled := m_queueEnabled st;
     driver_calls := driver_calls st ++ cs; logged := logged st;
     queue_reads := queue_reads st;
     uninitialised := uninitialised st |}.

(** The order in which the code gives the driver resources back: the device
    interface is closed and released, the plug-in object destroyed, the queue
    released, the device reference released, each only if it is held. *)
Definition release_sequence (this : PrivateImpl) : list DriverCall :=
  (if negb (m_hidDeviceInterface this =? 0)
   then [Call_close (m_hidDeviceInterface this);
         Call_Release (m_hidDeviceInterface this)] else []) ++
  (if negb (m_plugInInterface this =? 0)
   then [Call_IODestroyPlugInInterface (m_plugInInterface this)] else []) ++
  (if negb (m_hidQueue this =? 0)
   then [Call_queue_Release (m_hidQueue this)] else []) ++
  (if negb (m_hidDevice this =? 0)
   then [Call_IOObjectRelease (m_hidDevice this)] else []).

(** The driver resources a session holds. *)
Inductive Resource :=
| DeviceReference
| PlugInObject
| DeviceInterface
| EventQueue.

(** The resource a call hands to the session: the handle the driver gives,
    when it is not null. *)
Definition acquired (drv : Driver) (c : DriverCall) : option (Resource * Z) :=
  let held (resource : Resource) (handle : Z) :=
    if handle =? 0 then None else Some (resource, handle) in
  match c with
  | Call_IOServiceGetMatchingService =>
      held DeviceReference (drv_IOServiceGetMatchingService drv)
  | Call_IOCreatePlugInInterfaceForService device =>
      held PlugInObject (snd (drv_IOCreatePlugInInterfaceForService drv device))
  | Call_QueryInterface plugIn =>
      held DeviceInterface (snd (drv_QueryInterface drv plugIn))
  | Call_allocQueue interface =>
      held EventQueue (drv_allocQueue drv interface)
  | _ => None
  end.

(** The resource a call gives back. *)
Definition released (c : DriverCall) : option (Resource * Z) :=
  match c with
  | Call_IOObjectRelease device => Some (DeviceReference, device)
  | Call_IODestroyPlugInInterface plugIn => Some (PlugInObject, plugIn)
  | Call_Release interface => Some (DeviceInterface, interface)
  | Call_queue_Release queue => Some (EventQueue, queue)
  | _ => None
  end.

(** The index of the first occurrence of a call in a trace. *)
Fixpoint position (c : DriverCall) (trace : list DriverCall) : option nat :=
  match trace with
  | [] => None
  | c' :: rest =>
      if bool_decide (c = c') then Some O
      else match position c rest with
           | Some n => Some (S n)
           | None => None
           end
  end.

(** Both calls occur in the trace, [a] first. *)
Definition comes_before (a b : DriverCall) (trace : list DriverCall) : Prop :=
  match position a trace, position b trace with
  | Some i, Some j => (i < j)%nat
  | _, _ => False
  end.

(** The release order the specification asks for, for an object that holds
    all four resources: queue, then device interface, then plug-in object,
    then device reference. *)
Definition released_in_specified_order (this : PrivateImpl)
    (released : list DriverCall) : Prop :=
  comes_before (Call_queue_Release (m_hidQueue this))
               (Call_close (m_hidDeviceInterface this)) released /\
  comes_before (Call_close (m_hidDeviceInterface this))
               (Call_Release (m_hidDeviceInterface this)) released /\
  comes_before (Call_Release (m_hidDeviceInterface this))
               (Call_IODestroyPlugInInterface (m_plugInInterface this)) released /\
  comes_before (Call_IODestroyPlugInInterface (m_plugInInterface this))
               (Call_IOObjectRelease (m_hidDevice this)) released.

(** The stages of the basic initialization. *)
Inductive Stage :=
| DeviceMatching
| PluginCreation
| DeviceInterfaceCreation
| TablePopulation
| ElementResolution.

(** The basic initialization, started in [st], fails at the given stage and
    leaves the machine in the given state: the stages before returned
    [true], this one returned [false]. *)
Inductive basic_initialization_fails (NDEBUG : bool)
    (to_IOHIDElementCookie : Z -> Z) (drv : Driver) (st : Machine)
    : Stage -> Machine -> Prop :=
| fails_DeviceMatching s :
    FindKeyboard drv st = (Returned false, s) ->
    basic_initialization_fails NDEBUG to_IOHIDElementCookie drv st
      DeviceMatching s
| fails_PluginCreation s1 s :
    FindKeyboard drv st = (Returned true, s1) ->
    CreatePluginInterface drv s1 = (Returned false, s) ->
    basic_initialization_fails NDEBUG to_IOHIDElementCookie drv st
      PluginCreation s
| fails_DeviceInterfaceCreation s1 s2 s :
    FindKeyboard drv st = (Returned true, s1) ->
    CreatePluginInterface drv s1 = (Returned true, s2) ->
    CreateDeviceInterface drv s2 = (Returned false, s) ->
    basic_initialization_fails NDEBUG to_IOHIDElementCookie drv st
      DeviceInterfaceCreation s
| fails_TablePopulation s1 s2 s3 s :
    FindKeyboard drv st = (Returned true, s1) ->
    CreatePluginInterface drv s1 = (Returned true, s2) ->
    CreateDeviceInterface drv s2 = (Returned true, s3) ->
    PopulateVectorOfKeyInfo NDEBUG s3 = (Returned false, s) ->
    basic_initialization_fails NDEBUG to_IOHIDElementCookie drv st
      TablePopulation s
| fails_ElementResolution s1 s2 s3 s4 s :
    FindKeyboard drv st = (Returned true, s1) ->
    CreatePluginInterface drv s1 = (Returned true, s2) ->
    CreateDeviceInterface drv s2 = (Returned true, s3) ->
    PopulateVectorOfKeyInfo NDEBUG s3 = (Returned true, s4) ->
    FindKeypressCookies NDEBUG to_IOHIDElementCookie drv s4 = (Returned false, s) ->
    basic_initialization_fails NDEBUG to_IOHIDElementCookie drv st
      ElementResolution s.

(** The machine after [n] more events were asked of the queue. *)
Definition after_reads (queue : Z) (n : nat) (st : Machine) : Machine :=
  {| m_pimpl := m_pimpl st; m_keys := m_keys st;
     m_errorLoggerFunctor := m_errorLoggerFunctor st;
     m_deviceInformationProperties := m_deviceInformationProperties st;
     m_queueEnabled := m_queueEnabled st;
     driver_calls := driver_calls st ++ repeat (Call_queue_getNextEvent queue) n;
     logged := logged st;
     queue_reads := (n + queue_reads st)%nat;
     uninitialised := uninitialised st |}.

(** The cookie an element would put into the slot of usage code [usage]:
    the element carries its three numbers, is on the keyboard page and
    reports that usage code. *)
Definition cookie_for (to_IOHIDElementCookie : Z -> Z) (usage : Z)
    (d : Element) : option Z :=
  match read_long (kIOHIDElementCookieKey d),
        read_long (kIOHIDElementUsageKey d),
        read_long (kIOHIDElementUsagePageKey d) with
  | Some temp_number, Some u, Some usagePage =>
      if (usagePage =? kHIDPage_KeyboardOrKeypad) && (u =? usage)
      then Some (to_IOHIDElementCookie temp_number) else None
  | _, _, _ => None
  end.

(** The first cookie other than 0 that the elements of an array offer for a
    usage code; 0 when there is none. *)
Fixpoint first_cookie (to_IOHIDElementCookie : Z -> Z) (usage : Z)
    (elements : list Element) : Z :=
  match elements with
  | [] => 0
  | d :: rest =>
      match cookie_for to_IOHIDElementCookie usage d with
      | Some cookie =>
          if cookie =? 0 then first_cookie to_IOHIDElementCookie usage rest
          else cookie
      | None => first_cookie to_IOHIDElementCookie usage rest
      end
  end.

(** A computation keeps a property of the machine: whatever state it leaves
    (on return or when it stops the process) has the property again. *)
Definition preserves {A} (I : Machine -> Prop) (c : M A) : Prop :=
  forall st, I st -> I (final c st).

(** The line [StoreOneProperty] stores for a property of the device: the
    key, a colon and the value as text; nothing when the registry has no such
    property. *)
Definition property_line (drv : Driver) (device : Z) (key : PropertyKey)
    : option string :=
  match drv_IORegistryEntryCreateCFProperty drv device key with
  | None => None
  | Some (CFNumber _ value) => Some (CFSTR key +:+ ": " +:+ format_int value)
  | Some (CFString text) => Some (CFSTR key +:+ ": " +:+ text)
  | Some CFOther => Some (CFSTR key +:+ ": " +:+ "<type error>")
  end.

(** The properties [GetKeyboardProperties] asks for, in its order. *)
Definition keyboard_property_keys : list PropertyKey :=
  [kIOHIDTransportKey; kIOHIDVendorIDKey; kIOHIDVendorIDSourceKey;
   kIOHIDProductIDKey; kIOHIDVersionNumberKey; kIOHIDManufacturerKey;
   kIOHIDProductKey; kIOHIDSerialNumberKey; kIOHIDCountryCodeKey;
   kIOHIDLocationIDKey].

(** The machine after some more property lines were stored and some more
    calls made. *)
Definition with_properties (lines : list string) (cs : list DriverCall)
    (st : Machine) : Machine :=
  {| m_pimpl := m_pimpl st; m_keys := m_keys st;
     m_errorLoggerFunctor := m_errorLoggerFunctor st;
     m_deviceInformationProperties := m_deviceInformationProperties st ++ lines;
     m_queueEnabled := m_queueEnabled st;
     driver_calls := driver_calls st ++ cs; logged := logged st;
     queue_reads := queue_reads st;
     uninitialised := uninitialised st |}.

(** [this] with another device handle. *)
Definition with_hidDevice (device : Z) (this : PrivateImpl) : PrivateImpl :=
  {| m_hidDevice := device;
     m_hidDeviceInterface := m_hidDeviceInterface this;
     m_plugInInterface := m_plugInInterface this;
     m_hidQueue := m_hidQueue this |}.

(** [this] with another queue handle. *)
Definition with_hidQueue (queue : Z) (this : PrivateImpl) : PrivateImpl :=
  {| m_hidDevice := m_hidDevice this;
     m_hidDeviceInterface := m_hidDeviceInterface this;
     m_plugInInterface := m_plugInInterface this;
     m_hidQueue := queue |}.

(** [this] with another plug-in handle. *)
Definition with_plugInInterface (plugIn : Z) (this : PrivateImpl) : PrivateImpl :=
  {| m_hidDevice := m_hidDevice this;
     m_hidDeviceInterface := m_hidDeviceInterface this;
     m_plugInInterface := plugIn;
     m_hidQueue := m_hidQueue this |}.

(** [this] with another device-interface handle. *)
Definition with_hidDeviceInterface (interface : Z) (this : PrivateImpl)
    : PrivateImpl :=
  {| m_hidDevice := m_hidDevice this;
     m_hidDeviceInterface := interface;
     m_plugInInterface := m_plugInInterface this;
     m_hidQueue := m_hidQueue this |}.

(** The members a stage of the initialization other than the table
    population and the element resolution leaves alone. *)
Definition same_table_and_settings (st st' : Machine) : Prop :=
  m_keys st' = m_keys st /\
  m_queueEnabled st' = m_queueEnabled st /\
  m_errorLoggerFunctor st' = m_errorLoggerFunctor st.

(** The driver says the element of this cookie has a value other than 0:
    the key is down. *)
Definition pressed (drv : Driver) (interface : Z) (k : PerKeyData) : bool :=
  negb (snd (drv_getElementValue drv interface (macCookieValue k)) =? 0).

(** The driver accepts the element of this cookie into the queue. *)
Definition accepted (drv : Driver) (queue : Z) (k : PerKeyData) : bool :=
  drv_queue_addElement drv queue (macCookieValue k) =? kIOReturnSuccess.

(** The lines of a text, each followed by a newline. *)
Fixpoint unlines (lines : list string) : string :=
  match lines with
  | [] => ""
  | line :: rest => line +:+ newline +:+ unlines rest
  end.

(** No logger is installed and the log reads [log]. *)
Definition quiet (log : list string) (st : Machine) : Prop :=
  m_errorLoggerFunctor st = false /\ logged st = log.

(** The members of the object are those of [st0]. *)
Definition same_object (st0 st : Machine) : Prop :=
  m_pimpl st = m_pimpl st0 /\
  m_keys st = m_keys st0 /\
  m_errorLoggerFunctor st = m_errorLoggerFunctor st0 /\
  m_deviceInformationProperties st = m_deviceInformationProperties st0 /\
  m_queueEnabled st = m_queueEnabled st0.

(** The stored properties and the logger are those of [st0]. *)
Definition same_description (st0 st : Machine) : Prop :=
  m_deviceInformationProperties st = m_deviceInformationProperties st0 /\
  m_errorLoggerFunctor st = m_errorLoggerFunctor st0.

(** The text [LogInitializationError] hands to the logger. *)
Definition initialization_error_text (errorDesc : string)
    (properties : list string) : string :=
  match properties with
  | [] => errorDesc
  | _ => errorDesc +:+ " Keyboard description follows:" +:+ newline
         +:+ unlines properties
  end.

(** The trace starts with the given calls. *)
Definition trace_extends (calls : list DriverCall) (st : Machine) : Prop :=
  exists post, driver_calls st = calls ++ post.

(** The full keyboard with a queue that is allocated and created but does
    not start. *)
Definition unstartable_queue_keyboard : Driver :=
  {| drv_IOServiceMatching := drv_IOServiceMatching full_keyboard;
     drv_CFNumberCreate_usagePage := drv_CFNumberCreate_usagePage full_keyboard;
     drv_CFNumberCreate_usage := drv_CFNumberCreate_usage full_keyboard;
     drv_IOServiceGetMatchingService := drv_IOServiceGetMatchingService full_keyboard;
     drv_IOCreatePlugInInterfaceForService :=
       drv_IOCreatePlugInInterfaceForService full_keyboard;
     drv_IORegistryEntryCreateCFProperty :=
       drv_IORegistryEntryCreateCFProperty full_keyboard;
     drv_QueryInterface := drv_QueryInterface full_keyboard;
     drv_open := drv_open full_keyboard;
     drv_copyMatchingElements := drv_copyMatchingElements full_keyboard;
     drv_getElementValue := drv_getElementValue full_keyboard;
     drv_allocQueue := drv_allocQueue full_keyboard;
     drv_queue_create := drv_queue_create full_keyboard;
     drv_queue_start := fun _ => kIOReturnError;
     drv_queue_addElement := drv_queue_addElement full_keyboard;
     drv_queue_getNextEvent := drv_queue_getNextEvent full_keyboard |}.

(** * Properties *)

(** ** Reasoning about computations *)

Lemma bind_Returned {A B} (c : M A) (k : A -> M B) st b st' :
  (x <- c ;; k x) st = (Returned b, st') ->
  exists a st1, c st = (Returned a, st1) /\ k a st1 = (Returned b, st').
Proof.
  unfold bind. destruct (c st) as [[a|f] st1]; intros H.
  - exists a, st1. auto.
  - discriminate.
Qed.

Lemma bind_run {A B} (c : M A) (k : A -> M B) st a st1 :
  c st = (Returned a, st1) -> (x <- c ;; k x) st = k a st1.
Proof. unfold bind. intros ->. reflexivity. Qed.

Lemma bind_abort {A B} (c : M A) (k : A -> M B) st f st1 :
  c st = (Aborted f, st1) -> (x <- c ;; k x) st = (Aborted f, st1).
Proof. unfold bind. intros ->. reflexivity. Qed.

Lemma final_run {A} (c : M A) st o st' : c st = (o, st') -> final c st = st'.
Proof. unfold final. intros ->. reflexivity. Qed.

Lemma yields_run {A} (c : M A) st o st' : c st = (o, st') -> yields c st = o.
Proof. unfold yields. intros ->. reflexivity. Qed.

Lemma for_each_app {A} (body : A -> M unit) (l1 l2 : list A) st :
  for_each body (l1 ++ l2) st = (for_each body l1 ;; for_each body l2) st.
Proof.
  revert st. induction l1 as [|x l1 IH]; intros st; simpl.
  - reflexivity.
  - unfold bind in *. destruct (body x st) as [[[]|f] st1]; [|reflexivity].
    apply IH.
Qed.

Lemma LogErrorWhenFunctorIsntEmpty_run error st :
  LogErrorWhenFunctorIsntEmpty error st =
  (Returned tt, if m_errorLoggerFunctor st then add_log error st else st).
Proof.
  unfold LogErrorWhenFunctorIsntEmpty, bind, gets, modify, ret.
  destruct (m_errorLoggerFunctor st); reflexivity.
Qed.

Ltac unfold_monad :=
  unfold LogErrorWhenFunctorIsntEmpty, assert_, call_through, call, pimpl,
    andM in *;
  unfold bind, ret, gets, modify, abort in *.

(** ** The key table *)

Lemma PopulateVectorOfKeyInfo_empty NDEBUG st :
  m_keys st = [] ->
  PopulateVectorOfKeyInfo NDEBUG st = (Returned true, set_keys populated_table st).
Proof.
  intros H. unfold PopulateVectorOfKeyInfo, bind, gets, modify, ret.
  rewrite H. cbn [vector_empty negb]. rewrite H. reflexivity.
Qed.

Lemma PopulateVectorOfKeyInfo_true NDEBUG st st' :
  PopulateVectorOfKeyInfo NDEBUG st = (Returned true, st') ->
  m_keys st = [] /\ st' = set_keys populated_table st.
Proof.
  intros H. destruct (m_keys st) as [|k ks] eqn:E.
  - rewrite (PopulateVectorOfKeyInfo_empty _ _ E) in H. split; congruence.
  - exfalso. unfold PopulateVectorOfKeyInfo in H. unfold_monad.
    rewrite E in H. simpl in H. destruct NDEBUG; discriminate.
Qed.

(** The table is dense: the entry at index [i] carries the usage code [i]. *)
Lemma populated_table_dense (i : nat) (k : PerKeyData) :
  populated_table !! i = Some k -> usbOfficialUsageID k = Z.of_nat i.
Proof.
  assert (H : forallb (fun p => usbOfficialUsageID (snd p) =? Z.of_nat (fst p))
                      (imap pair populated_table) = true) by (vm_compute; reflexivity).
  rewrite forallb_forall in H. intros Hk.
  specialize (H (i, k)). apply Z.eqb_eq. apply H.
  apply list_elem_of_In. apply list_elem_of_lookup. exists i.
  rewrite list_lookup_imap, Hk. reflexivity.
Qed.

(** C2, as the code has it: a table that [PopulateVectorOfKeyInfo] has
    populated holds 165 entries, the placeholder at index 0 and one entry for
    each usage code from 0x01 to 0xA4.  (250 is the capacity the function
    reserves, not the size.) *)
Theorem populated_table_size NDEBUG st st' :
  PopulateVectorOfKeyInfo NDEBUG st = (Returned true, st') ->
  length (m_keys st') = 165%nat /\
  Z.of_nat (length (m_keys st')) = kHIDUsage_KeyboardExSel + 1.
Proof.
  intros H. apply PopulateVectorOfKeyInfo_true in H as [_ ->].
  split; vm_compute; reflexivity.
Qed.

Lemma populated_table_size_witness :
  length (m_keys (final (PopulateVectorOfKeyInfo false) fresh_object)) = 165%nat /\
  Z.of_nat (length (m_keys (final (PopulateVectorOfKeyInfo false) fresh_object)))
    = kHIDUsage_KeyboardExSel + 1.
Proof.
  apply (populated_table_size false fresh_object). vm_compute. reflexivity.
Defined.

(** C2 as the specification states it does not hold: the populated table
    does not have 250 entries. *)
Lemma populated_table_size_not_250 :
  ~ (forall NDEBUG st st',
       PopulateVectorOfKeyInfo NDEBUG st = (Returned true, st') ->
       length (m_keys st') = 250%nat).
Proof.
  intros H.
  specialize (H true process_start
                (final (PopulateVectorOfKeyInfo true) process_start) eq_refl).
  vm_compute in H. discriminate.
Qed.

(** C9, as the code has it: in a populated table the entry at index 0 is
    the placeholder, with usage code 0, no handle bound and the ignore flag
    not set (the constructor's default); as long as no handle is bound to it
    the three loops over the table pass it by. *)
Theorem placeholder_at_index_zero NDEBUG st st' :
  PopulateVectorOfKeyInfo NDEBUG st = (Returned true, st') ->
  exists k, m_keys st' !! 0%nat = Some k /\
    name k = "BOGUS PLACEHOLDER AT INDEX ZERO" /\
    usbOfficialUsageID k = 0 /\
    macCookieValue k = 0 /\
    mustBeIgnoredByOurApplication k = false /\
    resolved k = false.
Proof.
  intros H. apply PopulateVectorOfKeyInfo_true in H as [_ ->].
  eexists. split; [reflexivity|]. repeat split.
Qed.

Lemma placeholder_at_index_zero_witness :
  exists k, m_keys (final (PopulateVectorOfKeyInfo false) fresh_object) !! 0%nat = Some k /\
    name k = "BOGUS PLACEHOLDER AT INDEX ZERO" /\
    usbOfficialUsageID k = 0 /\
    macCookieValue k = 0 /\
    mustBeIgnoredByOurApplication k = false /\
    resolved k = false.
Proof.
  apply (placeholder_at_index_zero false fresh_object). vm_compute. reflexivity.
Defined.

(** C9 as the specification states it does not hold: the entry at index 0
    of a populated table is not marked ignored. *)
Lemma placeholder_not_ignored :
  ~ (forall NDEBUG st st',
       PopulateVectorOfKeyInfo NDEBUG st = (Returned true, st') ->
       exists k, m_keys st' !! 0%nat = Some k /\
                 mustBeIgnoredByOurApplication k = true).
Proof.
  intros H.
  destruct (H true process_start
              (final (PopulateVectorOfKeyInfo true) process_start) eq_refl)
    as (k & Hk & Hi).
  vm_compute in Hk. injection Hk as <-. discriminate.
Qed.

(** ** Element resolution *)

Lemma scan_frame_refl st : scan_frame st st.
Proof.
  unfold scan_frame. repeat split; try reflexivity.
  intros i k H. exists k. auto.
Qed.

Lemma scan_frame_trans st1 st2 st3 :
  scan_frame st1 st2 -> scan_frame st2 st3 -> scan_frame st1 st3.
Proof.
  unfold scan_frame.
  intros (a1 & a2 & a3 & a4 & a5 & a6 & a7 & a8)
         (b1 & b2 & b3 & b4 & b5 & b6 & b7 & b8).
  repeat split; try congruence.
  intros i k H. destruct (a8 i k H) as (k2 & H2 & n2 & u2 & g2 & c2).
  destruct (b8 i k2 H2) as (k3 & H3 & n3 & u3 & g3 & c3).
  exists k3. repeat split; try congruence.
  intros Hc. specialize (c2 Hc). subst k2. rewrite (c3 Hc). reflexivity.
Qed.

Lemma scan_frame_add_log msg st : scan_frame st (add_log msg st).
Proof.
  unfold scan_frame. simpl. repeat split.
  intros i k H. exists k. auto.
Qed.

Lemma scan_frame_bind st (i : nat) key cookie :
  m_keys st !! i = Some key -> macCookieValue key = 0 ->
  scan_frame st (set_keys (<[i := set_cookie cookie key]> (m_keys st)) st).
Proof.
  intros Hi H0. unfold scan_frame. simpl. repeat split.
  - apply length_insert.
  - intros j k Hj. destruct (decide (i = j)) as [->|Hne].
    + rewrite Hi in Hj. injection Hj as <-.
      exists (set_cookie cookie key). split.
      * apply list_lookup_insert_eq. eapply lookup_lt_Some; eassumption.
      * simpl. repeat split. intros Hc. contradiction.
    + exists k. rewrite list_lookup_insert_ne by assumption. auto.
Qed.

Section Scan.

Variable NDEBUG : bool.
Variable to_IOHIDElementCookie : Z -> Z.

Let step := FindKeypressCookies_element NDEBUG to_IOHIDElementCookie.
Let scan := for_each step.

Lemma element_frame d st : scan_frame st (final (step d) st).
Proof.
  unfold final, step, FindKeypressCookies_element.
  destruct (read_long (kIOHIDElementCookieKey d)) as [t|]; [|apply scan_frame_refl].
  destruct (read_long (kIOHIDElementUsageKey d)) as [u|].
  2:{ unfold_monad. destruct (m_errorLoggerFunctor st); simpl;
      [apply scan_frame_add_log | apply scan_frame_refl]. }
  destruct (read_long (kIOHIDElementUsagePageKey d)) as [p|].
  2:{ unfold_monad. destruct (m_errorLoggerFunctor st); simpl;
      [apply scan_frame_add_log | apply scan_frame_refl]. }
  destruct (p =? kHIDPage_KeyboardOrKeypad); [|apply scan_frame_refl].
  unfold_monad.
  destruct (u >=? Z.of_nat (length (m_keys st))); [apply scan_frame_refl|].
  destruct (u <? 0); [apply scan_frame_refl|].
  destruct (m_keys st !! Z.to_nat u) as [key|] eqn:Hk; [|apply scan_frame_refl].
  destruct (macCookieValue key =? 0) eqn:Hc; simpl.
  - apply scan_frame_bind; [assumption|]. apply Z.eqb_eq. assumption.
  - destruct NDEBUG; apply scan_frame_refl.
Qed.

Lemma scan_frame_for_each ds st : scan_frame st (final (scan ds) st).
Proof.
  revert st. induction ds as [|d ds IH]; intros st.
  - apply scan_frame_refl.
  - unfold final, scan. simpl. unfold bind.
    pose proof (element_frame d st) as Hd. unfold final in Hd.
    destruct (step d st) as [[[]|f] st1]; simpl in *.
    + eapply scan_frame_trans; [exact Hd|]. apply IH.
    + exact Hd.
Qed.

(** An element the scan passes by in every state that satisfies [P] can be
    taken out of the array, when the scan keeps [P]. *)
Lemma scan_without (P : Machine -> Prop) d :
  (forall st, P st -> step d st = (Returned tt, st)) ->
  (forall e st, P st -> P (final (step e) st)) ->
  forall ds1 ds2 st, P st -> scan (ds1 ++ d :: ds2) st = scan (ds1 ++ ds2) st.
Proof.
  intros Hskip Hkeep ds1 ds2. unfold scan.
  induction ds1 as [|e ds1 IH]; intros st HP; simpl.
  - unfold bind. rewrite (Hskip st HP). reflexivity.
  - unfold bind. specialize (Hkeep e st HP). unfold final in Hkeep.
    destruct (step e st) as [[[]|f] st1]; [|reflexivity].
    apply IH. exact Hkeep.
Qed.

(** The test of [elements] leaves the machine as it is. *)
Lemma FindKeypressCookies_release_state elements st :
  snd (FindKeypressCookies_release elements st) = st.
Proof.
  unfold FindKeypressCookies_release, read_uninitialised, bind, gets.
  destruct elements; [reflexivity|].
  destruct (negb (_ =? 0)); reflexivity.
Qed.

(** How [FindKeypressCookies] ends, once the elements were dealt with. *)
Lemma FindKeypressCookies_end elements st :
  (keys <- gets m_keys ;;
   FindKeypressCookies_release elements ;;
   ret (40 <? FindKeypressCookies_score keys)) st
  = (match elements with
     | Some _ => Returned (40 <? FindKeypressCookies_score (m_keys st))
     | None =>
         if uninitialised st (length (driver_calls st)) =? 0
         then Returned (40 <? FindKeypressCookies_score (m_keys st))
         else Aborted ReleaseOfIndeterminatePointer
     end, st).
Proof.
  unfold FindKeypressCookies_release, read_uninitialised, bind, gets, ret, abort.
  destruct elements; [reflexivity|].
  destruct (uninitialised st (length (driver_calls st)) =? 0); reflexivity.
Qed.

(** The element-independent part of [FindKeypressCookies]. *)
Lemma FindKeypressCookies_unfold drv st this r elements :
  m_pimpl st = Some this ->
  drv_copyMatchingElements drv (m_hidDeviceInterface this) = (r, elements) ->
  FindKeypressCookies NDEBUG to_IOHIDElementCookie drv st =
  (call_through (m_hidDeviceInterface this)
     (Call_copyMatchingElements (m_hidDeviceInterface this)) ;;
   (if negb (r =? kIOReturnSuccess) then
      LogErrorWhenFunctorIsntEmpty
        ("copyMatchingElements failed. code: " +:+ format_int r)
    else scan elements) ;;
   keys <- gets m_keys ;;
   FindKeypressCookies_release
     (if r =? kIOReturnSuccess then Some elements else None) ;;
   ret (40 <? FindKeypressCookies_score keys)) st.
Proof.
  intros Hp Hd. unfold FindKeypressCookies.
  unfold bind at 1. unfold pimpl, bind, gets. rewrite Hp. unfold ret at 1.
  rewrite Hd. reflexivity.
Qed.

(** Two drivers whose element arrays the scan cannot tell apart make
    [FindKeypressCookies] behave alike. *)
Lemma FindKeypressCookies_same_scan (P : Machine -> Prop) drv drv' st this r
    elements elements' :
  m_pimpl st = Some this ->
  drv_copyMatchingElements drv (m_hidDeviceInterface this) = (r, elements) ->
  drv_copyMatchingElements drv' (m_hidDeviceInterface this) = (r, elements') ->
  (forall c s, P s -> P (add_call c s)) ->
  P st ->
  (forall s, P s -> scan elements s = scan elements' s) ->
  FindKeypressCookies NDEBUG to_IOHIDElementCookie drv st =
  FindKeypressCookies NDEBUG to_IOHIDElementCookie drv' st.
Proof.
  intros Hp Hd Hd' Hcall HP Hscan.
  rewrite (FindKeypressCookies_unfold drv st this r elements Hp Hd).
  rewrite (FindKeypressCookies_unfold drv' st this r elements' Hp Hd').
  unfold bind at 1 4. unfold call_through, call, modify, abort.
  destruct (m_hidDeviceInterface this =? 0); [reflexivity|].
  destruct (r =? kIOReturnSuccess); cbn [negb]; [|reflexivity].
  unfold bind at 1 4.
  rewrite Hscan by (apply Hcall; exact HP). reflexivity.
Qed.

End Scan.

Lemma score_from keys acc :
  fold_left (fun score iter => if resolved iter then score + 1 else score)
            keys acc
  = acc + Z.of_nat (length (List.filter resolved keys)).
Proof.
  revert acc. induction keys as [|k keys IH]; intros acc; simpl.
  - lia.
  - rewrite IH. destruct (resolved k); simpl length; lia.
Qed.

Lemma FindKeypressCookies_score_count keys :
  FindKeypressCookies_score keys
  = Z.of_nat (length (List.filter resolved keys)).
Proof. unfold FindKeypressCookies_score. rewrite score_from. lia. Qed.

(** In a build without [assert]s the loop body returns for every element. *)
Lemma element_returns to_IOHIDElementCookie d st :
  exists st', FindKeypressCookies_element true to_IOHIDElementCookie d st
              = (Returned tt, st').
Proof.
  unfold FindKeypressCookies_element.
  destruct (read_long (kIOHIDElementCookieKey d)) as [t|]; [|eexists; reflexivity].
  destruct (read_long (kIOHIDElementUsageKey d)) as [u|];
    [|rewrite LogErrorWhenFunctorIsntEmpty_run; eexists; reflexivity].
  destruct (read_long (kIOHIDElementUsagePageKey d)) as [p|];
    [|rewrite LogErrorWhenFunctorIsntEmpty_run; eexists; reflexivity].
  destruct (p =? kHIDPage_KeyboardOrKeypad); [|eexists; reflexivity].
  unfold_monad.
  destruct (u >=? Z.of_nat (length (m_keys st))) eqn:Hge; [eexists; reflexivity|].
  destruct (u <? 0) eqn:Hlt; [eexists; reflexivity|].
  destruct (m_keys st !! Z.to_nat u) as [key|] eqn:Hk.
  - destruct (macCookieValue key =? 0); simpl; eexists; reflexivity.
  - exfalso. apply lookup_ge_None in Hk.
    rewrite Z.geb_leb in Hge. apply Z.leb_gt in Hge. apply Z.ltb_ge in Hlt. lia.
Qed.

Lemma scan_returns to_IOHIDElementCookie ds st :
  exists st',
    for_each (FindKeypressCookies_element true to_IOHIDElementCookie) ds st
    = (Returned tt, st').
Proof.
  revert st. induction ds as [|d ds IH]; intros st; simpl.
  - eexists; reflexivity.
  - destruct (element_returns to_IOHIDElementCookie d st) as [st1 H1].
    unfold bind. rewrite H1. apply IH.
Qed.

(** C1: whenever [FindKeypressCookies] returns, it returns [true] exactly
    when more than 40 entries of the key table hold a handle and are not
    marked ignored; with 40 or fewer it returns [false].  And in a build
    without [assert]s it does return whenever [copyMatchingElements]
    succeeded, on every element array.  (After a failed
    [copyMatchingElements] the function tests a local that was never set,
    and whether it returns is left to what that local holds.) *)
Theorem resolution_succeeds_iff_more_than_40 to_IOHIDElementCookie drv st :
  (forall NDEBUG b st',
     FindKeypressCookies NDEBUG to_IOHIDElementCookie drv st = (Returned b, st') ->
     let resolved_keys := length (List.filter resolved (m_keys st')) in
     (b = true <-> (40 < resolved_keys)%nat) /\
     ((resolved_keys <= 40)%nat -> b = false)) /\
  (forall this elements,
     m_pimpl st = Some this -> m_hidDeviceInterface this <> 0 ->
     drv_copyMatchingElements drv (m_hidDeviceInterface this)
       = (kIOReturnSuccess, elements) ->
     exists b st',
       FindKeypressCookies true to_IOHIDElementCookie drv st = (Returned b, st')).
Proof.
  split.
  - intros NDEBUG b st' H. unfold FindKeypressCookies in H.
    apply bind_Returned in H as (this & s1 & _ & H).
    apply bind_Returned in H as ([] & s2 & _ & H).
    destruct (drv_copyMatchingElements drv (m_hidDeviceInterface this)) as [r els].
    apply bind_Returned in H as ([] & s3 & _ & H).
    apply bind_Returned in H as (keys & s4 & Hkeys & H).
    unfold gets in Hkeys. injection Hkeys as <- <-.
    cbv zeta in H.
    apply bind_Returned in H as ([] & s5 & Hrel & H).
    pose proof (FindKeypressCookies_release_state
                  (if r =? kIOReturnSuccess then Some els else None) s3) as Hs.
    rewrite Hrel in Hs. cbn [snd] in Hs. subst s5.
    unfold ret in H. injection H as <- <-.
    rewrite FindKeypressCookies_score_count. cbv zeta.
    destruct (40 <? Z.of_nat (length (List.filter resolved (m_keys s3)))) eqn:E.
    + apply Z.ltb_lt in E. split; [split; [lia|reflexivity]|lia].
    + apply Z.ltb_ge in E. split; [split; [discriminate|lia]|reflexivity].
  - intros this els Hp Hi Hd.
    rewrite (FindKeypressCookies_unfold true to_IOHIDElementCookie drv st this
               _ els Hp Hd).
    unfold bind at 1. unfold call_through, call, modify.
    apply Z.eqb_neq in Hi. rewrite Hi.
    rewrite Z.eqb_refl. cbn [negb].
    unfold bind at 1.
    destruct (scan_returns to_IOHIDElementCookie els
                (add_call (Call_copyMatchingElements (m_hidDeviceInterface this)) st))
      as [s2 H2].
    rewrite H2. eexists _, _. reflexivity.
Qed.

(** C5, as the code has it: a malformed descriptor never writes a table
    slot or calls the driver, and the scan goes on with the next descriptor.
    It is silent only when the cookie is the field that is missing; a
    descriptor with a cookie but no usage code, or with both but no usage
    page, is reported to the error logger (when there is one). *)
Theorem malformed_descriptor_skipped NDEBUG to_IOHIDElementCookie d st :
  malformed d ->
  exists st',
    FindKeypressCookies_element NDEBUG to_IOHIDElementCookie d st
      = (Returned tt, st') /\
    m_keys st' = m_keys st /\
    driver_calls st' = driver_calls st /\
    (forall ds,
       for_each (FindKeypressCookies_element NDEBUG to_IOHIDElementCookie)
                (d :: ds) st
       = for_each (FindKeypressCookies_element NDEBUG to_IOHIDElementCookie)
                  ds st') /\
    logged st' = logged st ++
      match read_long (kIOHIDElementCookieKey d) with
      | None => []
      | Some _ =>
          if m_errorLoggerFunctor st then
            match read_long (kIOHIDElementUsageKey d) with
            | None => ["A cookie without a usage id?"]
            | Some _ => ["A cookie without a usage page?"]
            end
          else []
      end.
Proof.
  intros Hm.
  assert (H : exists st',
    FindKeypressCookies_element NDEBUG to_IOHIDElementCookie d st
      = (Returned tt, st') /\
    m_keys st' = m_keys st /\ driver_calls st' = driver_calls st /\
    logged st' = logged st ++
      match read_long (kIOHIDElementCookieKey d) with
      | None => []
      | Some _ =>
          if m_errorLoggerFunctor st then
            match read_long (kIOHIDElementUsageKey d) with
            | None => ["A cookie without a usage id?"]
            | Some _ => ["A cookie without a usage page?"]
            end
          else []
      end).
  { unfold FindKeypressCookies_element.
    destruct (read_long (kIOHIDElementCookieKey d)) as [t|] eqn:Ec.
    2:{ exists st. rewrite app_nil_r. auto. }
    destruct (read_long (kIOHIDElementUsageKey d)) as [u|] eqn:Eu.
    2:{ rewrite LogErrorWhenFunctorIsntEmpty_run.
        destruct (m_errorLoggerFunctor st); eexists; repeat split.
        simpl. rewrite app_nil_r. reflexivity. }
    destruct (read_long (kIOHIDElementUsagePageKey d)) as [p|] eqn:Ep.
    2:{ rewrite LogErrorWhenFunctorIsntEmpty_run.
        destruct (m_errorLoggerFunctor st); eexists; repeat split.
        simpl. rewrite app_nil_r. reflexivity. }
    exfalso. destruct Hm as [Hm|[Hm|Hm]]; congruence. }
  destruct H as (st' & Hs & Hk & Hc & Hl).
  exists st'. repeat split; try assumption.
  intros ds. simpl. unfold bind. rewrite Hs. reflexivity.
Qed.

Lemma malformed_descriptor_skipped_witness :
  exists st',
    FindKeypressCookies_element false cookie_uint32 (descriptor_cookie_only 5)
      before_resolution = (Returned tt, st') /\
    m_keys st' = m_keys before_resolution /\
    driver_calls st' = driver_calls before_resolution /\
    (forall ds,
       for_each (FindKeypressCookies_element false cookie_uint32)
                (descriptor_cookie_only 5 :: ds) before_resolution
       = for_each (FindKeypressCookies_element false cookie_uint32) ds st') /\
    logged st' = logged before_resolution ++ ["A cookie without a usage id?"].
Proof.
  apply (malformed_descriptor_skipped false cookie_uint32
           (descriptor_cookie_only 5) before_resolution).
  right. left. reflexivity.
Defined.

(** C5 as the specification states it does not hold: a descriptor with a
    cookie and no usage code is reported to the error logger. *)
Lemma malformed_descriptor_reported :
  ~ (forall NDEBUG to_IOHIDElementCookie d st,
       malformed d ->
       logged (final (FindKeypressCookies_element NDEBUG to_IOHIDElementCookie d) st)
       = logged st).
Proof.
  intros H.
  specialize (H true cookie_uint32 (descriptor_cookie_only 5) before_resolution).
  assert (Hm : malformed (descriptor_cookie_only 5)) by (right; left; reflexivity).
  specialize (H Hm). vm_compute in H. discriminate.
Qed.

Lemma resolution_succeeds_iff_more_than_40_witness :
  (exists b st',
     FindKeypressCookies true cookie_uint32 small_keyboard before_resolution
     = (Returned b, st')) /\
  (false = true <->
   (40 < length (List.filter resolved
        (m_keys (final (FindKeypressCookies false cookie_uint32 small_keyboard)
                       before_resolution))))%nat).
Proof.
  pose proof (resolution_succeeds_iff_more_than_40 cookie_uint32 small_keyboard
                before_resolution) as [H1 H2].
  split.
  { apply (H2 {| m_hidDevice := 11; m_hidDeviceInterface := 13;
                 m_plugInInterface := 12; m_hidQueue := 0 |}
              (keys_from 4 40)).
    - reflexivity.
    - simpl. lia.
    - reflexivity. }
  apply (H1 false false
           (final (FindKeypressCookies false cookie_uint32 small_keyboard)
                  before_resolution)).
  vm_compute. reflexivity.
Defined.

(** A keyboard-page descriptor whose usage code is outside the table is
    passed by. *)
Lemma out_of_range_element NDEBUG to_IOHIDElementCookie d temp usage st :
  reports d temp usage kHIDPage_KeyboardOrKeypad ->
  Z.of_nat (length (m_keys st)) <= usage \/ usage < 0 ->
  FindKeypressCookies_element NDEBUG to_IOHIDElementCookie d st = (Returned tt, st).
Proof.
  intros (Hc & Hu & Hp) Hr. unfold FindKeypressCookies_element.
  rewrite Hc, Hu, Hp. rewrite Z.eqb_refl. unfold_monad.
  destruct (usage >=? Z.of_nat (length (m_keys st))) eqn:Hge; [reflexivity|].
  destruct (usage <? 0) eqn:Hlt; [reflexivity|].
  exfalso. rewrite Z.geb_leb in Hge. apply Z.leb_gt in Hge.
  apply Z.ltb_ge in Hlt. lia.
Qed.

(** C7: a keyboard-page descriptor whose usage code is at least the size of
    the table, or negative, changes nothing: the loop body returns with the
    state as it was (no slot written, nothing logged, no driver call), the
    scan of an array containing it is the scan of the array without it, and
    so is the whole of [FindKeypressCookies], resolved count and result
    included. *)
Theorem out_of_range_usage_ignored NDEBUG to_IOHIDElementCookie d temp usage st :
  reports d temp usage kHIDPage_KeyboardOrKeypad ->
  Z.of_nat (length (m_keys st)) <= usage \/ usage < 0 ->
  FindKeypressCookies_element NDEBUG to_IOHIDElementCookie d st = (Returned tt, st) /\
  (forall ds1 ds2,
     for_each (FindKeypressCookies_element NDEBUG to_IOHIDElementCookie)
              (ds1 ++ d :: ds2) st
     = for_each (FindKeypressCookies_element NDEBUG to_IOHIDElementCookie)
                (ds1 ++ ds2) st) /\
  (forall drv drv' this r ds1 ds2,
     m_pimpl st = Some this ->
     drv_copyMatchingElements drv (m_hidDeviceInterface this) = (r, ds1 ++ d :: ds2) ->
     drv_copyMatchingElements drv' (m_hidDeviceInterface this) = (r, ds1 ++ ds2) ->
     FindKeypressCookies NDEBUG to_IOHIDElementCookie drv st
     = FindKeypressCookies NDEBUG to_IOHIDElementCookie drv' st).
Proof.
  intros Hd Hr.
  set (P := fun s : Machine => length (m_keys s) = length (m_keys st)).
  assert (Hskip : forall s, P s ->
            FindKeypressCookies_element NDEBUG to_IOHIDElementCookie d s
            = (Returned tt, s)).
  { intros s Hs. apply (out_of_range_element _ _ _ temp usage); [assumption|].
    unfold P in Hs. rewrite Hs. assumption. }
  assert (Hkeep : forall e s, P s ->
            P (final (FindKeypressCookies_element NDEBUG to_IOHIDElementCookie e) s)).
  { intros e s Hs. unfold P in *.
    destruct (element_frame NDEBUG to_IOHIDElementCookie e s)
      as (_ & _ & _ & _ & _ & _ & Hl & _).
    congruence. }
  assert (Hscan : forall ds1 ds2 s, P s ->
            for_each (FindKeypressCookies_element NDEBUG to_IOHIDElementCookie)
                     (ds1 ++ d :: ds2) s
            = for_each (FindKeypressCookies_element NDEBUG to_IOHIDElementCookie)
                       (ds1 ++ ds2) s).
  { intros ds1 ds2 s Hs. apply (scan_without _ _ P); assumption. }
  split; [|split].
  - apply Hskip. reflexivity.
  - intros ds1 ds2. apply Hscan. reflexivity.
  - intros drv drv' this r ds1 ds2 Hp H1 H2.
    apply (FindKeypressCookies_same_scan _ _ P drv drv' st this r _ _ Hp H1 H2).
    + intros c s Hs. exact Hs.
    + reflexivity.
    + intros s Hs. apply Hscan. exact Hs.
Qed.

Lemma out_of_range_usage_ignored_witness :
  FindKeypressCookies_element false cookie_uint32
    (descriptor 7 231 kHIDPage_KeyboardOrKeypad) before_resolution
  = (Returned tt, before_resolution) /\
  FindKeypressCookies_element false cookie_uint32
    (descriptor 8 (-1) kHIDPage_KeyboardOrKeypad) before_resolution
  = (Returned tt, before_resolution).
Proof.
  split.
  - apply (out_of_range_usage_ignored false cookie_uint32
             (descriptor 7 231 kHIDPage_KeyboardOrKeypad) 7 231 before_resolution).
    + repeat split.
    + left. vm_compute. discriminate.
  - apply (out_of_range_usage_ignored false cookie_uint32
             (descriptor 8 (-1) kHIDPage_KeyboardOrKeypad) 8 (-1) before_resolution).
    + repeat split.
    + right. lia.
Defined.

(** A slot that holds a handle keeps it, whatever the scan meets. *)
Lemma bound_slot_kept NDEBUG to_IOHIDElementCookie ds st i k :
  m_keys st !! i = Some k -> macCookieValue k <> 0 ->
  m_keys (final (for_each (FindKeypressCookies_element NDEBUG to_IOHIDElementCookie) ds) st)
    !! i = Some k.
Proof.
  intros Hk Hc.
  destruct (scan_frame_for_each NDEBUG to_IOHIDElementCookie ds st)
    as (_ & _ & _ & _ & _ & _ & _ & H).
  destruct (H i k Hk) as (k' & Hk' & _ & _ & _ & Heq).
  rewrite Hk'. f_equal. apply Heq. exact Hc.
Qed.

(** In a build without [assert]s, a keyboard-page descriptor for a slot that
    already holds a handle is passed by. *)
Lemma duplicate_element to_IOHIDElementCookie d temp usage st :
  reports d temp usage kHIDPage_KeyboardOrKeypad ->
  0 <= usage ->
  bound_at (m_keys st) (Z.to_nat usage) ->
  FindKeypressCookies_element true to_IOHIDElementCookie d st = (Returned tt, st).
Proof.
  intros (Hc & Hu & Hp) H0 (k & Hk & Hne). unfold FindKeypressCookies_element.
  rewrite Hc, Hu, Hp. rewrite Z.eqb_refl. unfold_monad.
  destruct (usage >=? Z.of_nat (length (m_keys st))); [reflexivity|].
  destruct (usage <? 0); [reflexivity|].
  rewrite Hk. apply Z.eqb_neq in Hne. rewrite Hne. reflexivity.
Qed.

(** After a keyboard-page descriptor with an in-range usage code and a
    cookie other than 0, the slot holds a handle: the one it held before,
    or else this descriptor's. *)
Lemma element_binds to_IOHIDElementCookie d temp usage st :
  reports d temp usage kHIDPage_KeyboardOrKeypad ->
  0 <= usage < Z.of_nat (length (m_keys st)) ->
  to_IOHIDElementCookie temp <> 0 ->
  exists st' k,
    FindKeypressCookies_element true to_IOHIDElementCookie d st = (Returned tt, st') /\
    m_keys st' !! Z.to_nat usage = Some k /\
    macCookieValue k <> 0 /\
    (forall k0, m_keys st !! Z.to_nat usage = Some k0 ->
       k = if macCookieValue k0 =? 0
           then set_cookie (to_IOHIDElementCookie temp) k0 else k0).
Proof.
  intros (Hc & Hu & Hp) Hr Hne. unfold FindKeypressCookies_element.
  rewrite Hc, Hu, Hp. rewrite Z.eqb_refl. unfold_monad.
  replace (usage >=? Z.of_nat (length (m_keys st))) with false
    by (symmetry; rewrite Z.geb_leb; apply Z.leb_gt; lia).
  replace (usage <? 0) with false by (symmetry; apply Z.ltb_ge; lia).
  destruct (m_keys st !! Z.to_nat usage) as [k0|] eqn:Hk.
  2:{ exfalso. apply lookup_ge_None in Hk. lia. }
  destruct (macCookieValue k0 =? 0) eqn:E; simpl.
  - eexists _, (set_cookie (to_IOHIDElementCookie temp) k0).
    split; [reflexivity|]. simpl. split; [|split].
    + apply list_lookup_insert_eq. eapply lookup_lt_Some; eassumption.
    + assumption.
    + intros k1 H1. injection H1 as <-. rewrite E. reflexivity.
  - exists st, k0. split; [reflexivity|]. split; [assumption|]. split.
    + apply Z.eqb_neq. assumption.
    + intros k1 H1. injection H1 as <-. rewrite E. reflexivity.
Qed.

Lemma for_each_app_run {A} (body : A -> M unit) l1 l2 st s0 :
  for_each body l1 st = (Returned tt, s0) ->
  for_each body (l1 ++ l2) st = for_each body l2 s0.
Proof. intros H. rewrite for_each_app. unfold bind. rewrite H. reflexivity. Qed.

Lemma scan_duplicate to_IOHIDElementCookie d1 d2 t1 t2 usage ds1 ds2 ds3 st :
  let scan := for_each (FindKeypressCookies_element true to_IOHIDElementCookie) in
  reports d1 t1 usage kHIDPage_KeyboardOrKeypad ->
  reports d2 t2 usage kHIDPage_KeyboardOrKeypad ->
  0 <= usage < Z.of_nat (length (m_keys st)) ->
  to_IOHIDElementCookie t1 <> 0 ->
  exists s1 k,
    scan (ds1 ++ [d1]) st = (Returned tt, s1) /\
    m_keys s1 !! Z.to_nat usage = Some k /\
    macCookieValue k <> 0 /\
    (forall k0, m_keys (final (scan ds1) st) !! Z.to_nat usage = Some k0 ->
       k = if macCookieValue k0 =? 0
           then set_cookie (to_IOHIDElementCookie t1) k0 else k0) /\
    m_keys (final (scan (ds1 ++ d1 :: ds2 ++ d2 :: ds3)) st) !! Z.to_nat usage
      = Some k /\
    scan (ds1 ++ d1 :: ds2 ++ d2 :: ds3) st = scan (ds1 ++ d1 :: ds2 ++ ds3) st.
Proof.
  intros scan H1 H2 Hr Hne.
  destruct (scan_returns to_IOHIDElementCookie ds1 st) as [s0 Hs0].
  fold scan in Hs0.
  assert (Hlen : length (m_keys s0) = length (m_keys st)).
  { pose proof (scan_frame_for_each true to_IOHIDElementCookie ds1 st) as F.
    unfold final in F. fold scan in F. rewrite Hs0 in F.
    destruct F as (_ & _ & _ & _ & _ & _ & Hl & _). exact Hl. }
  destruct (element_binds to_IOHIDElementCookie d1 t1 usage s0 H1)
    as (s1 & k & Hs1 & Hk & Hc & Hfrom); [lia|assumption|].
  set (P := fun s : Machine => m_keys s !! Z.to_nat usage = Some k).
  assert (Hskip : forall s, P s ->
            FindKeypressCookies_element true to_IOHIDElementCookie d2 s
            = (Returned tt, s)).
  { intros s Hs. apply (duplicate_element _ _ t2 usage); [assumption|lia|].
    exists k. auto. }
  assert (Hkeep : forall e s, P s ->
            P (final (FindKeypressCookies_element true to_IOHIDElementCookie e) s)).
  { intros e s Hs. unfold P in *.
    destruct (element_frame true to_IOHIDElementCookie e s)
      as (_ & _ & _ & _ & _ & _ & _ & H).
    destruct (H _ _ Hs) as (k' & Hk' & _ & _ & _ & Heq).
    rewrite Hk'. f_equal. apply Heq. exact Hc. }
  assert (Hd1 : forall rest, scan (ds1 ++ d1 :: rest) st = scan rest s1).
  { intros rest. unfold scan. rewrite (for_each_app_run _ _ _ _ _ Hs0).
    simpl. unfold bind. rewrite Hs1. reflexivity. }
  exists s1, k. split; [|split; [|split; [|split; [|split]]]].
  - apply (Hd1 []).
  - exact Hk.
  - exact Hc.
  - unfold final. rewrite Hs0. exact Hfrom.
  - unfold final. rewrite Hd1. apply bound_slot_kept; assumption.
  - rewrite !Hd1. apply (scan_without _ _ P); assumption.
Qed.

(** In a build without [assert]s, a keyboard-page descriptor whose cookie
    converts to 0, the value of a slot that holds no handle, leaves the
    machine as it is. *)
Lemma zero_cookie_element to_IOHIDElementCookie d temp usage st :
  reports d temp usage kHIDPage_KeyboardOrKeypad ->
  to_IOHIDElementCookie temp = 0 ->
  FindKeypressCookies_element true to_IOHIDElementCookie d st = (Returned tt, st).
Proof.
  intros (Hc & Hu & Hp) Hz. unfold FindKeypressCookies_element.
  rewrite Hc, Hu, Hp. rewrite Z.eqb_refl. unfold_monad.
  destruct (usage >=? Z.of_nat (length (m_keys st))) eqn:Hge; [reflexivity|].
  destruct (usage <? 0) eqn:Hlt; [reflexivity|].
  destruct (m_keys st !! Z.to_nat usage) as [key|] eqn:Hk.
  2:{ exfalso. apply lookup_ge_None in Hk.
      rewrite Z.geb_leb in Hge. apply Z.leb_gt in Hge.
      apply Z.ltb_ge in Hlt. lia. }
  destruct (macCookieValue key =? 0) eqn:E; simpl; [|reflexivity].
  apply Z.eqb_eq in E. f_equal. rewrite Hz.
  assert (Hsame : set_cookie 0 key = key).
  { destruct key. cbn in E. subst. reflexivity. }
  rewrite Hsame, list_insert_id by exact Hk.
  destruct st. reflexivity.
Qed.

(** C6, as the code has it: in a build without [assert]s, when two
    keyboard-page descriptors of one scan report the same in-range usage code
    and the first carries a handle (a cookie other than 0, the value that
    stands for "unset"), the slot holds a handle once the first has been
    processed (this descriptor's cookie, if the slot was unset until then)
    and holds the same one when the scan ends, whatever else the array
    contains.  The second descriptor might as well be absent: the scan, and
    [FindKeypressCookies] as a whole, leave the same table, count and result
    with or without it.  A first descriptor whose cookie is 0 binds nothing:
    it is that descriptor that might as well be absent, and the second is
    treated as if it came first. *)
Theorem duplicate_usage_keeps_first to_IOHIDElementCookie d1 d2 t1 t2 usage
    ds1 ds2 ds3 st :
  let scan := for_each (FindKeypressCookies_element true to_IOHIDElementCookie) in
  reports d1 t1 usage kHIDPage_KeyboardOrKeypad ->
  reports d2 t2 usage kHIDPage_KeyboardOrKeypad ->
  0 <= usage < Z.of_nat (length (m_keys st)) ->
  (to_IOHIDElementCookie t1 <> 0 ->
   (exists k,
      m_keys (final (scan (ds1 ++ [d1])) st) !! Z.to_nat usage = Some k /\
      macCookieValue k <> 0 /\
      (forall k0, m_keys (final (scan ds1) st) !! Z.to_nat usage = Some k0 ->
         macCookieValue k0 = 0 ->
         macCookieValue k = to_IOHIDElementCookie t1) /\
      m_keys (final (scan (ds1 ++ d1 :: ds2 ++ d2 :: ds3)) st) !! Z.to_nat usage
        = Some k) /\
   scan (ds1 ++ d1 :: ds2 ++ d2 :: ds3) st = scan (ds1 ++ d1 :: ds2 ++ ds3) st /\
   (forall drv drv' this r,
      m_pimpl st = Some this ->
      drv_copyMatchingElements drv (m_hidDeviceInterface this)
        = (r, ds1 ++ d1 :: ds2 ++ d2 :: ds3) ->
      drv_copyMatchingElements drv' (m_hidDeviceInterface this)
        = (r, ds1 ++ d1 :: ds2 ++ ds3) ->
      FindKeypressCookies true to_IOHIDElementCookie drv st
      = FindKeypressCookies true to_IOHIDElementCookie drv' st)) /\
  (to_IOHIDElementCookie t1 = 0 ->
   scan (ds1 ++ d1 :: ds2 ++ d2 :: ds3) st = scan (ds1 ++ ds2 ++ d2 :: ds3) st /\
   (forall drv drv' this r,
      m_pimpl st = Some this ->
      drv_copyMatchingElements drv (m_hidDeviceInterface this)
        = (r, ds1 ++ d1 :: ds2 ++ d2 :: ds3) ->
      drv_copyMatchingElements drv' (m_hidDeviceInterface this)
        = (r, ds1 ++ ds2 ++ d2 :: ds3) ->
      FindKeypressCookies true to_IOHIDElementCookie drv st
      = FindKeypressCookies true to_IOHIDElementCookie drv' st)).
Proof.
  intros scan H1 H2 Hr. split.
  - intros Hne.
    destruct (scan_duplicate to_IOHIDElementCookie d1 d2 t1 t2 usage ds1 ds2 ds3
                st H1 H2 Hr Hne) as (s1 & k & Hs1 & Hk & Hc & Hfrom & Hend & Heq).
    split; [|split].
    + exists k. split; [|split; [|split]].
      * unfold final, scan. rewrite Hs1. exact Hk.
      * exact Hc.
      * intros k0 Hk0 H0. rewrite (Hfrom k0 Hk0).
        apply Z.eqb_eq in H0. rewrite H0. reflexivity.
      * exact Hend.
    + exact Heq.
    + intros drv drv' this r Hp Hd Hd'.
      apply (FindKeypressCookies_same_scan _ _
               (fun s => length (m_keys s) = length (m_keys st))
               drv drv' st this r _ _ Hp Hd Hd').
      * intros c s Hs. exact Hs.
      * reflexivity.
      * intros s Hs.
        destruct (scan_duplicate to_IOHIDElementCookie d1 d2 t1 t2 usage
                    ds1 ds2 ds3 s H1 H2) as (_ & _ & _ & _ & _ & _ & _ & E);
          [rewrite Hs; exact Hr | exact Hne | exact E].
  - intros Hz.
    assert (Hscan : forall s,
              scan (ds1 ++ d1 :: ds2 ++ d2 :: ds3) s
              = scan (ds1 ++ ds2 ++ d2 :: ds3) s).
    { intros s.
      apply (scan_without true to_IOHIDElementCookie (fun _ => True));
        [|trivial|trivial].
      intros s' _. apply (zero_cookie_element _ _ t1 usage); assumption. }
    split; [apply Hscan|].
    intros drv drv' this r Hp Hd Hd'.
    apply (FindKeypressCookies_same_scan _ _ (fun _ => True)
             drv drv' st this r _ _ Hp Hd Hd'); [trivial|trivial|].
    intros s _. apply Hscan.
Qed.

Lemma duplicate_usage_keeps_first_witness :
  (exists k,
     m_keys (final (for_each (FindKeypressCookies_element true cookie_uint32)
                      ([] ++ [descriptor 104 4 kHIDPage_KeyboardOrKeypad]))
                   before_resolution) !! Z.to_nat 4 = Some k /\
     macCookieValue k <> 0 /\
     (forall k0,
        m_keys (final (for_each (FindKeypressCookies_element true cookie_uint32) [])
                      before_resolution) !! Z.to_nat 4 = Some k0 ->
        macCookieValue k0 = 0 -> macCookieValue k = cookie_uint32 104) /\
     m_keys (final (for_each (FindKeypressCookies_element true cookie_uint32)
                      ([] ++ descriptor 104 4 kHIDPage_KeyboardOrKeypad
                          :: [] ++ descriptor 999 4 kHIDPage_KeyboardOrKeypad :: []))
                   before_resolution) !! Z.to_nat 4 = Some k) /\
  for_each (FindKeypressCookies_element true cookie_uint32)
    ([] ++ descriptor (2 ^ 32) 4 kHIDPage_KeyboardOrKeypad
        :: [] ++ descriptor 999 4 kHIDPage_KeyboardOrKeypad :: [])
    before_resolution
  = for_each (FindKeypressCookies_element true cookie_uint32)
      ([] ++ [] ++ descriptor 999 4 kHIDPage_KeyboardOrKeypad :: [])
      before_resolution.
Proof.
  split.
  - apply (duplicate_usage_keeps_first cookie_uint32
             (descriptor 104 4 kHIDPage_KeyboardOrKeypad)
             (descriptor 999 4 kHIDPage_KeyboardOrKeypad)
             104 999 4 [] [] [] before_resolution).
    + repeat split.
    + repeat split.
    + vm_compute. split; [discriminate|reflexivity].
    + vm_compute. discriminate.
  - apply (duplicate_usage_keeps_first cookie_uint32
             (descriptor (2 ^ 32) 4 kHIDPage_KeyboardOrKeypad)
             (descriptor 999 4 kHIDPage_KeyboardOrKeypad)
             (2 ^ 32) 999 4 [] [] [] before_resolution).
    + repeat split.
    + repeat split.
    + vm_compute. split; [discriminate|reflexivity].
    + vm_compute. reflexivity.
Defined.

(** C6 as the specification states it, for every pair of descriptors, does
    not hold.  A first descriptor whose cookie is 0 leaves the slot without
    a handle, and the second descriptor's cookie is then stored: the slot at
    the end of the scan is not what the first descriptor left, and the scan
    is not the scan without the second descriptor. *)
Lemma first_cookie_zero_second_binds :
  ~ (forall to_IOHIDElementCookie d1 d2 t1 t2 usage ds1 ds2 ds3 st,
       let scan :=
         for_each (FindKeypressCookies_element true to_IOHIDElementCookie) in
       reports d1 t1 usage kHIDPage_KeyboardOrKeypad ->
       reports d2 t2 usage kHIDPage_KeyboardOrKeypad ->
       0 <= usage < Z.of_nat (length (m_keys st)) ->
       m_keys (final (scan (ds1 ++ d1 :: ds2 ++ d2 :: ds3)) st) !! Z.to_nat usage
         = m_keys (final (scan (ds1 ++ [d1])) st) !! Z.to_nat usage /\
       scan (ds1 ++ d1 :: ds2 ++ d2 :: ds3) st
         = scan (ds1 ++ d1 :: ds2 ++ ds3) st).
Proof.
  intros H.
  destruct (H cookie_uint32
              (descriptor 0 4 kHIDPage_KeyboardOrKeypad)
              (descriptor 999 4 kHIDPage_KeyboardOrKeypad)
              0 999 4 [] [] [] before_resolution) as [Hslot _].
  - repeat split.
  - repeat split.
  - vm_compute. split; [discriminate|reflexivity].
  - vm_compute in Hslot. discriminate.
Qed.

(** Cookie 0 is the value of a slot that holds no handle: a descriptor that
    carries it leaves the slot unset, and a later descriptor for the same
    usage code binds its own cookie. *)
Example zero_cookie_binds_nothing :
  let scan := for_each (FindKeypressCookies_element true cookie_uint32) in
  macCookieValue <$>
    m_keys (final (scan [descriptor 0 4 kHIDPage_KeyboardOrKeypad])
                  before_resolution) !! 4%nat = Some 0 /\
  macCookieValue <$>
    m_keys (final (scan [descriptor 0 4 kHIDPage_KeyboardOrKeypad;
                         descriptor 999 4 kHIDPage_KeyboardOrKeypad])
                  before_resolution) !! 4%nat = Some 999.
Proof. split; vm_compute; reflexivity. Qed.

(** ** Initialization failure and the release of driver resources *)

Lemma add_calls_nil st : add_calls [] st = st.
Proof. destruct st. unfold add_calls. simpl. rewrite app_nil_r. reflexivity. Qed.

Lemma add_calls_add_calls a b st :
  add_calls b (add_calls a st) = add_calls (a ++ b) st.
Proof. unfold add_calls. simpl. rewrite app_assoc. reflexivity. Qed.

Lemma call_run c st : call c st = (Returned tt, add_calls [c] st).
Proof. reflexivity. Qed.

Lemma PrivateImpl_destructor_run this st :
  PrivateImpl_destructor this st
  = (Returned tt, add_calls (release_sequence this) st).
Proof.
  unfold PrivateImpl_destructor, release_sequence.
  destruct (negb (m_hidDeviceInterface this =? 0));
    destruct (negb (m_plugInInterface this =? 0));
    destruct (negb (m_hidQueue this =? 0));
    destruct (negb (m_hidDevice this =? 0));
    unfold bind, ret; rewrite ?call_run, ?add_calls_add_calls;
    simpl; rewrite ?add_calls_nil; reflexivity.
Qed.

Lemma m_pimpl_reset_run st :
  m_pimpl_reset st
  = (Returned tt,
     match m_pimpl st with
     | Some this => add_calls (release_sequence this) (set_pimpl None st)
     | None => st
     end).
Proof.
  unfold m_pimpl_reset, bind, gets, modify.
  destruct (m_pimpl st) as [this|]; [|reflexivity].
  apply PrivateImpl_destructor_run.
Qed.

Lemma LogInitializationError_run errorDesc st :
  exists text,
    LogInitializationError errorDesc st
    = (Returned tt, if m_errorLoggerFunctor st then add_log text st else st).
Proof.
  unfold LogInitializationError, bind, gets.
  eexists. apply LogErrorWhenFunctorIsntEmpty_run.
Qed.

Lemma basic_initialization_fails_chain NDEBUG to_IOHIDElementCookie drv st stage s :
  basic_initialization_fails NDEBUG to_IOHIDElementCookie drv st stage s ->
  Initialize_basic NDEBUG to_IOHIDElementCookie drv st = (Returned false, s).
Proof.
  intros H. unfold Initialize_basic, andM, bind, ret.
  destruct H as [s H1|s1 s H1 H2|s1 s2 s H1 H2 H3|s1 s2 s3 s H1 H2 H3 H4
                 |s1 s2 s3 s4 s H1 H2 H3 H4 H5].
  - rewrite H1. reflexivity.
  - rewrite H1, H2. reflexivity.
  - rewrite H1, H2, H3. reflexivity.
  - rewrite H1, H2, H3, H4. reflexivity.
  - rewrite H1, H2, H3, H4, H5. reflexivity.
Qed.

(** What [Initialize] does once the basic initialization has failed: it
    logs, gives the resources back and leaves [m_pimpl] empty. *)
Lemma Initialize_after_failure NDEBUG to_IOHIDElementCookie drv st s1 :
  Initialize_basic NDEBUG to_IOHIDElementCookie drv st = (Returned false, s1) ->
  exists st',
    Initialize NDEBUG to_IOHIDElementCookie drv st = (Returned tt, st') /\
    m_pimpl st' = None /\
    driver_calls st' = driver_calls s1 ++
      match m_pimpl s1 with
      | Some this => release_sequence this
      | None => []
      end.
Proof.
  intros Hb. unfold Initialize. unfold bind at 1. rewrite Hb.
  destruct (LogInitializationError_run
              "Failed basic keyboard initialization." s1) as [text Hlog].
  unfold bind at 1. unfold bind at 1. rewrite Hlog.
  rewrite m_pimpl_reset_run. unfold bind, gets, ret. simpl.
  eexists. split; [reflexivity|].
  destruct (m_errorLoggerFunctor s1); simpl;
    destruct (m_pimpl s1) eqn:E; simpl; rewrite ?E, ?app_nil_r; auto.
Qed.

(** C3: when the basic initialization of a session fails, at whichever of
    its five stages, the constructor returns with [m_pimpl] empty, and from
    then on [CountOfCurrentlyDepressedKeys] returns -1 and leaves the machine
    as it was: no call into the driver layer is made. *)
Theorem failed_session_count_is_negative NDEBUG to_IOHIDElementCookie drv
    enableQueue errorLoggerFunctor st0 stage s1 :
  basic_initialization_fails NDEBUG to_IOHIDElementCookie drv
    (member_initialisers enableQueue errorLoggerFunctor st0) stage s1 ->
  exists st',
    HelperForKeyboardReaderIOKit_constructor NDEBUG to_IOHIDElementCookie drv
      enableQueue errorLoggerFunctor st0 = (Returned tt, st') /\
    m_pimpl st' = None /\
    forall NDEBUG' _DEBUG drv',
      exists n,
        CountOfCurrentlyDepressedKeys NDEBUG' _DEBUG drv' st' = (Returned n, st') /\
        n < 0 /\
        driver_calls (final (CountOfCurrentlyDepressedKeys NDEBUG' _DEBUG drv') st')
          = driver_calls st'.
Proof.
  intros Hf. apply basic_initialization_fails_chain in Hf.
  destruct (Initialize_after_failure _ _ _ _ _ Hf) as (st' & Hi & Hp & _).
  exists st'. split; [|split].
  - unfold HelperForKeyboardReaderIOKit_constructor, bind, modify. exact Hi.
  - exact Hp.
  - intros NDEBUG' _DEBUG drv'. exists (-1).
    assert (Hc : CountOfCurrentlyDepressedKeys NDEBUG' _DEBUG drv' st'
                 = (Returned (-1), st')).
    { unfold CountOfCurrentlyDepressedKeys, bind, gets. rewrite Hp. reflexivity. }
    split; [exact Hc|]. split; [lia|]. unfold final. rewrite Hc. reflexivity.
Qed.

Lemma failed_session_count_is_negative_witness :
  exists st',
    HelperForKeyboardReaderIOKit_constructor false cookie_uint32
      unopenable_keyboard true true process_start = (Returned tt, st') /\
    m_pimpl st' = None /\
    forall NDEBUG' _DEBUG drv',
      exists n,
        CountOfCurrentlyDepressedKeys NDEBUG' _DEBUG drv' st' = (Returned n, st') /\
        n < 0 /\
        driver_calls (final (CountOfCurrentlyDepressedKeys NDEBUG' _DEBUG drv') st')
          = driver_calls st'.
Proof.
  apply (failed_session_count_is_negative false cookie_uint32
           unopenable_keyboard true true process_start
           DeviceInterfaceCreation
           (final (CreateDeviceInterface unopenable_keyboard)
              (final (CreatePluginInterface unopenable_keyboard)
                 (final (FindKeyboard unopenable_keyboard)
                    (member_initialisers true true process_start))))).
  eapply fails_DeviceInterfaceCreation; vm_compute; reflexivity.
Defined.

(** ** Draining the queue *)

Lemma after_reads_step queue n st :
  after_reads queue n (next_read (add_call (Call_queue_getNextEvent queue) st))
  = after_reads queue (S n) st.
Proof.
  unfold after_reads, next_read, add_call. simpl. f_equal.
  - rewrite <- app_assoc. reflexivity.
  - lia.
Qed.

(** The loop asks for events one at a time and stops at the first answer
    that is not [kIOReturnSuccess], which it yields. *)
Lemma ReadFromQueue_loop_run drv queue status event k :
  queue <> 0 ->
  status <> kIOReturnSuccess ->
  forall st fuel,
    (forall i, (i < k)%nat ->
       fst (drv_queue_getNextEvent drv queue (i + queue_reads st)) = kIOReturnSuccess) ->
    drv_queue_getNextEvent drv queue (k + queue_reads st) = (status, event) ->
    (k < fuel)%nat ->
    ReadFromQueue_loop drv fuel queue st
    = (Returned (Some status), after_reads queue (S k) st).
Proof.
  intros Hq Hs. apply Z.eqb_neq in Hq.
  induction k as [|k IH]; intros st fuel Hok Hend Hfuel;
    (destruct fuel as [|fuel]; [lia|]); cbn [ReadFromQueue_loop];
    unfold bind at 1; unfold call_through; rewrite Hq;
    unfold call, modify, bind, gets; cbn [queue_reads add_call].
  - cbn [Nat.add] in Hend. rewrite Hend.
    replace (kIOReturnSuccess =? status) with false
      by (symmetry; apply Z.eqb_neq; congruence).
    reflexivity.
  - pose proof (Hok O ltac:(lia)) as H0. cbn [Nat.add] in H0.
    destruct (drv_queue_getNextEvent drv queue (queue_reads st)) as [r e].
    cbn [fst] in H0. subst r. rewrite Z.eqb_refl.
    assert (Hbody :
      (if negb (type e =? kIOHIDElementTypeInput_Button) then ret tt
       else let msg := event_message e in ret tt)
        (next_read (add_call (Call_queue_getNextEvent queue) st))
      = (Returned tt, next_read (add_call (Call_queue_getNextEvent queue) st))).
    { destruct (negb (type e =? kIOHIDElementTypeInput_Button)); reflexivity. }
    cbv zeta in Hbody. rewrite Hbody. rewrite IH.
    + rewrite after_reads_step. reflexivity.
    + intros i Hi. cbn [queue_reads next_read add_call].
      replace (i + S (queue_reads st))%nat with (S i + queue_reads st)%nat by lia.
      apply Hok. lia.
    + cbn [queue_reads next_read add_call].
      replace (k + S (queue_reads st))%nat with (S k + queue_reads st)%nat by lia.
      exact Hend.
    + lia.
Qed.

(** C8: on a session with a queue, when the queue answers
    [kIOReturnSuccess] to the next [k] requests and something else to the one
    after, every call of [ReadFromQueue_Experimental] (with fuel for [k + 1]
    iterations) returns after exactly [k + 1] requests, made one at a time.
    When the last answer is [kIOReturnUnderrun], "no more data", nothing is
    logged; any other answer ends the call as well and is handed to the error
    logger (when there is one) as "getNextEvent failed. code: ..". *)
Theorem drain_stops_at_first_failure NDEBUG drv st this status event k fuel :
  m_pimpl st = Some this ->
  m_hidQueue this <> 0 ->
  (forall i, (i < k)%nat ->
     fst (drv_queue_getNextEvent drv (m_hidQueue this) (i + queue_reads st))
     = kIOReturnSuccess) ->
  drv_queue_getNextEvent drv (m_hidQueue this) (k + queue_reads st)
    = (status, event) ->
  status <> kIOReturnSuccess ->
  (k < fuel)%nat ->
  exists st',
    ReadFromQueue_Experimental NDEBUG drv fuel st = (Returned (Some tt), st') /\
    driver_calls st' = driver_calls st
      ++ repeat (Call_queue_getNextEvent (m_hidQueue this)) (S k) /\
    queue_reads st' = (S k + queue_reads st)%nat /\
    logged st' = logged st ++
      (if status =? kIOReturnUnderrun then []
       else if m_errorLoggerFunctor st
            then ["getNextEvent failed. code: " +:+ format_int status]
            else []) /\
    m_keys st' = m_keys st /\
    m_pimpl st' = m_pimpl st.
Proof.
  intros Hp Hq Hok Hend Hs Hfuel.
  unfold ReadFromQueue_Experimental. unfold bind at 1. unfold gets.
  rewrite Hp. replace (m_hidQueue this =? 0) with false
    by (symmetry; apply Z.eqb_neq; assumption).
  unfold bind at 1.
  rewrite (ReadFromQueue_loop_run drv (m_hidQueue this) status event k
             Hq Hs st fuel Hok Hend Hfuel).
  destruct (status =? kIOReturnUnderrun) eqn:Eu; cbn [negb].
  - unfold bind, ret. eexists. split; [reflexivity|]. simpl.
    rewrite app_nil_r. auto.
  - replace (kIOReturnSuccess =? status) with false
      by (symmetry; apply Z.eqb_neq; congruence).
    unfold bind at 1. unfold bind at 1. unfold ret at 1.
    rewrite LogErrorWhenFunctorIsntEmpty_run. unfold ret.
    eexists. split; [reflexivity|]. simpl.
    destruct (m_errorLoggerFunctor st); simpl; rewrite ?app_nil_r; auto.
Qed.

Lemma drain_stops_at_first_failure_witness :
  (exists st',
     ReadFromQueue_Experimental false full_keyboard 10 running_session
       = (Returned (Some tt), st') /\
     driver_calls st' = driver_calls running_session
       ++ repeat (Call_queue_getNextEvent 14) 4 /\
     queue_reads st' = (4 + queue_reads running_session)%nat /\
     logged st' = logged running_session ++ [] /\
     m_keys st' = m_keys running_session /\
     m_pimpl st' = m_pimpl running_session) /\
  (exists st',
     ReadFromQueue_Experimental false failing_queue_keyboard 10 running_session
       = (Returned (Some tt), st') /\
     driver_calls st' = driver_calls running_session
       ++ repeat (Call_queue_getNextEvent 14) 3 /\
     queue_reads st' = (3 + queue_reads running_session)%nat /\
     logged st' = logged running_session
       ++ ["getNextEvent failed. code: -536870212"] /\
     m_keys st' = m_keys running_session /\
     m_pimpl st' = m_pimpl running_session).
Proof.
  split.
  - apply (drain_stops_at_first_failure false full_keyboard running_session
             {| m_hidDevice := 11; m_hidDeviceInterface := 13;
                m_plugInInterface := 12; m_hidQueue := 14 |}
             kIOReturnUnderrun no_event 3 10).
    + vm_compute. reflexivity.
    + simpl. lia.
    + intros i Hi.
      destruct i as [|[|[|i]]]; [vm_compute; reflexivity ..|lia].
    + vm_compute. reflexivity.
    + vm_compute. discriminate.
    + lia.
  - apply (drain_stops_at_first_failure false failing_queue_keyboard
             running_session
             {| m_hidDevice := 11; m_hidDeviceInterface := 13;
                m_plugInInterface := 12; m_hidQueue := 14 |}
             kIOReturnError no_event 2 10).
    + vm_compute. reflexivity.
    + simpl. lia.
    + intros i Hi.
      destruct i as [|[|i]]; [vm_compute; reflexivity ..|lia].
    + vm_compute. reflexivity.
    + vm_compute. discriminate.
    + lia.
Defined.

(** ** The placeholder and usage code 0 *)

(** An element that is not a keyboard-page descriptor with usage code 0
    leaves the slot at index 0 as it is. *)
Lemma element_keeps_slot_zero NDEBUG to_IOHIDElementCookie e st :
  (forall t, ~ reports e t 0 kHIDPage_KeyboardOrKeypad) ->
  m_keys (final (FindKeypressCookies_element NDEBUG to_IOHIDElementCookie e) st)
    !! 0%nat = m_keys st !! 0%nat.
Proof.
  intros Hno. unfold final, FindKeypressCookies_element.
  destruct (read_long (kIOHIDElementCookieKey e)) as [t|] eqn:Ec; [|reflexivity].
  destruct (read_long (kIOHIDElementUsageKey e)) as [u|] eqn:Eu.
  2:{ rewrite LogErrorWhenFunctorIsntEmpty_run.
      destruct (m_errorLoggerFunctor st); reflexivity. }
  destruct (read_long (kIOHIDElementUsagePageKey e)) as [p|] eqn:Ep.
  2:{ rewrite LogErrorWhenFunctorIsntEmpty_run.
      destruct (m_errorLoggerFunctor st); reflexivity. }
  destruct (p =? kHIDPage_KeyboardOrKeypad) eqn:Epage; [|reflexivity].
  apply Z.eqb_eq in Epage. subst p.
  unfold_monad.
  destruct (u >=? Z.of_nat (length (m_keys st))); [reflexivity|].
  destruct (u <? 0) eqn:Hlt; [reflexivity|].
  destruct (m_keys st !! Z.to_nat u) as [key|] eqn:Hk; [|reflexivity].
  destruct (macCookieValue key =? 0); simpl.
  - apply list_lookup_insert_ne. intros H0.
    apply (Hno t). apply Z.ltb_ge in Hlt.
    assert (u = 0) by lia. subst u. repeat split; assumption.
  - destruct NDEBUG; reflexivity.
Qed.

Lemma scan_keeps_slot_zero NDEBUG to_IOHIDElementCookie ds st :
  (forall e t, In e ds -> ~ reports e t 0 kHIDPage_KeyboardOrKeypad) ->
  m_keys (final (for_each (FindKeypressCookies_element NDEBUG to_IOHIDElementCookie)
                          ds) st) !! 0%nat
  = m_keys st !! 0%nat.
Proof.
  revert st. induction ds as [|e ds IH]; intros st Hno; [reflexivity|].
  unfold final. simpl. unfold bind.
  pose proof (element_keeps_slot_zero NDEBUG to_IOHIDElementCookie e st
                (fun t => Hno e t (or_introl eq_refl))) as He.
  unfold final in He.
  destruct (FindKeypressCookies_element NDEBUG to_IOHIDElementCookie e st)
    as [[[]|f] s1]; simpl in *.
  - rewrite <- He. apply IH. intros e' t Hin. apply Hno. right. exact Hin.
  - exact He.
Qed.

(** Every computation of the snapshot reader only adds to the trace. *)
Lemma count_loop_extends NDEBUG drv this keys score st :
  exists post,
    driver_calls
      (final (for_each_with (CountOfCurrentlyDepressedKeys_key NDEBUG drv this)
                            score keys) st)
    = driver_calls st ++ post.
Proof.
  revert score st. induction keys as [|k keys IH]; intros score st.
  - exists []. unfold final. simpl. rewrite app_nil_r. reflexivity.
  - unfold final. cbn [for_each_with]. unfold bind at 1.
    assert (Hk : exists post,
      driver_calls
        (snd (CountOfCurrentlyDepressedKeys_key NDEBUG drv this score k st))
      = driver_calls st ++ post).
    { unfold CountOfCurrentlyDepressedKeys_key.
      destruct (resolved k); [|exists []; simpl; rewrite app_nil_r; reflexivity].
      unfold bind at 1. unfold call_through.
      destruct (m_hidDeviceInterface this =? 0);
        [exists []; simpl; rewrite app_nil_r; reflexivity|].
      unfold call, modify.
      destruct (drv_getElementValue drv (m_hidDeviceInterface this)
                  (macCookieValue k)) as [r v].
      exists [Call_getElementValue (m_hidDeviceInterface this) (macCookieValue k)].
      unfold assert_, read_uninitialised, bind, gets, ret, abort.
      destruct (r =? kIOReturnSuccess); cbn [negb];
        destruct NDEBUG; cbn [negb]; try reflexivity;
        match goal with |- context [negb (?x =? 0)] =>
          destruct (negb (x =? 0)) end; reflexivity. }
    destruct Hk as [post1 Hk].
    destruct (CountOfCurrentlyDepressedKeys_key NDEBUG drv this score k st)
      as [[score'|f] s1]; simpl in Hk.
    + destruct (IH score' s1) as [post2 H2]. unfold final in H2.
      exists (post1 ++ post2). rewrite H2, Hk, app_assoc. reflexivity.
    + exists post1. exact Hk.
Qed.

(** One block of [DebugCheckErrorKeys] returns, on a session that holds the
    device interface and a table long enough; it changes the trace and the
    log only. *)
Lemma DebugCheckErrorKey_run drv usage label st this :
  m_pimpl st = Some this ->
  m_hidDeviceInterface this <> 0 ->
  (Z.to_nat usage < length (m_keys st))%nat ->
  exists st' pre,
    DebugCheckErrorKey drv usage label st = (Returned tt, st') /\
    m_pimpl st' = m_pimpl st /\
    m_keys st' = m_keys st /\
    driver_calls st' = driver_calls st ++ pre.
Proof.
  intros Hp Hi Hl. unfold DebugCheckErrorKey.
  unfold bind at 1. unfold pimpl, bind, gets. rewrite Hp. unfold ret at 1.
  destruct (m_keys st !! Z.to_nat usage) as [key|] eqn:Hk.
  2:{ exfalso. apply lookup_ge_None in Hk. lia. }
  unfold call_through. apply Z.eqb_neq in Hi. rewrite Hi.
  unfold call, modify.
  destruct (drv_getElementValue drv (m_hidDeviceInterface this)
              (macCookieValue key)) as [r v].
  destruct (r =? kIOReturnSuccess); [destruct (negb (v =? 0))|];
    rewrite ?LogErrorWhenFunctorIsntEmpty_run; unfold ret;
    eexists _, _; (split; [reflexivity|]);
    try destruct (m_errorLoggerFunctor _); simpl; auto.
Qed.

Lemma DebugCheckErrorKeys_run _DEBUG drv st this :
  m_pimpl st = Some this ->
  m_hidDeviceInterface this <> 0 ->
  (Z.to_nat kHIDUsage_KeyboardPower < length (m_keys st))%nat ->
  exists st' pre,
    DebugCheckErrorKeys _DEBUG drv st = (Returned tt, st') /\
    m_pimpl st' = m_pimpl st /\
    m_keys st' = m_keys st /\
    driver_calls st' = driver_calls st ++ pre /\
    (_DEBUG = false -> pre = []).
Proof.
  intros Hp Hi Hl. unfold DebugCheckErrorKeys. destruct _DEBUG.
  2:{ exists st, []. rewrite app_nil_r. auto. }
  assert (H1 : (Z.to_nat kHIDUsage_KeyboardErrorRollOver < length (m_keys st))%nat)
    by (vm_compute in Hl |- *; lia).
  assert (H2 : (Z.to_nat kHIDUsage_KeyboardPOSTFail < length (m_keys st))%nat)
    by (vm_compute in Hl |- *; lia).
  assert (H3 : (Z.to_nat kHIDUsage_KeyboardErrorUndefined < length (m_keys st))%nat)
    by (vm_compute in Hl |- *; lia).
  destruct (DebugCheckErrorKey_run drv kHIDUsage_KeyboardErrorRollOver
              "kHIDUsage_KeyboardErrorRollOver" st this Hp Hi H1)
    as (s1 & p1 & E1 & P1 & K1 & C1).
  rewrite <- P1 in Hp. rewrite <- K1 in H2, H3, Hl.
  destruct (DebugCheckErrorKey_run drv kHIDUsage_KeyboardPOSTFail
              "kHIDUsage_KeyboardPOSTFail" s1 this Hp Hi H2)
    as (s2 & p2 & E2 & P2 & K2 & C2).
  rewrite <- P2 in Hp. rewrite <- K2 in H3, Hl.
  destruct (DebugCheckErrorKey_run drv kHIDUsage_KeyboardErrorUndefined
              "kHIDUsage_KeyboardErrorUndefined" s2 this Hp Hi H3)
    as (s3 & p3 & E3 & P3 & K3 & C3).
  rewrite <- P3 in Hp. rewrite <- K3 in Hl.
  destruct (DebugCheckErrorKey_run drv kHIDUsage_KeyboardPower
              "kHIDUsage_KeyboardPower" s3 this Hp Hi Hl)
    as (s4 & p4 & E4 & P4 & K4 & C4).
  exists s4, (p1 ++ p2 ++ p3 ++ p4).
  unfold bind. rewrite E1, E2, E3, E4.
  split; [reflexivity|]. split; [congruence|]. split; [congruence|].
  split; [|discriminate].
  rewrite C4, C3, C2, C1. rewrite <- !app_assoc. reflexivity.
Qed.

(** A keyboard-page descriptor whose slot holds no handle yet binds its
    cookie into the slot, in every build. *)
Lemma element_binds_unset NDEBUG to_IOHIDElementCookie d temp usage st k0 :
  reports d temp usage kHIDPage_KeyboardOrKeypad ->
  0 <= usage ->
  m_keys st !! Z.to_nat usage = Some k0 ->
  macCookieValue k0 = 0 ->
  FindKeypressCookies_element NDEBUG to_IOHIDElementCookie d st
  = (Returned tt,
     set_keys (<[Z.to_nat usage := set_cookie (to_IOHIDElementCookie temp) k0]>
                 (m_keys st)) st).
Proof.
  intros (Hc & Hu & Hp) H0 Hk Hz. unfold FindKeypressCookies_element.
  rewrite Hc, Hu, Hp. rewrite Z.eqb_refl. unfold_monad.
  pose proof (lookup_lt_Some _ _ _ Hk) as Hlt.
  replace (usage >=? Z.of_nat (length (m_keys st))) with false
    by (symmetry; rewrite Z.geb_leb; apply Z.leb_gt; lia).
  replace (usage <? 0) with false by (symmetry; apply Z.ltb_ge; lia).
  rewrite Hk. apply Z.eqb_eq in Hz. rewrite Hz. reflexivity.
Qed.

(** The loop body of the snapshot reader asks the driver for the value of a
    key that holds a handle and is not ignored. *)
Lemma count_key_resolved NDEBUG drv this score k st :
  resolved k = true ->
  m_hidDeviceInterface this <> 0 ->
  exists o,
    CountOfCurrentlyDepressedKeys_key NDEBUG drv this score k st
    = (o, add_call (Call_getElementValue (m_hidDeviceInterface this)
                      (macCookieValue k)) st).
Proof.
  intros Hr Hi. unfold CountOfCurrentlyDepressedKeys_key. rewrite Hr.
  unfold bind at 1. unfold call_through. apply Z.eqb_neq in Hi. rewrite Hi.
  unfold call, modify.
  destruct (drv_getElementValue drv (m_hidDeviceInterface this)
              (macCookieValue k)) as [r v].
  unfold assert_, read_uninitialised, bind, gets, ret, abort.
  destruct (r =? kIOReturnSuccess); cbn [negb];
    destruct NDEBUG; cbn [negb]; try (eexists; reflexivity);
    match goal with |- context [negb (?x =? 0)] =>
      destruct (negb (x =? 0)) end; eexists; reflexivity.
Qed.

(** * Further properties of the code *)

(** ** Populating the table once *)

(** X1: [PopulateVectorOfKeyInfo] refuses a table that already has entries:
    it leaves the table as it is and returns [false] (or, in a build with
    [assert]s, stops the process).  So a second call after a successful
    first one never populates again. *)
Theorem populate_twice_refused NDEBUG st :
  m_keys st <> [] ->
  PopulateVectorOfKeyInfo NDEBUG st
  = (if NDEBUG then Returned false
     else Aborted (AssertionFailed
       "you should only ever call this function ONCE, and that is when we do initial population"),
     st) /\
  (forall st0,
     PopulateVectorOfKeyInfo NDEBUG st0 = (Returned true, st) ->
     m_keys (final (PopulateVectorOfKeyInfo NDEBUG) st) = m_keys st /\
     length (m_keys (final (PopulateVectorOfKeyInfo NDEBUG) st)) = 165%nat).
Proof.
  intros Hne.
  assert (H : PopulateVectorOfKeyInfo NDEBUG st
    = (if NDEBUG then Returned false
       else Aborted (AssertionFailed
         "you should only ever call this function ONCE, and that is when we do initial population"),
       st)).
  { unfold PopulateVectorOfKeyInfo. unfold_monad.
    destruct (m_keys st) as [|k ks]; [contradiction|].
    cbn [vector_empty negb]. destruct NDEBUG; reflexivity. }
  split; [exact H|].
  intros st0 H0. unfold final. rewrite H. cbn [snd].
  split; [reflexivity|].
  apply PopulateVectorOfKeyInfo_true in H0 as [_ ->]. reflexivity.
Qed.

Lemma populate_twice_refused_witness :
  PopulateVectorOfKeyInfo true
    (final (PopulateVectorOfKeyInfo true) fresh_object)
  = (Returned false, final (PopulateVectorOfKeyInfo true) fresh_object).
Proof.
  apply (populate_twice_refused true
           (final (PopulateVectorOfKeyInfo true) fresh_object)).
  vm_compute. discriminate.
Defined.

(** ** What element resolution does to the table *)

(** The table part of [scan_frame], for [FindKeypressCookies] as a whole. *)
Lemma FindKeypressCookies_table NDEBUG to_IOHIDElementCookie drv st :
  length (m_keys (final (FindKeypressCookies NDEBUG to_IOHIDElementCookie drv) st))
    = length (m_keys st) /\
  forall i k, m_keys st !! i = Some k ->
    exists k',
      m_keys (final (FindKeypressCookies NDEBUG to_IOHIDElementCookie drv) st) !! i
        = Some k' /\
      name k' = name k /\
      usbOfficialUsageID k' = usbOfficialUsageID k /\
      mustBeIgnoredByOurApplication k' = mustBeIgnoredByOurApplication k /\
      (macCookieValue k <> 0 -> k' = k).
Proof.
  set (R := fun s : Machine =>
    length (m_keys s) = length (m_keys st) /\
    forall i k, m_keys st !! i = Some k ->
      exists k', m_keys s !! i = Some k' /\ name k' = name k /\
        usbOfficialUsageID k' = usbOfficialUsageID k /\
        mustBeIgnoredByOurApplication k' = mustBeIgnoredByOurApplication k /\
        (macCookieValue k <> 0 -> k' = k)).
  change (R (final (FindKeypressCookies NDEBUG to_IOHIDElementCookie drv) st)).
  assert (Hsame : forall s : Machine, m_keys s = m_keys st -> R s).
  { intros s Hs. unfold R. rewrite Hs. split; [reflexivity|].
    intros i k Hk. exists k. auto. }
  unfold final. destruct (m_pimpl st) as [this|] eqn:Hp.
  2:{ unfold FindKeypressCookies. unfold bind at 1. unfold pimpl, bind, gets.
      rewrite Hp. apply Hsame. reflexivity. }
  destruct (drv_copyMatchingElements drv (m_hidDeviceInterface this))
    as [r els] eqn:Hd.
  rewrite (FindKeypressCookies_unfold NDEBUG to_IOHIDElementCookie drv st this
             r els Hp Hd).
  unfold bind at 1. unfold call_through.
  destruct (m_hidDeviceInterface this =? 0); [apply Hsame; reflexivity|].
  unfold call, modify. unfold bind at 1.
  destruct (r =? kIOReturnSuccess); cbn [negb].
  - pose proof (scan_frame_for_each NDEBUG to_IOHIDElementCookie els
                  (add_call (Call_copyMatchingElements (m_hidDeviceInterface this)) st))
      as F.
    unfold final in F.
    destruct (for_each (FindKeypressCookies_element NDEBUG to_IOHIDElementCookie)
                els (add_call (Call_copyMatchingElements (m_hidDeviceInterface this)) st))
      as [[[]|f] s3]; rewrite ?FindKeypressCookies_end; cbn [snd] in *;
      destruct F as (_ & _ & _ & _ & _ & _ & Hl & Hk); split; assumption.
  - rewrite LogErrorWhenFunctorIsntEmpty_run.
    rewrite FindKeypressCookies_end. cbn [snd].
    apply Hsame. destruct (m_errorLoggerFunctor _); reflexivity.
Qed.

(** X2: element resolution changes nothing of the populated table but
    cookies of slots that held none: in every build and whatever the driver
    reports, the table still has 165 entries afterwards, the entry at index
    [i] still carries usage code [i], and each entry has the name and the
    ignore flag it was given when the table was populated. *)
Theorem key_table_shape_kept NDEBUG to_IOHIDElementCookie drv st i k :
  m_keys st = populated_table ->
  m_keys (final (FindKeypressCookies NDEBUG to_IOHIDElementCookie drv) st) !! i
    = Some k ->
  length (m_keys (final (FindKeypressCookies NDEBUG to_IOHIDElementCookie drv) st))
    = 165%nat /\
  usbOfficialUsageID k = Z.of_nat i /\
  exists k0,
    populated_table !! i = Some k0 /\
    name k = name k0 /\
    mustBeIgnoredByOurApplication k = mustBeIgnoredByOurApplication k0.
Proof.
  intros Hkeys Hk.
  destruct (FindKeypressCookies_table NDEBUG to_IOHIDElementCookie drv st)
    as [Hl Hf].
  rewrite Hkeys in Hl, Hf. split; [rewrite Hl; reflexivity|].
  destruct (populated_table !! i) as [k0|] eqn:H0.
  - destruct (Hf i k0 H0) as (k' & Hk' & Hn & Hu & Hg & _).
    rewrite Hk in Hk'. injection Hk' as <-.
    split.
    + rewrite Hu. apply populated_table_dense. exact H0.
    + exists k0. auto.
  - exfalso. apply lookup_ge_None in H0. apply lookup_lt_Some in Hk. lia.
Qed.

Lemma key_table_shape_kept_witness :
  length (m_keys (final (FindKeypressCookies false cookie_uint32 full_keyboard)
                        before_resolution)) = 165%nat.
Proof.
  eapply (key_table_shape_kept false cookie_uint32 full_keyboard
            before_resolution 4%nat).
  - reflexivity.
  - vm_compute. reflexivity.
Defined.

Lemma resolved_count_le (l l' : list PerKeyData) :
  (forall i k, l !! i = Some k ->
     exists k', l' !! i = Some k' /\ (resolved k = true -> resolved k' = true)) ->
  (length (List.filter resolved l) <= length (List.filter resolved l'))%nat.
Proof.
  revert l'. induction l as [|k l IH]; intros l' H; [simpl; lia|].
  destruct (H 0%nat k eq_refl) as (k' & Hk' & Hr).
  destruct l' as [|k'' l']; [discriminate|]. injection Hk' as ->.
  assert (IHl : (length (List.filter resolved l)
                 <= length (List.filter resolved l'))%nat).
  { apply IH. intros i x Hx. apply (H (S i) x). exact Hx. }
  simpl. destruct (resolved k).
  - rewrite (Hr eq_refl). simpl. lia.
  - destruct (resolved k'); simpl; lia.
Qed.

(** X3: element resolution never takes a handle away.  In every build and
    whatever the driver reports, a slot that holds a handle before
    [FindKeypressCookies] holds the same one after, so the number of
    resolved keys (the score) does not go down. *)
Theorem resolution_never_unbinds NDEBUG to_IOHIDElementCookie drv st :
  (forall i k,
     m_keys st !! i = Some k -> macCookieValue k <> 0 ->
     m_keys (final (FindKeypressCookies NDEBUG to_IOHIDElementCookie drv) st) !! i
       = Some k) /\
  FindKeypressCookies_score (m_keys st)
    <= FindKeypressCookies_score
         (m_keys (final (FindKeypressCookies NDEBUG to_IOHIDElementCookie drv) st)).
Proof.
  destruct (FindKeypressCookies_table NDEBUG to_IOHIDElementCookie drv st)
    as [_ Hf].
  split.
  - intros i k Hk Hc. destruct (Hf i k Hk) as (k' & Hk' & _ & _ & _ & Heq).
    rewrite Hk'. f_equal. apply Heq. exact Hc.
  - rewrite !FindKeypressCookies_score_count. apply inj_le.
    apply resolved_count_le. intros i k Hk.
    destruct (Hf i k Hk) as (k' & Hk' & _ & _ & _ & Heq).
    exists k'. split; [exact Hk'|]. intros Hr.
    assert (Hc : macCookieValue k <> 0).
    { unfold resolved in Hr. apply andb_prop in Hr as [Hr _].
      apply negb_true_iff in Hr. apply Z.eqb_neq. exact Hr. }
    rewrite (Heq Hc). exact Hr.
Qed.

Lemma resolution_never_unbinds_witness :
  exists k,
    m_keys running_session !! 4%nat = Some k /\
    macCookieValue k = 104 /\
    m_keys (final (FindKeypressCookies true cookie_uint32 full_keyboard)
                  running_session) !! 4%nat = Some k.
Proof.
  eexists. split; [vm_compute; reflexivity|]. split; [reflexivity|].
  apply (proj1 (resolution_never_unbinds true cookie_uint32 full_keyboard
                  running_session)).
  - vm_compute. reflexivity.
  - simpl. lia.
Defined.

(** An element that offers no cookie for a usage code leaves that slot as
    it is. *)
Lemma element_keeps_other_slot NDEBUG to_IOHIDElementCookie usage e st :
  0 <= usage ->
  cookie_for to_IOHIDElementCookie usage e = None ->
  m_keys (final (FindKeypressCookies_element NDEBUG to_IOHIDElementCookie e) st)
    !! Z.to_nat usage = m_keys st !! Z.to_nat usage.
Proof.
  intros H0 Hno. unfold cookie_for in Hno.
  unfold final, FindKeypressCookies_element.
  destruct (read_long (kIOHIDElementCookieKey e)) as [t|]; [|reflexivity].
  destruct (read_long (kIOHIDElementUsageKey e)) as [u|].
  2:{ rewrite LogErrorWhenFunctorIsntEmpty_run.
      destruct (m_errorLoggerFunctor st); reflexivity. }
  destruct (read_long (kIOHIDElementUsagePageKey e)) as [p|].
  2:{ rewrite LogErrorWhenFunctorIsntEmpty_run.
      destruct (m_errorLoggerFunctor st); reflexivity. }
  destruct (p =? kHIDPage_KeyboardOrKeypad); [|reflexivity].
  cbn [andb] in Hno.
  destruct (u =? usage) eqn:Eu; [discriminate|]. apply Z.eqb_neq in Eu.
  unfold_monad.
  destruct (u >=? Z.of_nat (length (m_keys st))); [reflexivity|].
  destruct (u <? 0) eqn:Hlt; [reflexivity|]. apply Z.ltb_ge in Hlt.
  destruct (m_keys st !! Z.to_nat u) as [key|]; [|reflexivity].
  destruct (macCookieValue key =? 0); simpl.
  - apply list_lookup_insert_ne. lia.
  - destruct NDEBUG; reflexivity.
Qed.

(** X4: the first handle wins.  In a build without [assert]s, a slot that
    holds no handle when the scan starts ends up with the first cookie other
    than 0 that a keyboard-page descriptor of the array reports for its usage
    code, and stays without a handle when there is none; nothing else about
    the entry changes. *)
Theorem scan_binds_first_cookie to_IOHIDElementCookie usage k0 elements st :
  0 <= usage ->
  m_keys st !! Z.to_nat usage = Some k0 ->
  macCookieValue k0 = 0 ->
  m_keys (final (for_each (FindKeypressCookies_element true to_IOHIDElementCookie)
                          elements) st) !! Z.to_nat usage
  = Some (set_cookie (first_cookie to_IOHIDElementCookie usage elements) k0).
Proof.
  intros H0. revert st k0.
  induction elements as [|d ds IH]; intros st k0 Hk Hz.
  - unfold final. simpl. rewrite Hk. f_equal.
    destruct k0. simpl in *. subst. reflexivity.
  - destruct (element_returns to_IOHIDElementCookie d st) as [s1 Hs1].
    assert (Hfin : final (for_each (FindKeypressCookies_element true
                                      to_IOHIDElementCookie) (d :: ds)) st
                   = final (for_each (FindKeypressCookies_element true
                                        to_IOHIDElementCookie) ds) s1).
    { unfold final. simpl. unfold bind. rewrite Hs1. reflexivity. }
    rewrite Hfin. cbn [first_cookie].
    destruct (cookie_for to_IOHIDElementCookie usage d) as [c|] eqn:Ec.
    + (* the element is for this slot *)
      unfold cookie_for in Ec.
      destruct (read_long (kIOHIDElementCookieKey d)) as [t|] eqn:E1;
        [|discriminate].
      destruct (read_long (kIOHIDElementUsageKey d)) as [u|] eqn:E2;
        [|discriminate].
      destruct (read_long (kIOHIDElementUsagePageKey d)) as [p|] eqn:E3;
        [|discriminate].
      destruct (p =? kHIDPage_KeyboardOrKeypad) eqn:Ep; [|discriminate].
      destruct (u =? usage) eqn:Eu; [|discriminate].
      apply Z.eqb_eq in Ep, Eu. subst p u. injection Ec as <-.
      assert (Hrep : reports d t usage kHIDPage_KeyboardOrKeypad)
        by (repeat split; assumption).
      rewrite (element_binds_unset true to_IOHIDElementCookie d t usage st k0
                 Hrep H0 Hk Hz) in Hs1.
      injection Hs1 as <-.
      assert (Hslot : m_keys (set_keys
                (<[Z.to_nat usage := set_cookie (to_IOHIDElementCookie t) k0]>
                   (m_keys st)) st) !! Z.to_nat usage
              = Some (set_cookie (to_IOHIDElementCookie t) k0)).
      { cbn [m_keys set_keys]. apply list_lookup_insert_eq.
        apply (lookup_lt_Some _ _ _ Hk). }
      destruct (to_IOHIDElementCookie t =? 0) eqn:Ez.
      * rewrite (IH _ _ Hslot); [reflexivity|].
        apply Z.eqb_eq in Ez. exact Ez.
      * apply bound_slot_kept; [exact Hslot|].
        cbn [macCookieValue set_cookie]. apply Z.eqb_neq. exact Ez.
    + (* the element is for another slot, or for none *)
      apply IH; [|exact Hz].
      pose proof (element_keeps_other_slot true to_IOHIDElementCookie usage d st
                    H0 Ec) as Hkeep.
      rewrite (final_run _ _ _ _ Hs1) in Hkeep. rewrite Hkeep. exact Hk.
Qed.

Lemma scan_binds_first_cookie_witness :
  m_keys (final (for_each (FindKeypressCookies_element true cookie_uint32)
                   [descriptor 5 4 1; descriptor 0 4 kHIDPage_KeyboardOrKeypad;
                    descriptor 104 4 kHIDPage_KeyboardOrKeypad;
                    descriptor 999 4 kHIDPage_KeyboardOrKeypad])
                before_resolution) !! Z.to_nat 4
  = Some {| name := "kHIDUsage_KeyboardA"; usbOfficialUsageID := 4;
            macCookieValue := 104; mustBeIgnoredByOurApplication := false |}.
Proof.
  apply (scan_binds_first_cookie cookie_uint32 4
           {| name := "kHIDUsage_KeyboardA"; usbOfficialUsageID := 4;
              macCookieValue := 0; mustBeIgnoredByOurApplication := false |}
           [descriptor 5 4 1; descriptor 0 4 kHIDPage_KeyboardOrKeypad;
            descriptor 104 4 kHIDPage_KeyboardOrKeypad;
            descriptor 999 4 kHIDPage_KeyboardOrKeypad]
           before_resolution).
  - lia.
  - vm_compute. reflexivity.
  - reflexivity.
Defined.

(** X5: when [copyMatchingElements] fails, no element is looked at: the
    table and the handles stay as they are, the failed call is the only call
    into the driver, and the failure goes to the error logger (when there is
    one) with its code.  The function then tests its local [elements], in
    which nothing was stored.  If what it finds there is null, it returns
    the result computed from the table as it was, which for a freshly
    populated table is [false]; if not, it hands that value to [CFRelease].
    Either way it does not return [true] on a freshly populated table. *)
Theorem copyMatchingElements_failure NDEBUG to_IOHIDElementCookie drv st this
    r elements :
  m_pimpl st = Some this ->
  m_hidDeviceInterface this <> 0 ->
  drv_copyMatchingElements drv (m_hidDeviceInterface this) = (r, elements) ->
  r <> kIOReturnSuccess ->
  exists st',
    FindKeypressCookies NDEBUG to_IOHIDElementCookie drv st
      = (if uninitialised st (S (length (driver_calls st))) =? 0
         then Returned (40 <? FindKeypressCookies_score (m_keys st))
         else Aborted ReleaseOfIndeterminatePointer,
         st') /\
    m_keys st' = m_keys st /\
    m_pimpl st' = m_pimpl st /\
    driver_calls st' = driver_calls st
      ++ [Call_copyMatchingElements (m_hidDeviceInterface this)] /\
    logged st' = logged st ++
      (if m_errorLoggerFunctor st
       then ["copyMatchingElements failed. code: " +:+ format_int r] else []) /\
    (m_keys st = populated_table ->
     yields (FindKeypressCookies NDEBUG to_IOHIDElementCookie drv) st
       <> Returned true).
Proof.
  intros Hp Hi Hd Hr.
  assert (Hrun : FindKeypressCookies NDEBUG to_IOHIDElementCookie drv st
    = (if uninitialised st (S (length (driver_calls st))) =? 0
       then Returned (40 <? FindKeypressCookies_score (m_keys st))
       else Aborted ReleaseOfIndeterminatePointer,
       (if m_errorLoggerFunctor st
        then add_log ("copyMatchingElements failed. code: " +:+ format_int r)
        else fun s => s)
         (add_call (Call_copyMatchingElements (m_hidDeviceInterface this)) st))).
  { rewrite (FindKeypressCookies_unfold NDEBUG to_IOHIDElementCookie drv st this
               r elements Hp Hd).
    unfold bind at 1. unfold call_through.
    replace (m_hidDeviceInterface this =? 0) with false
      by (symmetry; apply Z.eqb_neq; assumption).
    unfold call, modify.
    replace (r =? kIOReturnSuccess) with false
      by (symmetry; apply Z.eqb_neq; assumption).
    cbn [negb]. unfold bind at 1.
    rewrite LogErrorWhenFunctorIsntEmpty_run.
    rewrite FindKeypressCookies_end.
    cbn [m_errorLoggerFunctor add_call].
    destruct (m_errorLoggerFunctor st);
      cbn [m_keys driver_calls uninitialised add_log add_call];
      rewrite length_app, Nat.add_1_r; reflexivity. }
  eexists. split; [exact Hrun|].
  destruct (m_errorLoggerFunctor st); cbn; rewrite ?app_nil_r;
    (repeat split; try reflexivity);
    intros Hk; unfold yields; rewrite Hrun, Hk; cbn [fst];
    destruct (uninitialised st (S (length (driver_calls st))) =? 0);
    discriminate.
Qed.

Lemma copyMatchingElements_failure_witness :
  yields (FindKeypressCookies false cookie_uint32 no_keyboard) before_resolution
    = Aborted ReleaseOfIndeterminatePointer /\
  m_keys (final (FindKeypressCookies false cookie_uint32 no_keyboard)
                before_resolution) = populated_table.
Proof.
  destruct (copyMatchingElements_failure false cookie_uint32 no_keyboard
              before_resolution
              {| m_hidDevice := 11; m_hidDeviceInterface := 13;
                 m_plugInInterface := 12; m_hidQueue := 0 |}
              kIOReturnError [])
    as (st' & H & Hk & _).
  - reflexivity.
  - simpl. lia.
  - reflexivity.
  - vm_compute. discriminate.
  - unfold yields, final. rewrite H. split; [reflexivity|exact Hk].
Defined.

(** ** Finding the keyboard *)

Lemma FindKeyboard_run drv st this :
  m_pimpl st = Some this ->
  let asked :=
    drv_IOServiceMatching drv && drv_CFNumberCreate_usagePage drv
      && drv_CFNumberCreate_usage drv in
  let device := if asked then drv_IOServiceGetMatchingService drv else 0 in
  exists st',
    FindKeyboard drv st = (Returned (negb (device =? 0)), st') /\
    m_pimpl st' =
      Some (if drv_IOServiceMatching drv then with_hidDevice device this
            else this) /\
    driver_calls st' = driver_calls st ++ Call_IOServiceMatching
      :: (if asked then [Call_IOServiceGetMatchingService] else []) /\
    logged st' = logged st ++
      (if m_errorLoggerFunctor st then
         if negb (drv_IOServiceMatching drv)
         then ["Failed to retrieve device key matching dictionary."]
         else if asked then []
         else ["Failed to find kHIDPage_GenericDesktop and/or kHIDUsage_GD_Keyboard."]
       else []) /\
    m_keys st' = m_keys st /\
    m_queueEnabled st' = m_queueEnabled st /\
    m_errorLoggerFunctor st' = m_errorLoggerFunctor st /\
    m_deviceInformationProperties st' = m_deviceInformationProperties st.
Proof.
  intros Hp asked device. subst asked device. unfold FindKeyboard.
  unfold bind at 1. unfold call, modify.
  destruct (drv_IOServiceMatching drv); cbn [negb andb].
  - destruct (drv_CFNumberCreate_usagePage drv);
      destruct (drv_CFNumberCreate_usage drv); cbn [negb andb orb];
      unfold bind at 1; unfold bind at 1;
      rewrite ?LogErrorWhenFunctorIsntEmpty_run; unfold call, modify, ret;
      unfold bind at 1; unfold pimpl, bind, gets, ret, modify;
      cbn [m_pimpl add_call add_log m_errorLoggerFunctor];
      destruct (m_errorLoggerFunctor st) eqn:Ef;
      cbn [m_pimpl add_call add_log]; rewrite Hp;
      eexists; (split; [reflexivity|]);
      cbn; rewrite ?Ef, <- ?app_assoc, ?app_nil_r; auto 10.
  - unfold bind. rewrite LogErrorWhenFunctorIsntEmpty_run. unfold ret.
    cbn [m_errorLoggerFunctor add_call].
    destruct (m_errorLoggerFunctor st) eqn:Ef;
      eexists; (split; [reflexivity|]);
      cbn; rewrite ?Ef, <- ?app_assoc, ?app_nil_r; auto 10.
Qed.

(** X6: what [FindKeyboard] does.  It returns [true] exactly when the
    registry gave it a device, and then holds that device in [m_hidDevice],
    having asked the registry once and logged nothing.  When it returns
    [false], either there was no matching dictionary, and it stopped after
    that one call with [m_pimpl] as it was; or it stored 0 as the device.  It
    never touches the table or the other handles. *)
Theorem FindKeyboard_outcome drv st this :
  m_pimpl st = Some this ->
  exists b st',
    FindKeyboard drv st = (Returned b, st') /\
    (b = true ->
     drv_IOServiceGetMatchingService drv <> 0 /\
     m_pimpl st'
       = Some (with_hidDevice (drv_IOServiceGetMatchingService drv) this) /\
     driver_calls st' = driver_calls st
       ++ [Call_IOServiceMatching; Call_IOServiceGetMatchingService] /\
     logged st' = logged st) /\
    (b = false ->
     (drv_IOServiceMatching drv = false /\ m_pimpl st' = Some this /\
      driver_calls st' = driver_calls st ++ [Call_IOServiceMatching]) \/
     m_pimpl st' = Some (with_hidDevice 0 this)) /\
    m_keys st' = m_keys st.
Proof.
  intros Hp.
  destruct (FindKeyboard_run drv st this Hp)
    as (st' & Hrun & Hp' & Hc & Hl & Hk & _).
  eexists _, st'. split; [exact Hrun|].
  destruct (drv_IOServiceMatching drv) eqn:Em;
    rewrite ?Em in Hp', Hc, Hl; cbn [andb negb] in *.
  - destruct (drv_CFNumberCreate_usagePage drv && drv_CFNumberCreate_usage drv)
      eqn:En.
    + split; [|split; [|exact Hk]].
      * intros Hb. apply negb_true_iff, Z.eqb_neq in Hb.
        destruct (m_errorLoggerFunctor st); rewrite ?app_nil_r in Hl; auto.
      * intros Hb. apply negb_false_iff, Z.eqb_eq in Hb.
        right. rewrite Hp', Hb. reflexivity.
    + split; [intros Hb; cbn in Hb; discriminate|].
      split; [|exact Hk]. intros _. right. exact Hp'.
  - split; [discriminate|]. split; [|exact Hk]. intros _. left. auto.
Qed.

Lemma FindKeyboard_outcome_witness :
  exists b st',
    FindKeyboard no_keyboard fresh_object = (Returned b, st') /\
    (b = true ->
     drv_IOServiceGetMatchingService no_keyboard <> 0 /\
     m_pimpl st'
       = Some (with_hidDevice (drv_IOServiceGetMatchingService no_keyboard)
                 PrivateImpl_new) /\
     driver_calls st' = driver_calls fresh_object
       ++ [Call_IOServiceMatching; Call_IOServiceGetMatchingService] /\
     logged st' = logged fresh_object) /\
    (b = false ->
     (drv_IOServiceMatching no_keyboard = false /\
      m_pimpl st' = Some PrivateImpl_new /\
      driver_calls st' = driver_calls fresh_object ++ [Call_IOServiceMatching]) \/
     m_pimpl st' = Some (with_hidDevice 0 PrivateImpl_new)) /\
    m_keys st' = m_keys fresh_object.
Proof.
  apply (FindKeyboard_outcome no_keyboard fresh_object PrivateImpl_new).
  reflexivity.
Defined.

(** ** The properties of the device *)

Lemma with_properties_twice l1 c1 l2 c2 st :
  with_properties l2 c2 (with_properties l1 c1 st)
  = with_properties (l1 ++ l2) (c1 ++ c2) st.
Proof. unfold with_properties. simpl. rewrite !app_assoc. reflexivity. Qed.

Lemma with_properties_nil st : with_properties [] [] st = st.
Proof. destruct st. unfold with_properties. simpl. rewrite !app_nil_r. reflexivity. Qed.

Lemma StoreOneProperty_run drv propertyKey st this :
  m_pimpl st = Some this ->
  StoreOneProperty drv propertyKey st
  = (Returned tt,
     with_properties
       (option_list (property_line drv (m_hidDevice this) propertyKey))
       [Call_IORegistryEntryCreateCFProperty (m_hidDevice this) propertyKey] st).
Proof.
  intros Hp. unfold StoreOneProperty, property_line.
  unfold bind at 1. unfold pimpl, bind, gets. rewrite Hp.
  unfold ret at 1. unfold call, modify.
  destruct (drv_IORegistryEntryCreateCFProperty drv (m_hidDevice this) propertyKey)
    as [[lossless value|text|]|]; unfold ret, with_properties; cbn;
    rewrite ?app_nil_r; reflexivity.
Qed.

Lemma StoreOneProperty_each drv keys st this :
  m_pimpl st = Some this ->
  for_each (StoreOneProperty drv) keys st
  = (Returned tt,
     with_properties (omap (property_line drv (m_hidDevice this)) keys)
       (map (Call_IORegistryEntryCreateCFProperty (m_hidDevice this)) keys) st).
Proof.
  revert st. induction keys as [|key keys IH]; intros st Hp.
  - simpl. rewrite with_properties_nil. reflexivity.
  - cbn [for_each]. unfold bind. rewrite (StoreOneProperty_run _ _ _ _ Hp).
    rewrite IH by exact Hp. rewrite with_properties_twice.
    cbn [omap list_omap map].
    destruct (property_line drv (m_hidDevice this) key); reflexivity.
Qed.

Lemma seq_ret_tt (c : M unit) st : (c ;; ret tt) st = c st.
Proof. unfold bind, ret. destruct (c st) as [[[]|f] s]; reflexivity. Qed.

Lemma GetKeyboardProperties_as_loop drv st :
  GetKeyboardProperties drv st
  = for_each (StoreOneProperty drv) keyboard_property_keys st.
Proof.
  unfold GetKeyboardProperties, keyboard_property_keys. cbn [for_each].
  unfold bind.
  repeat match goal with
  | |- context [StoreOneProperty drv ?k ?s] =>
      destruct (StoreOneProperty drv k s) as [[[]|?] ?]; [|reflexivity]
  end.
  reflexivity.
Qed.

Lemma GetKeyboardProperties_lines_run drv st this :
  m_pimpl st = Some this ->
  exists st',
    GetKeyboardProperties drv st = (Returned tt, st') /\
    m_pimpl st' = m_pimpl st /\
    m_keys st' = m_keys st /\
    m_queueEnabled st' = m_queueEnabled st /\
    m_errorLoggerFunctor st' = m_errorLoggerFunctor st.
Proof.
  intros Hp.
  rewrite GetKeyboardProperties_as_loop, (StoreOneProperty_each _ _ _ _ Hp).
  eexists. split; [reflexivity|]. cbn. auto.
Qed.

(** X7: [GetKeyboardProperties] asks the registry for ten properties of the
    device, always all ten and in a fixed order, and stores one line
    ["key: value"] for each property the registry has, in that order, after
    the lines stored before.  A number is written in decimal, a string as it
    is, anything else as ["<type error>"]; a property the registry lacks
    leaves no line.  Nothing else of the object changes and nothing is
    logged. *)
Theorem GetKeyboardProperties_lines drv st this :
  m_pimpl st = Some this ->
  exists st',
    GetKeyboardProperties drv st = (Returned tt, st') /\
    m_deviceInformationProperties st'
      = m_deviceInformationProperties st
          ++ omap (property_line drv (m_hidDevice this)) keyboard_property_keys /\
    driver_calls st'
      = driver_calls st
          ++ map (Call_IORegistryEntryCreateCFProperty (m_hidDevice this))
                 keyboard_property_keys /\
    m_pimpl st' = m_pimpl st /\ m_keys st' = m_keys st /\
    logged st' = logged st /\
    m_errorLoggerFunctor st' = m_errorLoggerFunctor st /\
    m_queueEnabled st' = m_queueEnabled st.
Proof.
  intros Hp.
  rewrite GetKeyboardProperties_as_loop, (StoreOneProperty_each _ _ _ _ Hp).
  eexists. split; [reflexivity|]. cbn. auto 10.
Qed.

Lemma GetKeyboardProperties_lines_witness :
  exists st',
    GetKeyboardProperties full_keyboard
      (final (FindKeyboard full_keyboard) fresh_object) = (Returned tt, st') /\
    m_deviceInformationProperties st' = ["VendorID: 1452"; "Product: Keyboard"].
Proof.
  destruct (GetKeyboardProperties_lines full_keyboard
              (final (FindKeyboard full_keyboard) fresh_object)
              (with_hidDevice 11 PrivateImpl_new) eq_refl)
    as (st' & H1 & H2 & _).
  exists st'. split; [exact H1|]. rewrite H2. vm_compute. reflexivity.
Defined.

(** ** Negotiating the interface *)

Lemma CreatePluginInterface_run drv st this :
  m_pimpl st = Some this ->
  exists st',
    CreatePluginInterface drv st
      = (Returned (fst (drv_IOCreatePlugInInterfaceForService drv (m_hidDevice this))
                   =? kIOReturnSuccess), st') /\
    m_pimpl st'
      = Some (with_plugInInterface
                (snd (drv_IOCreatePlugInInterfaceForService drv (m_hidDevice this)))
                this) /\
    same_table_and_settings st st'.
Proof.
  intros Hp. unfold CreatePluginInterface.
  unfold bind at 1. unfold pimpl, bind, gets. rewrite Hp. unfold ret at 1.
  unfold call, modify.
  destruct (drv_IOCreatePlugInInterfaceForService drv (m_hidDevice this))
    as [r plug]. cbn [fst snd].
  destruct (r =? kIOReturnSuccess); cbn [negb].
  - match goal with
    | |- context [GetKeyboardProperties drv ?s] =>
        destruct (GetKeyboardProperties_lines_run drv s
                    (with_plugInInterface plug this) eq_refl)
          as (s' & Hg & Hq & Hk & Hf & He)
    end.
    rewrite Hg. unfold ret. eexists. split; [reflexivity|].
    split; [exact Hq|]. repeat split; assumption.
  - rewrite LogErrorWhenFunctorIsntEmpty_run. unfold ret.
    eexists. split; [reflexivity|].
    cbn [m_errorLoggerFunctor set_pimpl add_call].
    destruct (m_errorLoggerFunctor st) eqn:Ef; cbn;
      repeat split; try reflexivity; exact Ef.
Qed.

Lemma CreateDeviceInterface_run drv st this :
  m_pimpl st = Some this ->
  m_plugInInterface this <> 0 ->
  exists o st',
    CreateDeviceInterface drv st = (o, st') /\
    o = (let '(plugInResult, interface) :=
           drv_QueryInterface drv (m_plugInInterface this) in
         if plugInResult =? S_OK then
           if interface =? 0 then Aborted NullDereference
           else Returned (drv_open drv interface =? kIOReturnSuccess)
         else Returned false) /\
    m_pimpl st'
      = Some (with_hidDeviceInterface
                (snd (drv_QueryInterface drv (m_plugInInterface this))) this) /\
    same_table_and_settings st st' /\
    driver_calls st' = driver_calls st
      ++ Call_QueryInterface (m_plugInInterface this)
      :: (let '(plugInResult, interface) :=
            drv_QueryInterface drv (m_plugInInterface this) in
          if (plugInResult =? S_OK) && negb (interface =? 0)
          then [Call_open interface] else []) /\
    logged st' = logged st ++
      (let '(plugInResult, interface) :=
         drv_QueryInterface drv (m_plugInInterface this) in
       if m_errorLoggerFunctor st then
         if negb (plugInResult =? S_OK)
         then ["Failed to create IOHIDDeviceInterface."]
         else if (interface =? 0) || (drv_open drv interface =? kIOReturnSuccess)
              then []
              else ["Failed to open the IOHIDDeviceInterface. Failed with value "
                      +:+ format_int (drv_open drv interface)]
       else []).
Proof.
  intros Hp Hplug. unfold CreateDeviceInterface.
  unfold bind at 1. unfold pimpl, bind, gets. rewrite Hp. unfold ret at 1.
  unfold call_through. apply Z.eqb_neq in Hplug. rewrite Hplug.
  unfold call, modify.
  destruct (drv_QueryInterface drv (m_plugInInterface this)) as [hr iface].
  cbn [snd].
  destruct (hr =? S_OK); cbn [negb andb].
  - destruct (iface =? 0) eqn:Ei; cbn [negb orb].
    + unfold abort. eexists _, _. split; [reflexivity|]. cbn.
      rewrite ?app_nil_r.
      destruct (m_errorLoggerFunctor st); repeat split; rewrite ?app_nil_r;
        reflexivity.
    + destruct (drv_open drv iface =? kIOReturnSuccess); cbn [negb];
        rewrite ?LogErrorWhenFunctorIsntEmpty_run; unfold ret;
        eexists _, _; (split; [reflexivity|]);
        cbn [m_errorLoggerFunctor set_pimpl add_call];
        destruct (m_errorLoggerFunctor st) eqn:Ef; cbn;
        rewrite <- ?app_assoc, ?app_nil_r;
        repeat split; try reflexivity; exact Ef.
  - rewrite LogErrorWhenFunctorIsntEmpty_run. unfold ret.
    eexists _, _. split; [reflexivity|].
    cbn [m_errorLoggerFunctor set_pimpl add_call].
    destruct (m_errorLoggerFunctor st) eqn:Ef; cbn;
      rewrite <- ?app_assoc, ?app_nil_r;
      repeat split; try reflexivity; exact Ef.
Qed.

(** X8: [CreateDeviceInterface] keeps the interface handle it obtained
    whether or not the interface could be opened.  It returns [true] only
    when the query gave [S_OK] and [open] gave [kIOReturnSuccess]; when the
    query succeeded and [open] failed it returns [false], has logged the
    code, and [m_hidDeviceInterface] holds the handle, so that releasing the
    resources closes and releases it.  [open] is not called after a failed
    query. *)
Theorem CreateDeviceInterface_keeps_handle drv st this b st' :
  m_pimpl st = Some this ->
  m_plugInInterface this <> 0 ->
  CreateDeviceInterface drv st = (Returned b, st') ->
  let interface := snd (drv_QueryInterface drv (m_plugInInterface this)) in
  m_pimpl st' = Some (with_hidDeviceInterface interface this) /\
  (b = true ->
   fst (drv_QueryInterface drv (m_plugInInterface this)) = S_OK /\
   interface <> 0 /\ drv_open drv interface = kIOReturnSuccess) /\
  (fst (drv_QueryInterface drv (m_plugInInterface this)) = S_OK ->
   interface <> 0 /\
   driver_calls st' = driver_calls st
     ++ [Call_QueryInterface (m_plugInInterface this); Call_open interface] /\
   (exists rest,
      release_sequence (with_hidDeviceInterface interface this)
      = Call_close interface :: Call_Release interface :: rest) /\
   (drv_open drv interface <> kIOReturnSuccess ->
    b = false /\
    (m_errorLoggerFunctor st = true ->
     logged st' = logged st
       ++ ["Failed to open the IOHIDDeviceInterface. Failed with value "
             +:+ format_int (drv_open drv interface)]))) /\
  (fst (drv_QueryInterface drv (m_plugInInterface this)) <> S_OK ->
   b = false /\
   driver_calls st' = driver_calls st
     ++ [Call_QueryInterface (m_plugInInterface this)]).
Proof.
  intros Hp Hplug Hrun interface. subst interface.
  destruct (CreateDeviceInterface_run drv st this Hp Hplug)
    as (o & s & Hr & Ho & Hp' & _ & Hc & Hl).
  rewrite Hrun in Hr. injection Hr as <- <-.
  destruct (drv_QueryInterface drv (m_plugInInterface this)) as [hr iface].
  cbn [fst snd] in *.
  split; [exact Hp'|].
  destruct (hr =? S_OK) eqn:Eh; cbn [andb] in Hc.
  - apply Z.eqb_eq in Eh.
    destruct (iface =? 0) eqn:Ei; [discriminate|]. cbn [negb] in Hc.
    apply Z.eqb_neq in Ei. injection Ho as ->.
    split; [|split].
    + intros Hb. apply Z.eqb_eq in Hb. auto.
    + intros _. split; [exact Ei|]. split; [exact Hc|]. split.
      * unfold release_sequence.
        cbn [m_hidDeviceInterface with_hidDeviceInterface].
        apply Z.eqb_neq in Ei. rewrite Ei. cbn [negb]. eexists. reflexivity.
      * intros Hopen. apply Z.eqb_neq in Hopen. split; [exact Hopen|].
        intros Hf. rewrite Hf, Hopen in Hl. cbn [negb orb] in Hl. exact Hl.
    + intros Hne. contradiction.
  - apply Z.eqb_neq in Eh. injection Ho as ->.
    split; [discriminate|]. split; [intros; contradiction|].
    intros _. split; [reflexivity|exact Hc].
Qed.

Lemma CreateDeviceInterface_keeps_handle_witness :
  m_pimpl (final (CreateDeviceInterface unopenable_keyboard)
             (final (CreatePluginInterface unopenable_keyboard)
                (final (FindKeyboard unopenable_keyboard) fresh_object)))
  = Some {| m_hidDevice := 11; m_hidDeviceInterface := 13;
            m_plugInInterface := 12; m_hidQueue := 0 |}.
Proof.
  apply (CreateDeviceInterface_keeps_handle unopenable_keyboard
           (final (CreatePluginInterface unopenable_keyboard)
              (final (FindKeyboard unopenable_keyboard) fresh_object))
           {| m_hidDevice := 11; m_hidDeviceInterface := 0;
              m_plugInInterface := 12; m_hidQueue := 0 |}
           false
           (final (CreateDeviceInterface unopenable_keyboard)
              (final (CreatePluginInterface unopenable_keyboard)
                 (final (FindKeyboard unopenable_keyboard) fresh_object)))).
  - vm_compute. reflexivity.
  - simpl. lia.
  - vm_compute. reflexivity.
Defined.

(** ** The queue *)

Lemma CreateQueue_run drv st this :
  m_pimpl st = Some this ->
  m_hidDeviceInterface this <> 0 ->
  let queue := drv_allocQueue drv (m_hidDeviceInterface this) in
  exists st',
    CreateQueue drv st
      = (Returned (negb (queue =? 0)
                   && (drv_queue_create drv queue =? kIOReturnSuccess)
                   && (drv_queue_start drv queue =? kIOReturnSuccess)), st') /\
    m_pimpl st' = Some (with_hidQueue queue this) /\
    same_table_and_settings st st' /\
    driver_calls st' = driver_calls st
      ++ Call_allocQueue (m_hidDeviceInterface this)
      :: (if queue =? 0 then []
          else Call_queue_create queue
               :: (if drv_queue_create drv queue =? kIOReturnSuccess
                   then [Call_queue_start queue] else [])) /\
    logged st' = logged st ++
      (if m_errorLoggerFunctor st then
         if queue =? 0
         then ["Failed to alloc IOHIDQueueInterface ** via allocQueue"]
         else if negb (drv_queue_create drv queue =? kIOReturnSuccess)
         then ["Failed to create queue. Error: "
                 +:+ format_int (drv_queue_create drv queue)]
         else if negb (drv_queue_start drv queue =? kIOReturnSuccess)
         then ["Failed to start queue."]
         else []
       else []).
Proof.
  intros Hp Hi queue. subst queue. unfold CreateQueue.
  unfold bind at 1. unfold pimpl, bind, gets. rewrite Hp. unfold ret at 1.
  unfold call_through. apply Z.eqb_neq in Hi. rewrite Hi.
  unfold call, modify.
  rewrite (Z.eqb_sym kIOReturnSuccess).
  destruct (drv_allocQueue drv (m_hidDeviceInterface this) =? 0);
    cbn [negb andb].
  2: destruct (drv_queue_create drv (drv_allocQueue drv (m_hidDeviceInterface this))
               =? kIOReturnSuccess); cbn [negb andb].
  2: destruct (drv_queue_start drv (drv_allocQueue drv (m_hidDeviceInterface this))
               =? kIOReturnSuccess); cbn [negb andb].
  all: rewrite ?LogErrorWhenFunctorIsntEmpty_run; unfold ret;
    eexists; (split; [reflexivity|]);
    cbn [m_errorLoggerFunctor set_pimpl add_call];
    destruct (m_errorLoggerFunctor st) eqn:Ef; cbn;
    rewrite <- ?app_assoc, ?app_nil_r;
    repeat split; try reflexivity; exact Ef.
Qed.

(** X9: [CreateQueue] allocates, creates and starts the queue in this
    order and stops at the first step that fails, with one message for that
    step to the error logger (when there is one): no queue allocated, the
    queue not created (with the code), the queue not started.  It returns
    [true] exactly when all three steps succeeded, and then logs nothing.
    The queue it allocated stays in [m_hidQueue] when creating or starting it
    fails: it is neither released nor forgotten. *)
Theorem CreateQueue_outcome drv st this :
  m_pimpl st = Some this ->
  m_hidDeviceInterface this <> 0 ->
  let queue := drv_allocQueue drv (m_hidDeviceInterface this) in
  let logs msg :=
    logged st ++ (if m_errorLoggerFunctor st then [msg] else []) in
  exists b st',
    CreateQueue drv st = (Returned b, st') /\
    (b = true <->
     queue <> 0 /\ drv_queue_create drv queue = kIOReturnSuccess /\
     drv_queue_start drv queue = kIOReturnSuccess) /\
    m_pimpl st' = Some (with_hidQueue queue this) /\
    m_keys st' = m_keys st /\
    (b = true ->
     driver_calls st' = driver_calls st
       ++ [Call_allocQueue (m_hidDeviceInterface this);
           Call_queue_create queue; Call_queue_start queue] /\
     logged st' = logged st) /\
    (queue = 0 ->
     driver_calls st' = driver_calls st
       ++ [Call_allocQueue (m_hidDeviceInterface this)] /\
     logged st'
       = logs "Failed to alloc IOHIDQueueInterface ** via allocQueue") /\
    (queue <> 0 -> drv_queue_create drv queue <> kIOReturnSuccess ->
     driver_calls st' = driver_calls st
       ++ [Call_allocQueue (m_hidDeviceInterface this);
           Call_queue_create queue] /\
     logged st'
       = logs ("Failed to create queue. Error: "
                 +:+ format_int (drv_queue_create drv queue))) /\
    (queue <> 0 -> drv_queue_create drv queue = kIOReturnSuccess ->
     drv_queue_start drv queue <> kIOReturnSuccess ->
     driver_calls st' = driver_calls st
       ++ [Call_allocQueue (m_hidDeviceInterface this);
           Call_queue_create queue; Call_queue_start queue] /\
     logged st' = logs "Failed to start queue.") /\
    ~ In (Call_queue_Release queue)
         (drop (length (driver_calls st)) (driver_calls st')).
Proof.
  intros Hp Hi queue logs.
  destruct (CreateQueue_run drv st this Hp Hi)
    as (st' & Hrun & Hp' & (Hk & _) & Hc & Hl).
  fold queue in Hrun, Hp', Hc, Hl.
  eexists _, st'. split; [exact Hrun|].
  assert (Hrel : ~ In (Call_queue_Release queue)
                     (drop (length (driver_calls st)) (driver_calls st'))).
  { rewrite Hc, drop_app_length.
    destruct (queue =? 0);
      [|destruct (drv_queue_create drv queue =? kIOReturnSuccess)];
      simpl; intuition discriminate. }
  unfold logs.
  destruct (queue =? 0) eqn:Eq;
    [|destruct (drv_queue_create drv queue =? kIOReturnSuccess) eqn:Ec;
      [destruct (drv_queue_start drv queue =? kIOReturnSuccess) eqn:Es|]];
    cbn [negb andb] in *;
    rewrite ?Z.eqb_eq, ?Z.eqb_neq in *.
  - split; [split; [discriminate|intros (H & _); contradiction]|].
    split; [exact Hp'|]. split; [exact Hk|]. split; [discriminate|].
    split; [intros _; split; [exact Hc|exact Hl]|].
    split; [intros H; contradiction|]. split; [intros H; contradiction|].
    exact Hrel.
  - split; [split; [auto|reflexivity]|].
    split; [exact Hp'|]. split; [exact Hk|].
    split.
    { intros _. split; [exact Hc|].
      destruct (m_errorLoggerFunctor st); rewrite app_nil_r in Hl; exact Hl. }
    split; [intros H; contradiction|]. split; [intros _ H; contradiction|].
    split; [intros _ _ H; contradiction|]. exact Hrel.
  - split; [split; [discriminate|intros (_ & _ & H); contradiction]|].
    split; [exact Hp'|]. split; [exact Hk|]. split; [discriminate|].
    split; [intros H; contradiction|]. split; [intros _ H; contradiction|].
    split; [intros _ _ _; split; [exact Hc|exact Hl]|]. exact Hrel.
  - split; [split; [discriminate|intros (_ & H & _); contradiction]|].
    split; [exact Hp'|]. split; [exact Hk|]. split; [discriminate|].
    split; [intros H; contradiction|].
    split; [intros _ _; split; [exact Hc|exact Hl]|].
    split; [intros _ H; contradiction|]. exact Hrel.
Qed.

Lemma CreateQueue_outcome_witness :
  exists b st',
    CreateQueue unstartable_queue_keyboard before_resolution = (Returned b, st') /\
    m_pimpl st' = Some {| m_hidDevice := 11; m_hidDeviceInterface := 13;
                          m_plugInInterface := 12; m_hidQueue := 14 |} /\
    driver_calls st'
      = [Call_allocQueue 13; Call_queue_create 14; Call_queue_start 14] /\
    logged st' = ["Failed to start queue."].
Proof.
  destruct (CreateQueue_outcome unstartable_queue_keyboard before_resolution
              {| m_hidDevice := 11; m_hidDeviceInterface := 13;
                 m_plugInInterface := 12; m_hidQueue := 0 |})
    as (b & st' & H1 & _ & H2 & _ & _ & _ & _ & H3 & _).
  - reflexivity.
  - simpl. lia.
  - exists b, st'. split; [exact H1|]. split; [exact H2|].
    apply H3.
    + simpl. lia.
    + reflexivity.
    + vm_compute. discriminate.
Defined.

Lemma pimpl_run st this :
  m_pimpl st = Some this -> pimpl st = (Returned this, st).
Proof. intros H. unfold pimpl, bind, gets. rewrite H. reflexivity. Qed.

Lemma AddElementsToQueue_loop drv this keys success st :
  m_hidQueue this <> 0 ->
  for_each_with
    (fun success iter =>
       if resolved iter then
         call_through (m_hidQueue this)
           (Call_queue_addElement (m_hidQueue this) (macCookieValue iter)) ;;
         let ioReturnValue :=
           drv_queue_addElement drv (m_hidQueue this) (macCookieValue iter) in
         if negb (ioReturnValue =? kIOReturnSuccess) then
           assert_ true false "failed to add element to the queue" ;;
           ret false
         else ret success
       else ret success)
    success keys st
  = (Returned (success
               && forallb (accepted drv (m_hidQueue this))
                          (List.filter resolved keys)),
     add_calls (map (fun k => Call_queue_addElement (m_hidQueue this)
                                (macCookieValue k))
                    (List.filter resolved keys)) st).
Proof.
  intros Hq. apply Z.eqb_neq in Hq.
  match goal with
  | |- for_each_with ?f _ _ _ = _ => set (body := f)
  end.
  revert success st. induction keys as [|k keys IH]; intros success st.
  - simpl. rewrite add_calls_nil, andb_true_r. reflexivity.
  - cbn [for_each_with List.filter]. unfold bind at 1. unfold body at 1.
    destruct (resolved k).
    + unfold bind at 1. unfold call_through. rewrite Hq.
      rewrite call_run. cbv zeta. cbn [forallb map]. unfold accepted at 1.
      destruct (drv_queue_addElement drv (m_hidQueue this) (macCookieValue k)
                =? kIOReturnSuccess); cbn [negb].
      * unfold ret at 1. rewrite IH, add_calls_add_calls. reflexivity.
      * unfold bind at 1. unfold assert_, ret at 1. unfold ret at 1.
        rewrite IH, add_calls_add_calls, andb_false_r. reflexivity.
    + unfold ret at 1. apply IH.
Qed.

(** X10: in a build without [assert]s, [AddElementsToQueue] offers the queue
    the cookie of every key that holds a handle and is not ignored, once each
    and in table order, and no other; it goes on after a refusal, and returns
    [true] exactly when the driver accepted them all.  Nothing but the trace
    changes. *)
Theorem AddElementsToQueue_outcome drv st this :
  m_pimpl st = Some this ->
  m_hidQueue this <> 0 ->
  AddElementsToQueue true drv st
  = (Returned (forallb (accepted drv (m_hidQueue this))
                       (List.filter resolved (m_keys st))),
     add_calls (map (fun k => Call_queue_addElement (m_hidQueue this)
                                (macCookieValue k))
                    (List.filter resolved (m_keys st))) st).
Proof.
  intros Hp Hq. unfold AddElementsToQueue.
  rewrite (bind_run pimpl _ st this st (pimpl_run st this Hp)).
  rewrite (bind_run (gets m_keys) _ st (m_keys st) st eq_refl).
  apply (AddElementsToQueue_loop drv this (m_keys st) true st Hq).
Qed.

Lemma AddElementsToQueue_outcome_witness :
  yields (AddElementsToQueue true full_keyboard) running_session = Returned true /\
  length (driver_calls (final (AddElementsToQueue true full_keyboard)
                          running_session))
  = (length (driver_calls running_session) + 41)%nat.
Proof.
  rewrite (yields_run _ _ _ _
             (AddElementsToQueue_outcome full_keyboard running_session
                {| m_hidDevice := 11; m_hidDeviceInterface := 13;
                   m_plugInInterface := 12; m_hidQueue := 14 |}
                ltac:(vm_compute; reflexivity) ltac:(simpl; lia))).
  rewrite (final_run _ _ _ _
             (AddElementsToQueue_outcome full_keyboard running_session
                {| m_hidDevice := 11; m_hidDeviceInterface := 13;
                   m_plugInInterface := 12; m_hidQueue := 14 |}
                ltac:(vm_compute; reflexivity) ltac:(simpl; lia))).
  split; vm_compute; reflexivity.
Defined.

(** ** Counting the keys that are down *)

Lemma CountOfCurrentlyDepressedKeys_loop NDEBUG drv this keys score st :
  m_hidDeviceInterface this <> 0 ->
  (forall k, In k keys -> resolved k = true ->
     fst (drv_getElementValue drv (m_hidDeviceInterface this) (macCookieValue k))
     = kIOReturnSuccess) ->
  for_each_with (CountOfCurrentlyDepressedKeys_key NDEBUG drv this) score keys st
  = (Returned (score + Z.of_nat (length
       (List.filter (pressed drv (m_hidDeviceInterface this))
                    (List.filter resolved keys)))),
     add_calls (map (fun k => Call_getElementValue (m_hidDeviceInterface this)
                                (macCookieValue k))
                    (List.filter resolved keys)) st).
Proof.
  intros Hi Hok. apply Z.eqb_neq in Hi.
  revert score st. induction keys as [|k keys IH]; intros score st.
  - simpl. rewrite add_calls_nil, Z.add_0_r. reflexivity.
  - assert (IH' := IH (fun k' Hin => Hok k' (or_intror Hin))).
    cbn [for_each_with List.filter]. unfold bind at 1.
    unfold CountOfCurrentlyDepressedKeys_key at 1.
    destruct (resolved k) eqn:Hres; [|unfold ret at 1; apply IH'].
    unfold bind at 1. unfold call_through. rewrite Hi. rewrite call_run.
    cbn [List.filter map]. unfold pressed at 1.
    pose proof (Hok k (or_introl eq_refl) Hres) as Hk.
    destruct (drv_getElementValue drv (m_hidDeviceInterface this)
                (macCookieValue k)) as [r v] eqn:Ev.
    cbn [fst] in Hk. subst r. cbn [snd].
    rewrite Z.eqb_refl. cbn [negb].
    unfold bind at 1. unfold ret at 1. unfold bind at 1. unfold ret at 1.
    destruct (negb (v =? 0)); unfold ret at 1;
      rewrite IH', add_calls_add_calls; cbn [length];
      f_equal; try reflexivity; f_equal; lia.
Qed.

Lemma CountOfCurrentlyDepressedKeys_run NDEBUG drv st this :
  m_pimpl st = Some this ->
  m_hidDeviceInterface this <> 0 ->
  (forall k, In k (m_keys st) -> resolved k = true ->
     fst (drv_getElementValue drv (m_hidDeviceInterface this) (macCookieValue k))
     = kIOReturnSuccess) ->
  CountOfCurrentlyDepressedKeys NDEBUG false drv st
  = (Returned (Z.of_nat (length
       (List.filter (pressed drv (m_hidDeviceInterface this))
                    (List.filter resolved (m_keys st))))),
     add_calls (map (fun k => Call_getElementValue (m_hidDeviceInterface this)
                                (macCookieValue k))
                    (List.filter resolved (m_keys st))) st).
Proof.
  intros Hp Hi Hok.
  unfold CountOfCurrentlyDepressedKeys.
  rewrite (bind_run (gets m_pimpl) _ st (Some this) st
             ltac:(unfold gets; rewrite Hp; reflexivity)).
  unfold DebugCheckErrorKeys.
  rewrite (bind_run (ret tt) _ st tt st eq_refl).
  rewrite (bind_run (gets m_keys) _ st (m_keys st) st eq_refl).
  apply (CountOfCurrentlyDepressedKeys_loop NDEBUG drv this (m_keys st) 0 st
           Hi Hok).
Qed.



(** X11: on a session that holds the device interface, in a build without
    [_DEBUG], [CountOfCurrentlyDepressedKeys] asks the driver for the value of
    every key that holds a handle and is not ignored, once each and in table
    order, and of no other.  When each of these requests succeeds, in every
    build, it returns how many of the values are not 0, a number between 0
    and the number of such keys, and changes nothing but the trace.  (After
    a failed request the code asserts; without [assert]s it goes on and
    counts on a [theEvent] in which nothing was stored, so that the count is
    no longer the number of keys the driver reports as down.) *)
Theorem CountOfCurrentlyDepressedKeys_counts NDEBUG drv st this :
  m_pimpl st = Some this ->
  m_hidDeviceInterface this <> 0 ->
  (forall k, In k (m_keys st) -> resolved k = true ->
     fst (drv_getElementValue drv (m_hidDeviceInterface this) (macCookieValue k))
     = kIOReturnSuccess) ->
  let polled := List.filter resolved (m_keys st) in
  let down := List.filter (pressed drv (m_hidDeviceInterface this)) polled in
  CountOfCurrentlyDepressedKeys NDEBUG false drv st
  = (Returned (Z.of_nat (length down)),
     add_calls (map (fun k => Call_getElementValue (m_hidDeviceInterface this)
                                (macCookieValue k)) polled) st) /\
  0 <= Z.of_nat (length down) <= Z.of_nat (length polled).
Proof.
  intros Hp Hi Hok polled down. split.
  - apply CountOfCurrentlyDepressedKeys_run; assumption.
  - split; [lia|]. apply inj_le. subst down. apply List.filter_length_le.
Qed.

Lemma CountOfCurrentlyDepressedKeys_counts_witness :
  yields (CountOfCurrentlyDepressedKeys true false full_keyboard) running_session
  = Returned 1.
Proof.
  rewrite (yields_run _ _ _ _
    (proj1 (CountOfCurrentlyDepressedKeys_counts true full_keyboard
              running_session
              {| m_hidDevice := 11; m_hidDeviceInterface := 13;
                 m_plugInInterface := 12; m_hidQueue := 14 |}
              ltac:(vm_compute; reflexivity) ltac:(simpl; lia)
              (fun k _ _ => eq_refl)))).
  vm_compute. reflexivity.
Defined.

(** ** The session a constructor leaves *)

Lemma andM_true (c1 c2 : M bool) st s' :
  (c1 &&& c2) st = (Returned true, s') ->
  exists s1, c1 st = (Returned true, s1) /\ c2 s1 = (Returned true, s').
Proof.
  unfold andM. intros H. apply bind_Returned in H as (b & s1 & H1 & H2).
  destruct b; [|discriminate]. exists s1. auto.
Qed.

Lemma CreateDeviceInterface_needs_plugIn drv st this o st' :
  m_pimpl st = Some this ->
  CreateDeviceInterface drv st = (Returned o, st') ->
  m_plugInInterface this <> 0.
Proof.
  intros Hp H Hz. unfold CreateDeviceInterface in H.
  rewrite (bind_run pimpl _ st this st (pimpl_run st this Hp)) in H.
  unfold bind at 1 in H. unfold call_through in H.
  rewrite Hz in H. discriminate.
Qed.

Lemma FindKeypressCookies_returned NDEBUG to_IOHIDElementCookie drv st b st' :
  FindKeypressCookies NDEBUG to_IOHIDElementCookie drv st = (Returned b, st') ->
  b = (40 <? FindKeypressCookies_score (m_keys st')) /\
  m_pimpl st' = m_pimpl st /\
  m_queueEnabled st' = m_queueEnabled st /\
  m_errorLoggerFunctor st' = m_errorLoggerFunctor st /\
  length (m_keys st') = length (m_keys st).
Proof.
  intros H. destruct (m_pimpl st) as [this|] eqn:Hp.
  2:{ unfold FindKeypressCookies in H. unfold bind at 1 in H.
      unfold pimpl, bind, gets in H. rewrite Hp in H. discriminate. }
  destruct (drv_copyMatchingElements drv (m_hidDeviceInterface this))
    as [r els] eqn:Hd.
  rewrite (FindKeypressCookies_unfold NDEBUG to_IOHIDElementCookie drv st this
             r els Hp Hd) in H.
  apply bind_Returned in H as ([] & s1 & H1 & H).
  apply bind_Returned in H as ([] & s2 & H2 & H).
  rewrite FindKeypressCookies_end in H. injection H as Hb <-.
  split.
  { destruct (r =? kIOReturnSuccess);
      [|destruct (uninitialised s2 (length (driver_calls s2)) =? 0)];
      congruence. }
  unfold call_through in H1.
  destruct (m_hidDeviceInterface this =? 0); [discriminate|].
  unfold call, modify in H1. injection H1 as <-.
  assert (F : scan_frame (add_call
                 (Call_copyMatchingElements (m_hidDeviceInterface this)) st) s2).
  { destruct (negb (r =? kIOReturnSuccess)).
    - rewrite LogErrorWhenFunctorIsntEmpty_run in H2. injection H2 as <-.
      destruct (m_errorLoggerFunctor _);
        [apply scan_frame_add_log | apply scan_frame_refl].
    - pose proof (scan_frame_for_each NDEBUG to_IOHIDElementCookie els
                    (add_call (Call_copyMatchingElements
                                 (m_hidDeviceInterface this)) st)) as F.
      rewrite (final_run _ _ _ _ H2) in F. exact F. }
  destruct F as (Fp & Ff & _ & Fq & _ & _ & Fl & _).
  simpl in *. repeat split; congruence.
Qed.

Lemma assert_cases NDEBUG cond msg st :
  assert_ NDEBUG cond msg st = (Returned tt, st) \/
  exists f, assert_ NDEBUG cond msg st = (Aborted f, st).
Proof.
  unfold assert_. destruct NDEBUG; [left; reflexivity|].
  destruct cond; [left; reflexivity|]. right. eexists. reflexivity.
Qed.

Lemma AddElementsToQueue_state NDEBUG drv st :
  exists cs, final (AddElementsToQueue NDEBUG drv) st = add_calls cs st.
Proof.
  unfold final, AddElementsToQueue.
  destruct (m_pimpl st) as [this|] eqn:Hp.
  2:{ unfold bind at 1. unfold pimpl, bind, gets. rewrite Hp.
      exists []. rewrite add_calls_nil. reflexivity. }
  rewrite (bind_run pimpl _ st this st (pimpl_run st this Hp)).
  rewrite (bind_run (gets m_keys) _ st (m_keys st) st eq_refl).
  match goal with
  | |- context [for_each_with ?f _ _ _] => set (body := f)
  end.
  generalize true as success. generalize (m_keys st) as keys.
  intros keys. generalize st as s.
  induction keys as [|k keys IH]; intros s success.
  - exists []. simpl. rewrite add_calls_nil. reflexivity.
  - cbn [for_each_with]. unfold bind at 1. unfold body at 1.
    destruct (resolved k).
    + unfold bind at 1. unfold call_through.
      destruct (m_hidQueue this =? 0).
      { exists []. simpl. rewrite add_calls_nil. reflexivity. }
      rewrite call_run. cbv zeta.
      destruct (negb (drv_queue_addElement drv (m_hidQueue this)
                        (macCookieValue k) =? kIOReturnSuccess)).
      * unfold bind at 1.
        destruct (assert_cases NDEBUG false "failed to add element to the queue"
                    (add_calls [Call_queue_addElement (m_hidQueue this)
                                  (macCookieValue k)] s)) as [E|[f E]];
          rewrite E.
        -- unfold ret at 1.
           destruct (IH (add_calls [Call_queue_addElement (m_hidQueue this)
                                      (macCookieValue k)] s) false) as [cs Hcs].
           eexists. rewrite Hcs, add_calls_add_calls. reflexivity.
        -- eexists. reflexivity.
      * unfold ret at 1.
        destruct (IH (add_calls [Call_queue_addElement (m_hidQueue this)
                                   (macCookieValue k)] s) success) as [cs Hcs].
        eexists. rewrite Hcs, add_calls_add_calls. reflexivity.
    + unfold ret at 1. apply IH.
Qed.

(** What a basic initialization that succeeded has established. *)
Lemma Initialize_basic_true NDEBUG to_IOHIDElementCookie drv st s :
  m_pimpl st = Some PrivateImpl_new ->
  m_keys st = [] ->
  Initialize_basic NDEBUG to_IOHIDElementCookie drv st = (Returned true, s) ->
  exists this,
    m_pimpl s = Some this /\
    m_hidDevice this = drv_IOServiceGetMatchingService drv /\
    m_hidDevice this <> 0 /\
    m_plugInInterface this <> 0 /\
    m_hidDeviceInterface this <> 0 /\
    m_hidQueue this = 0 /\
    length (m_keys s) = 165%nat /\
    40 < FindKeypressCookies_score (m_keys s) /\
    m_queueEnabled s = m_queueEnabled st /\
    m_errorLoggerFunctor s = m_errorLoggerFunctor st.
Proof.
  intros Hp Hk H. unfold Initialize_basic in H.
  apply andM_true in H as (s4 & H & H5).
  apply andM_true in H as (s3 & H & H4).
  apply andM_true in H as (s2 & H & H3).
  apply andM_true in H as (s1 & H1 & H2).
  (* device matching *)
  destruct (FindKeyboard_run drv st PrivateImpl_new Hp)
    as (s1' & R1 & P1 & _ & _ & K1 & Q1 & F1 & _).
  rewrite H1 in R1. injection R1 as Hb <-.
  set (device := if drv_IOServiceMatching drv && drv_CFNumberCreate_usagePage drv
                      && drv_CFNumberCreate_usage drv
                 then drv_IOServiceGetMatchingService drv else 0) in *.
  symmetry in Hb. apply negb_true_iff, Z.eqb_neq in Hb.
  assert (Hdev : device = drv_IOServiceGetMatchingService drv
                 /\ drv_IOServiceMatching drv = true).
  { unfold device in *.
    destruct (drv_IOServiceMatching drv);
      [|exfalso; apply Hb; reflexivity].
    destruct (drv_CFNumberCreate_usagePage drv);
      [|exfalso; apply Hb; reflexivity].
    destruct (drv_CFNumberCreate_usage drv);
      [|exfalso; apply Hb; reflexivity].
    split; reflexivity. }
  destruct Hdev as [Hdev Hm]. rewrite Hm in P1.
  (* plug-in creation *)
  destruct (CreatePluginInterface_run drv s1 _ P1)
    as (s2' & R2 & P2 & K2 & Q2 & F2).
  rewrite H2 in R2. injection R2 as _ <-.
  (* device-interface creation *)
  pose proof (CreateDeviceInterface_needs_plugIn drv s2 _ _ _ P2 H3) as Hplug.
  destruct (CreateDeviceInterface_run drv s2 _ P2 Hplug)
    as (o & s3' & R3 & Ho & P3 & (K3 & Q3 & F3) & _).
  rewrite H3 in R3. injection R3 as <- <-.
  assert (Hiface : snd (drv_QueryInterface drv
             (m_plugInInterface (with_plugInInterface
                (snd (drv_IOCreatePlugInInterfaceForService drv
                        (m_hidDevice (with_hidDevice device PrivateImpl_new))))
                (with_hidDevice device PrivateImpl_new)))) <> 0).
  { destruct (drv_QueryInterface drv _) as [hr iface]. cbn [snd].
    destruct (hr =? S_OK); [|discriminate].
    destruct (iface =? 0) eqn:Ei; [discriminate|].
    apply Z.eqb_neq. exact Ei. }
  (* table population *)
  apply PopulateVectorOfKeyInfo_true in H4 as [_ ->].
  (* element resolution *)
  apply FindKeypressCookies_returned in H5 as (Hs & P5 & Q5 & F5 & L5).
  eexists. split; [rewrite P5; cbn [m_pimpl set_keys]; exact P3|].
  cbn [m_hidDevice m_plugInInterface m_hidDeviceInterface m_hidQueue
       with_hidDeviceInterface with_plugInInterface with_hidDevice
       PrivateImpl_new] in *.
  split; [exact Hdev|]. split; [exact Hb|]. split; [exact Hplug|].
  split; [exact Hiface|]. split; [reflexivity|].
  split; [rewrite L5; reflexivity|].
  split; [apply Z.ltb_lt; symmetry; exact Hs|].
  cbn [m_queueEnabled m_errorLoggerFunctor set_keys] in Q5, F5.
  split; congruence.
Qed.

Lemma Initialize_returned NDEBUG to_IOHIDElementCookie drv st st' :
  m_pimpl st = Some PrivateImpl_new ->
  m_keys st = [] ->
  Initialize NDEBUG to_IOHIDElementCookie drv st = (Returned tt, st') ->
  (exists s,
     Initialize_basic NDEBUG to_IOHIDElementCookie drv st = (Returned false, s))
    /\ m_pimpl st' = None \/
  exists s this,
    Initialize_basic NDEBUG to_IOHIDElementCookie drv st = (Returned true, s) /\
    m_pimpl s = Some this /\
    m_keys st' = m_keys s /\
    (m_queueEnabled st = false /\ m_pimpl st' = Some this \/
     m_queueEnabled st = true /\
     m_pimpl st'
       = Some (with_hidQueue (drv_allocQueue drv (m_hidDeviceInterface this)) this)).
Proof.
  intros Hp Hk Hrun. pose proof Hrun as H. unfold Initialize in H.
  apply bind_Returned in H as (bs & s & Hbasic & H).
  destruct bs.
  2:{ left. split; [exists s; exact Hbasic|].
      destruct (Initialize_after_failure _ _ _ _ _ Hbasic) as (s' & Hi & Hn & _).
      rewrite Hrun in Hi. injection Hi as <-. exact Hn. }
  right.
  destruct (Initialize_basic_true _ _ _ _ _ Hp Hk Hbasic)
    as (this & Ps & _ & _ & _ & Hi & _ & _ & _ & Qs & _).
  exists s, this. split; [exact Hbasic|]. split; [exact Ps|].
  unfold bind at 1 in H. unfold ret at 1 in H.
  unfold bind at 1 in H. unfold gets at 1 in H. rewrite Qs in H.
  cbn [andb] in H.
  destruct (m_queueEnabled st).
  - apply bind_Returned in H as (qs & s' & Hq & H).
    unfold andM in Hq. apply bind_Returned in Hq as (b & sq & HC & HA).
    destruct (CreateQueue_run drv s this Ps Hi)
      as (sq' & RC & PC & (KC & _) & _).
    rewrite HC in RC. injection RC as _ <-.
    assert (Hs' : m_pimpl s' = m_pimpl sq /\ m_keys s' = m_keys sq).
    { destruct b.
      - destruct (AddElementsToQueue_state NDEBUG drv sq) as [cs Hcs].
        rewrite (final_run _ _ _ _ HA) in Hcs. subst s'. auto.
      - injection HA as _ <-. auto. }
    destruct Hs' as [Ps' Ks'].
    assert (Hst' : m_pimpl st' = m_pimpl s' /\ m_keys st' = m_keys s').
    { destruct qs.
      - injection H as <-. auto.
      - destruct (LogInitializationError_run
                    "Failed basic keyboard input queue initialization." s')
          as [text Hlog].
        rewrite Hlog in H. injection H as <-.
        destruct (m_errorLoggerFunctor s'); auto. }
    destruct Hst' as [Pst' Kst'].
    split; [congruence|]. right. split; [reflexivity|]. congruence.
  - injection H as <-. split; [reflexivity|]. left. auto.
Qed.

(** X12: a constructed session is all or nothing.  When the constructor
    returns, either [m_pimpl] is empty, or it holds a device (the one the
    registry gave), a plug-in handle and a device-interface handle that are
    all non-null, the table has its 165 entries, and more than 40 of them are
    resolved.  A queue handle is held only if the queue was enabled, and then
    it is the one [allocQueue] returned. *)
Theorem constructed_session_is_whole NDEBUG to_IOHIDElementCookie drv
    enableQueue errorLoggerFunctor st0 st' :
  HelperForKeyboardReaderIOKit_constructor NDEBUG to_IOHIDElementCookie drv
    enableQueue errorLoggerFunctor st0 = (Returned tt, st') ->
  m_pimpl st' = None \/
  exists this,
    m_pimpl st' = Some this /\
    m_hidDevice this = drv_IOServiceGetMatchingService drv /\
    m_hidDevice this <> 0 /\
    m_plugInInterface this <> 0 /\
    m_hidDeviceInterface this <> 0 /\
    length (m_keys st') = 165%nat /\
    40 < FindKeypressCookies_score (m_keys st') /\
    (enableQueue = false -> m_hidQueue this = 0) /\
    (enableQueue = true ->
     m_hidQueue this = drv_allocQueue drv (m_hidDeviceInterface this)).
Proof.
  intros H. unfold HelperForKeyboardReaderIOKit_constructor in H.
  unfold bind in H. unfold modify in H.
  destruct (Initialize_returned _ _ _ (member_initialisers _ _ st0) _
              eq_refl eq_refl H)
    as [[_ Hn]|(s & this & Hbasic & Ps & Ks & Hq)]; [left; exact Hn|].
  right.
  destruct (Initialize_basic_true _ _ _ (member_initialisers _ _ st0) _
              eq_refl eq_refl Hbasic)
    as (this' & Ps' & Hd & Hd0 & Hpl & Hi & Hq0 & Hl & Hsc & _).
  rewrite Ps in Ps'. injection Ps' as <-.
  cbn [m_queueEnabled member_initialisers] in Hq.
  destruct Hq as [[He Pst]|[He Pst]]; subst enableQueue.
  - exists this. rewrite Ks.
    repeat split; try assumption; first [discriminate | intros _; assumption].
  - exists (with_hidQueue (drv_allocQueue drv (m_hidDeviceInterface this)) this).
    rewrite Ks.
    repeat split; try assumption; first [discriminate | intros _; reflexivity].
Qed.

Lemma constructed_session_is_whole_witness :
  (m_pimpl running_session = None \/
   exists this,
     m_pimpl running_session = Some this /\
     m_hidDevice this = drv_IOServiceGetMatchingService full_keyboard /\
     m_hidDevice this <> 0 /\
     m_plugInInterface this <> 0 /\
     m_hidDeviceInterface this <> 0 /\
     length (m_keys running_session) = 165%nat /\
     40 < FindKeypressCookies_score (m_keys running_session) /\
     (true = false -> m_hidQueue this = 0) /\
     (true = true ->
      m_hidQueue this
      = drv_allocQueue full_keyboard (m_hidDeviceInterface this))).
Proof.
  apply (constructed_session_is_whole true cookie_uint32 full_keyboard
           true true process_start running_session).
  vm_compute. reflexivity.
Defined.

(** X13: a session constructed with the queue disabled never touches a
    queue: whether its initialization succeeded or failed, every later call
    of [ReadFromQueue_Experimental] returns at once, with no driver call and
    nothing logged. *)
Theorem drain_is_noop_without_queue NDEBUG to_IOHIDElementCookie drv
    errorLoggerFunctor st0 st' :
  HelperForKeyboardReaderIOKit_constructor NDEBUG to_IOHIDElementCookie drv
    false errorLoggerFunctor st0 = (Returned tt, st') ->
  forall NDEBUG' drv' fuel,
    ReadFromQueue_Experimental NDEBUG' drv' fuel st' = (Returned (Some tt), st').
Proof.
  intros H NDEBUG' drv' fuel.
  unfold HelperForKeyboardReaderIOKit_constructor in H.
  unfold bind in H. unfold modify in H.
  unfold ReadFromQueue_Experimental.
  destruct (Initialize_returned _ _ _ (member_initialisers _ _ st0) _
              eq_refl eq_refl H)
    as [[_ Hn]|(s & this & Hbasic & Ps & _ & Hq)].
  - unfold bind, gets. rewrite Hn. reflexivity.
  - destruct (Initialize_basic_true _ _ _ (member_initialisers _ _ st0) _
              eq_refl eq_refl Hbasic)
      as (this' & Ps' & _ & _ & _ & _ & Hq0 & _).
    rewrite Ps in Ps'. injection Ps' as <-.
    cbn [m_queueEnabled member_initialisers] in Hq.
    destruct Hq as [[_ Pst]|[He _]]; [|discriminate].
    unfold bind, gets. rewrite Pst, Hq0. reflexivity.
Qed.

Lemma drain_is_noop_without_queue_witness :
  ReadFromQueue_Experimental false full_keyboard 5
    (final (HelperForKeyboardReaderIOKit_constructor true cookie_uint32
              full_keyboard false true) process_start)
  = (Returned (Some tt),
     final (HelperForKeyboardReaderIOKit_constructor true cookie_uint32
              full_keyboard false true) process_start).
Proof.
  apply (drain_is_noop_without_queue true cookie_uint32 full_keyboard true
           process_start).
  vm_compute. reflexivity.
Defined.

(** ** Releasing once *)

(** X14: resources are released once.  Destroying a session gives each
    handle back at most once, and leaves a session on which every later
    operation, a second destruction included, calls the driver no more: the
    count is -1 and the queue is not read. *)
Theorem resources_released_once st this :
  m_pimpl st = Some this ->
  let st1 := final HelperForKeyboardReaderIOKit_destructor st in
  NoDup (release_sequence this) /\
  driver_calls st1 = driver_calls st ++ release_sequence this /\
  HelperForKeyboardReaderIOKit_destructor st1 = (Returned tt, st1) /\
  (forall NDEBUG _DEBUG drv,
     CountOfCurrentlyDepressedKeys NDEBUG _DEBUG drv st1 = (Returned (-1), st1)) /\
  (forall NDEBUG drv fuel,
     ReadFromQueue_Experimental NDEBUG drv fuel st1 = (Returned (Some tt), st1)).
Proof.
  intros Hp st1.
  assert (H1 : st1 = add_calls (release_sequence this) (set_pimpl None st)).
  { unfold st1, final, HelperForKeyboardReaderIOKit_destructor.
    rewrite m_pimpl_reset_run, Hp. reflexivity. }
  assert (Hn : m_pimpl st1 = None) by (rewrite H1; reflexivity).
  split; [|split; [|split; [|split]]].
  - unfold release_sequence.
    destruct (negb (m_hidDeviceInterface this =? 0));
      destruct (negb (m_plugInInterface this =? 0));
      destruct (negb (m_hidQueue this =? 0));
      destruct (negb (m_hidDevice this =? 0)); cbn [app];
      repeat (apply NoDup_cons; split;
              [rewrite ?list_elem_of_In; simpl; intuition discriminate|]);
      apply NoDup_nil; exact I.
  - rewrite H1. reflexivity.
  - unfold HelperForKeyboardReaderIOKit_destructor.
    rewrite m_pimpl_reset_run, Hn. reflexivity.
  - intros. unfold CountOfCurrentlyDepressedKeys, bind, gets. rewrite Hn.
    reflexivity.
  - intros. unfold ReadFromQueue_Experimental, bind, gets. rewrite Hn.
    reflexivity.
Qed.

Lemma resources_released_once_witness :
  driver_calls (final HelperForKeyboardReaderIOKit_destructor
                  (final HelperForKeyboardReaderIOKit_destructor running_session))
  = driver_calls running_session
      ++ [Call_close 13; Call_Release 13; Call_IODestroyPlugInInterface 12;
          Call_queue_Release 14; Call_IOObjectRelease 11].
Proof.
  destruct (resources_released_once running_session
              {| m_hidDevice := 11; m_hidDeviceInterface := 13;
                 m_plugInInterface := 12; m_hidQueue := 14 |})
    as (_ & Hc & Hd & _).
  - vm_compute. reflexivity.
  - rewrite (final_run _ _ _ _ Hd). exact Hc.
Defined.

(** ** Properties kept by whole computations *)

Lemma preserves_ret {A} (I : Machine -> Prop) (a : A) : preserves I (ret a).
Proof. intros st H. exact H. Qed.

Lemma preserves_abort {A} (I : Machine -> Prop) f : preserves I (@abort A f).
Proof. intros st H. exact H. Qed.

Lemma preserves_gets {A} (I : Machine -> Prop) (f : Machine -> A) :
  preserves I (gets f).
Proof. intros st H. exact H. Qed.

Lemma preserves_modify (I : Machine -> Prop) f :
  (forall st, I st -> I (f st)) -> preserves I (modify f).
Proof. intros Hf st H. apply Hf. exact H. Qed.

Lemma preserves_bind {A B} (I : Machine -> Prop) (c : M A) (k : A -> M B) :
  preserves I c -> (forall a, preserves I (k a)) -> preserves I (x <- c ;; k x).
Proof.
  intros Hc Hk st H. specialize (Hc st H). unfold final, bind in *.
  destruct (c st) as [[a|f] s1]; cbn [snd] in *.
  - apply (Hk a s1 Hc).
  - exact Hc.
Qed.

Lemma preserves_andM (I : Machine -> Prop) (c1 c2 : M bool) :
  preserves I c1 -> preserves I c2 -> preserves I (c1 &&& c2).
Proof.
  intros H1 H2. unfold andM. apply preserves_bind; [exact H1|].
  intros []; [exact H2|apply preserves_ret].
Qed.

Lemma preserves_for_each {A} (I : Machine -> Prop) (body : A -> M unit) items :
  (forall x, preserves I (body x)) -> preserves I (for_each body items).
Proof.
  intros Hb. induction items as [|x items IH]; cbn [for_each].
  - apply preserves_ret.
  - apply preserves_bind; [apply Hb|]. intros _. exact IH.
Qed.

Lemma preserves_for_each_with {A S} (I : Machine -> Prop)
    (body : S -> A -> M S) s items :
  (forall s x, preserves I (body s x)) ->
  preserves I (for_each_with body s items).
Proof.
  intros Hb. revert s. induction items as [|x items IH]; intros s;
    cbn [for_each_with].
  - apply preserves_ret.
  - apply preserves_bind; [apply Hb|]. intros s'. apply IH.
Qed.

(** One step of a proof that a computation keeps a property [I] that the
    given tactic shows to be kept by each update of the machine. *)
Ltac keeps_step update :=
  first
    [ apply preserves_ret
    | apply preserves_abort
    | apply preserves_gets
    | apply preserves_andM
    | apply preserves_bind; [|intros ?]
    | apply preserves_for_each; intros ?
    | apply preserves_for_each_with; intros ? ?
    | apply preserves_modify; update
    | match goal with
      | |- preserves _ (match ?x with _ => _ end) => destruct x
      end ].

Ltac keeps update :=
  unfold LogInitializationError, LogErrorWhenFunctorIsntEmpty,
    call_through, call, pimpl, assert_;
  repeat keeps_step update.

Ltac quiet_update :=
  let st := fresh "st" in let H1 := fresh in let H2 := fresh in
  intros st [H1 H2]; split; [exact H1 | exact H2].

Lemma quiet_log log error :
  preserves (quiet log) (LogErrorWhenFunctorIsntEmpty error).
Proof.
  intros st [Hf Hl]. unfold final.
  rewrite LogErrorWhenFunctorIsntEmpty_run, Hf. split; assumption.
Qed.

Lemma quiet_LogInitializationError log errorDesc :
  preserves (quiet log) (LogInitializationError errorDesc).
Proof.
  unfold LogInitializationError. apply preserves_bind; [apply preserves_gets|].
  intros ?. apply quiet_log.
Qed.

Lemma quiet_ReadFromQueue_loop log drv fuel queue :
  preserves (quiet log) (ReadFromQueue_loop drv fuel queue).
Proof.
  induction fuel as [|fuel IH]; cbn [ReadFromQueue_loop].
  - apply preserves_ret.
  - unfold call_through, call.
    repeat first [exact IH | keeps_step quiet_update].
Qed.

Lemma quiet_Initialize log NDEBUG to_IOHIDElementCookie drv :
  preserves (quiet log) (Initialize NDEBUG to_IOHIDElementCookie drv).
Proof.
  unfold Initialize, Initialize_basic, FindKeyboard, CreatePluginInterface,
    GetKeyboardProperties, StoreOneProperty, CreateDeviceInterface,
    PopulateVectorOfKeyInfo, FindKeypressCookies, FindKeypressCookies_element,
    FindKeypressCookies_release, read_uninitialised,
    CreateQueue, AddElementsToQueue, m_pimpl_reset, PrivateImpl_destructor.
  unfold call_through, call, pimpl, assert_.
  repeat first
    [ apply quiet_log | apply quiet_LogInitializationError
    | keeps_step quiet_update ].
Qed.

Lemma quiet_CountOfCurrentlyDepressedKeys log NDEBUG _DEBUG drv :
  preserves (quiet log) (CountOfCurrentlyDepressedKeys NDEBUG _DEBUG drv).
Proof.
  unfold CountOfCurrentlyDepressedKeys, CountOfCurrentlyDepressedKeys_key,
    read_uninitialised,
    DebugCheckErrorKeys, DebugCheckErrorKey.
  unfold call_through, call, pimpl, assert_.
  repeat first [ apply quiet_log | keeps_step quiet_update ].
Qed.

Lemma quiet_ReadFromQueue_Experimental log NDEBUG drv fuel :
  preserves (quiet log) (ReadFromQueue_Experimental NDEBUG drv fuel).
Proof.
  unfold ReadFromQueue_Experimental. unfold assert_.
  repeat first
    [ apply quiet_log | apply quiet_ReadFromQueue_loop
    | keeps_step quiet_update ].
Qed.

Lemma quiet_destructor log :
  preserves (quiet log) HelperForKeyboardReaderIOKit_destructor.
Proof.
  unfold HelperForKeyboardReaderIOKit_destructor, m_pimpl_reset,
    PrivateImpl_destructor, call.
  repeat keeps_step quiet_update.
Qed.

(** X15: without an error logger nothing is logged.  A session constructed
    with an empty functor leaves the log as it found it, whatever the driver
    does and however the construction ends; and so do polling, draining the
    queue and destruction on any object whose functor is empty. *)
Theorem nothing_logged_without_logger :
  (forall NDEBUG to_IOHIDElementCookie drv enableQueue st0,
     logged (final (HelperForKeyboardReaderIOKit_constructor NDEBUG
                      to_IOHIDElementCookie drv enableQueue false) st0)
     = logged st0) /\
  (forall st,
     m_errorLoggerFunctor st = false ->
     (forall NDEBUG _DEBUG drv,
        logged (final (CountOfCurrentlyDepressedKeys NDEBUG _DEBUG drv) st)
        = logged st) /\
     (forall NDEBUG drv fuel,
        logged (final (ReadFromQueue_Experimental NDEBUG drv fuel) st)
        = logged st) /\
     logged (final HelperForKeyboardReaderIOKit_destructor st) = logged st).
Proof.
  split.
  - intros NDEBUG to_IOHIDElementCookie drv enableQueue st0.
    assert (H0 : quiet (logged st0) (member_initialisers enableQueue false st0))
      by (split; reflexivity).
    unfold HelperForKeyboardReaderIOKit_constructor, final, bind, modify.
    apply (quiet_Initialize (logged st0) NDEBUG to_IOHIDElementCookie drv _ H0).
  - intros st Hf.
    assert (H0 : quiet (logged st) st) by (split; [exact Hf|reflexivity]).
    split; [|split].
    + intros. apply (quiet_CountOfCurrentlyDepressedKeys _ _ _ _ st H0).
    + intros. apply (quiet_ReadFromQueue_Experimental _ _ _ _ st H0).
    + apply (quiet_destructor _ st H0).
Qed.

Lemma nothing_logged_without_logger_witness :
  logged (final (HelperForKeyboardReaderIOKit_constructor false cookie_uint32
                   unopenable_keyboard true false) process_start) = [] /\
  logged (final (HelperForKeyboardReaderIOKit_constructor false cookie_uint32
                   unopenable_keyboard true true) process_start)
  = ["Failed to open the IOHIDDeviceInterface. Failed with value -536870212";
     "Failed basic keyboard initialization."].
Proof.
  split.
  - apply (proj1 nothing_logged_without_logger).
  - vm_compute. reflexivity.
Defined.

Ltac same_object_update :=
  let st := fresh "st" in let H := fresh in
  intros st H; exact H.

Lemma same_object_log st0 error :
  preserves (same_object st0) (LogErrorWhenFunctorIsntEmpty error).
Proof.
  intros st H. unfold final. rewrite LogErrorWhenFunctorIsntEmpty_run.
  destruct (m_errorLoggerFunctor st); exact H.
Qed.

Lemma same_object_ReadFromQueue_loop st0 drv fuel queue :
  preserves (same_object st0) (ReadFromQueue_loop drv fuel queue).
Proof.
  induction fuel as [|fuel IH]; cbn [ReadFromQueue_loop].
  - apply preserves_ret.
  - unfold call_through, call.
    repeat first [exact IH | keeps_step same_object_update].
Qed.

Lemma same_object_CountOfCurrentlyDepressedKeys st0 NDEBUG _DEBUG drv :
  preserves (same_object st0) (CountOfCurrentlyDepressedKeys NDEBUG _DEBUG drv).
Proof.
  unfold CountOfCurrentlyDepressedKeys, CountOfCurrentlyDepressedKeys_key,
    read_uninitialised,
    DebugCheckErrorKeys, DebugCheckErrorKey.
  unfold call_through, call, pimpl, assert_.
  repeat first [ apply same_object_log | keeps_step same_object_update ].
Qed.

Lemma same_object_ReadFromQueue_Experimental st0 NDEBUG drv fuel :
  preserves (same_object st0) (ReadFromQueue_Experimental NDEBUG drv fuel).
Proof.
  unfold ReadFromQueue_Experimental. unfold assert_.
  repeat first
    [ apply same_object_log | apply same_object_ReadFromQueue_loop
    | keeps_step same_object_update ].
Qed.

(** X16: reading does not change the object.  In every build, whatever the
    driver answers and however the call ends, [CountOfCurrentlyDepressedKeys]
    and [ReadFromQueue_Experimental] leave the handles, the key table, the
    stored properties and the settings of the session exactly as they were;
    only the driver, the log and the queue see the call. *)
Theorem reading_keeps_the_object NDEBUG _DEBUG drv fuel st :
  same_object st (final (CountOfCurrentlyDepressedKeys NDEBUG _DEBUG drv) st) /\
  same_object st (final (ReadFromQueue_Experimental NDEBUG drv fuel) st).
Proof.
  assert (H0 : same_object st st) by (repeat split).
  split.
  - apply (same_object_CountOfCurrentlyDepressedKeys st NDEBUG _DEBUG drv st H0).
  - apply (same_object_ReadFromQueue_Experimental st NDEBUG drv fuel st H0).
Qed.

(** ** What the log says when the initialization fails *)

Lemma string_app_assoc (a b c : string) : (a +:+ b) +:+ c = a +:+ b +:+ c.
Proof.
  induction a as [|x a IH]; [reflexivity|].
  change (String x ((a +:+ b) +:+ c) = String x (a +:+ b +:+ c)).
  rewrite IH. reflexivity.
Qed.

Lemma keyboardInfo_unlines properties keyboardInfo :
  fold_left (fun keyboardInfo iter => keyboardInfo +:+ iter +:+ newline)
            properties keyboardInfo
  = keyboardInfo +:+ unlines properties.
Proof.
  revert keyboardInfo. induction properties as [|p ps IH]; intros acc; simpl.
  - induction acc as [|x acc IHa]; [reflexivity|].
    change (String x acc = String x (acc +:+ "")). rewrite <- IHa. reflexivity.
  - rewrite IH. rewrite !string_app_assoc. reflexivity.
Qed.

Lemma LogInitializationError_text errorDesc st :
  LogInitializationError errorDesc st
  = (Returned tt,
     if m_errorLoggerFunctor st
     then add_log (initialization_error_text errorDesc
                     (m_deviceInformationProperties st)) st
     else st).
Proof.
  unfold LogInitializationError, bind, gets.
  rewrite LogErrorWhenFunctorIsntEmpty_run.
  rewrite keyboardInfo_unlines. unfold initialization_error_text.
  destruct (m_deviceInformationProperties st); reflexivity.
Qed.

Ltac same_description_update :=
  let st := fresh "st" in let H := fresh in
  intros st H; exact H.

Lemma same_description_log st0 error :
  preserves (same_description st0) (LogErrorWhenFunctorIsntEmpty error).
Proof.
  intros st H. unfold final. rewrite LogErrorWhenFunctorIsntEmpty_run.
  destruct (m_errorLoggerFunctor st); exact H.
Qed.

(** The stages other than the plug-in creation store no property. *)
Lemma same_description_stages st0 NDEBUG to_IOHIDElementCookie drv :
  preserves (same_description st0) (FindKeyboard drv) /\
  preserves (same_description st0) (CreateDeviceInterface drv) /\
  preserves (same_description st0) (PopulateVectorOfKeyInfo NDEBUG) /\
  preserves (same_description st0)
    (FindKeypressCookies NDEBUG to_IOHIDElementCookie drv).
Proof.
  split; [|split; [|split]];
    unfold FindKeyboard, CreateDeviceInterface, PopulateVectorOfKeyInfo,
      FindKeypressCookies, FindKeypressCookies_element,
      FindKeypressCookies_release, read_uninitialised;
    unfold call_through, call, pimpl, assert_;
    repeat first [ apply same_description_log
                 | keeps_step same_description_update ].
Qed.

Lemma CreatePluginInterface_description drv st this b st' :
  m_pimpl st = Some this ->
  CreatePluginInterface drv st = (Returned b, st') ->
  m_errorLoggerFunctor st' = m_errorLoggerFunctor st /\
  m_deviceInformationProperties st'
  = m_deviceInformationProperties st
      ++ (if b then omap (property_line drv (m_hidDevice this))
                         keyboard_property_keys
          else []).
Proof.
  intros Hp H. unfold CreatePluginInterface in H.
  rewrite (bind_run pimpl _ st this st (pimpl_run st this Hp)) in H.
  unfold bind at 1 in H. unfold call, modify in H.
  destruct (drv_IOCreatePlugInInterfaceForService drv (m_hidDevice this))
    as [r plug].
  unfold bind at 1 in H. unfold modify in H.
  destruct (r =? kIOReturnSuccess); cbn [negb] in H.
  - unfold bind at 1 in H.
    rewrite GetKeyboardProperties_as_loop in H.
    erewrite (StoreOneProperty_each drv keyboard_property_keys _
                (with_plugInInterface plug this)) in H by reflexivity.
    unfold ret in H. injection H as <- <-. split; reflexivity.
  - unfold bind at 1 in H. rewrite LogErrorWhenFunctorIsntEmpty_run in H.
    unfold ret in H. injection H as <- <-.
    cbn [m_errorLoggerFunctor set_pimpl add_call].
    destruct (m_errorLoggerFunctor st) eqn:Ef; cbn; rewrite ?app_nil_r; auto.
Qed.

(** X17: what the log says when the basic initialization fails.  The last
    message is "Failed basic keyboard initialization.", followed, when
    property lines were stored for the device, by
    " Keyboard description follows:" and these lines, one for each property
    the registry has, in the order of [GetKeyboardProperties].  Lines are
    stored only once the plug-in object was created: when the failure came
    before (no device, or no plug-in object), and also when it came after
    but the registry has none of the ten properties, the message is the bare
    sentence. *)
Theorem initialization_failure_message NDEBUG to_IOHIDElementCookie drv st
    stage s1 :
  m_pimpl st = Some PrivateImpl_new ->
  m_deviceInformationProperties st = [] ->
  m_errorLoggerFunctor st = true ->
  basic_initialization_fails NDEBUG to_IOHIDElementCookie drv st stage s1 ->
  exists st',
    Initialize NDEBUG to_IOHIDElementCookie drv st = (Returned tt, st') /\
    logged st' = logged s1 ++
      [initialization_error_text "Failed basic keyboard initialization."
         (match stage with
          | DeviceMatching | PluginCreation => []
          | _ => omap (property_line drv (drv_IOServiceGetMatchingService drv))
                      keyboard_property_keys
          end)].
Proof.
  intros Hp Hprops Hf Hfail.
  assert (Hs1 : m_errorLoggerFunctor s1 = true /\
    m_deviceInformationProperties s1
    = match stage with
      | DeviceMatching | PluginCreation => []
      | _ => omap (property_line drv (drv_IOServiceGetMatchingService drv))
                  keyboard_property_keys
      end).
  { destruct (same_description_stages st NDEBUG to_IOHIDElementCookie drv)
      as (_ & _ & _ & _).
    assert (Hfk : forall b s, FindKeyboard drv st = (Returned b, s) ->
              same_description st s /\
              (b = true -> m_pimpl s
                 = Some (with_hidDevice (drv_IOServiceGetMatchingService drv)
                           PrivateImpl_new))).
    { intros b s H.
      destruct (FindKeyboard_run drv st PrivateImpl_new Hp)
        as (s' & R & P & _ & _ & _ & _ & F & D).
      rewrite H in R. injection R as -> <-.
      split; [split; assumption|].
      intros Hb. apply negb_true_iff, Z.eqb_neq in Hb. rewrite P.
      destruct (drv_IOServiceMatching drv);
        [|exfalso; apply Hb; reflexivity].
      destruct (drv_CFNumberCreate_usagePage drv);
        [|exfalso; apply Hb; reflexivity].
      destruct (drv_CFNumberCreate_usage drv);
        [|exfalso; apply Hb; reflexivity].
      reflexivity. }
    assert (Hkeep : forall s (c : M bool) b s',
              preserves (same_description s) c ->
              c s = (Returned b, s') -> same_description s s').
    { intros s c b s' Hc H. specialize (Hc s (conj eq_refl eq_refl)).
      rewrite (final_run _ _ _ _ H) in Hc. exact Hc. }
    destruct Hfail as [s H1|sa s H1 H2|sa sb s H1 H2 H3|sa sb sc s H1 H2 H3 H4
                       |sa sb sc sd s H1 H2 H3 H4 H5];
      destruct (Hfk _ _ H1) as [[D1 F1] P1].
    - rewrite F1, D1. auto.
    - destruct (CreatePluginInterface_description drv sa _ _ _ (P1 eq_refl) H2)
        as [F2 D2].
      rewrite F2, D2, F1, D1, Hprops. cbn. auto.
    - destruct (CreatePluginInterface_description drv sa _ _ _ (P1 eq_refl) H2)
        as [F2 D2].
      destruct (Hkeep sb _ _ _
                  (proj1 (proj2 (same_description_stages sb NDEBUG
                                   to_IOHIDElementCookie drv))) H3) as [D3 F3].
      rewrite F3, D3, F2, D2, F1, D1, Hprops. cbn. auto.
    - destruct (CreatePluginInterface_description drv sa _ _ _ (P1 eq_refl) H2)
        as [F2 D2].
      destruct (Hkeep sb _ _ _
                  (proj1 (proj2 (same_description_stages sb NDEBUG
                                   to_IOHIDElementCookie drv))) H3) as [D3 F3].
      destruct (Hkeep sc _ _ _
                  (proj1 (proj2 (proj2 (same_description_stages sc NDEBUG
                                   to_IOHIDElementCookie drv)))) H4) as [D4 F4].
      rewrite F4, D4, F3, D3, F2, D2, F1, D1, Hprops. cbn. auto.
    - destruct (CreatePluginInterface_description drv sa _ _ _ (P1 eq_refl) H2)
        as [F2 D2].
      destruct (Hkeep sb _ _ _
                  (proj1 (proj2 (same_description_stages sb NDEBUG
                                   to_IOHIDElementCookie drv))) H3) as [D3 F3].
      destruct (Hkeep sc _ _ _
                  (proj1 (proj2 (proj2 (same_description_stages sc NDEBUG
                                   to_IOHIDElementCookie drv)))) H4) as [D4 F4].
      destruct (Hkeep sd _ _ _
                  (proj2 (proj2 (proj2 (same_description_stages sd NDEBUG
                                   to_IOHIDElementCookie drv)))) H5) as [D5 F5].
      rewrite F5, D5, F4, D4, F3, D3, F2, D2, F1, D1, Hprops. cbn. auto. }
  destruct Hs1 as [Hf1 Hd1].
  pose proof (basic_initialization_fails_chain _ _ _ _ _ _ Hfail) as Hb.
  unfold Initialize. unfold bind at 1. rewrite Hb.
  unfold bind at 1. unfold bind at 1.
  rewrite LogInitializationError_text, Hf1, Hd1.
  rewrite m_pimpl_reset_run. unfold bind, gets, ret. cbn [andb].
  eexists. split; [reflexivity|].
  cbn [m_pimpl add_log]. destruct (m_pimpl s1); reflexivity.
Qed.

Lemma initialization_failure_message_witness :
  exists st',
    Initialize false cookie_uint32 small_keyboard fresh_object
      = (Returned tt, st') /\
    logged st' =
      [initialization_error_text "Failed basic keyboard initialization."
         ["VendorID: 1452"; "Product: Keyboard"]].
Proof.
  destruct (initialization_failure_message false cookie_uint32 small_keyboard
              fresh_object ElementResolution
              (final (Initialize_basic false cookie_uint32 small_keyboard)
                     fresh_object))
    as (st' & H1 & H2).
  - reflexivity.
  - reflexivity.
  - reflexivity.
  - eapply fails_ElementResolution; vm_compute; reflexivity.
  - exists st'. split; [exact H1|]. rewrite H2. vm_compute. reflexivity.
Defined.

(** ** A queue that did not start *)

Lemma final_bind {A B} (I : Machine -> Prop) (c : M A) (k : A -> M B) st :
  I (final c st) -> (forall a, preserves I (k a)) ->
  I (final (x <- c ;; k x) st).
Proof.
  intros Hc Hk. unfold final, bind in *.
  destruct (c st) as [[a|f] s1]; cbn [snd] in *.
  - apply (Hk a s1 Hc).
  - exact Hc.
Qed.

Ltac trace_update :=
  let st := fresh "st" in let post := fresh "post" in let H := fresh in
  intros st [post H];
  first [ exists post; exact H
        | eexists; cbn [driver_calls add_call]; rewrite H, <- app_assoc;
          reflexivity ].

Lemma trace_extends_log calls error :
  preserves (trace_extends calls) (LogErrorWhenFunctorIsntEmpty error).
Proof.
  intros st H. unfold final. rewrite LogErrorWhenFunctorIsntEmpty_run.
  destruct (m_errorLoggerFunctor st); exact H.
Qed.

Lemma trace_extends_ReadFromQueue_loop calls drv fuel queue :
  preserves (trace_extends calls) (ReadFromQueue_loop drv fuel queue).
Proof.
  induction fuel as [|fuel IH]; cbn [ReadFromQueue_loop].
  - apply preserves_ret.
  - unfold call_through, call.
    repeat first [exact IH | keeps_step trace_update].
Qed.

(** X18: [ReadFromQueue_Experimental] reads whatever queue the session
    holds.  [CreateQueue] keeps the queue it allocated even when creating or
    starting it fails and it returns [false]; a later call of
    [ReadFromQueue_Experimental] does not know of the failure and asks that
    queue for an event all the same. *)
Theorem unstarted_queue_is_read NDEBUG drv st0 this b st fuel :
  m_pimpl st0 = Some this ->
  m_hidDeviceInterface this <> 0 ->
  drv_allocQueue drv (m_hidDeviceInterface this) <> 0 ->
  CreateQueue drv st0 = (Returned b, st) ->
  (0 < fuel)%nat ->
  forall drv',
    trace_extends
      (driver_calls st
         ++ [Call_queue_getNextEvent
               (drv_allocQueue drv (m_hidDeviceInterface this))])
      (final (ReadFromQueue_Experimental NDEBUG drv' fuel) st).
Proof.
  intros Hp Hi Hq Hrun Hfuel drv'.
  destruct (CreateQueue_run drv st0 this Hp Hi) as (s & R & P & _).
  rewrite Hrun in R. injection R as _ <-.
  set (queue := drv_allocQueue drv (m_hidDeviceInterface this)) in *.
  unfold ReadFromQueue_Experimental.
  assert (Hg : final (x <- gets m_pimpl ;;
                 match x with
                 | Some this0 =>
                     if m_hidQueue this0 =? 0 then ret (Some tt)
                     else
                       r <- ReadFromQueue_loop drv' fuel (m_hidQueue this0) ;;
                       match r with
                       | None => ret None
                       | Some ioReturnValue =>
                           (if negb (ioReturnValue =? kIOReturnUnderrun) then
                              (if kIOReturnSuccess =? ioReturnValue then
                                 assert_ NDEBUG false
                                   "if we had gotten this, then we should have kept looping"
                               else ret tt) ;;
                              LogErrorWhenFunctorIsntEmpty
                                ("getNextEvent failed. code: "
                                   +:+ format_int ioReturnValue)
                            else ret tt) ;;
                           ret (Some tt)
                       end
                 | None => ret (Some tt)
                 end) st
               = final (r <- ReadFromQueue_loop drv' fuel queue ;;
                        match r with
                        | None => ret None
                        | Some ioReturnValue =>
                            (if negb (ioReturnValue =? kIOReturnUnderrun) then
                               (if kIOReturnSuccess =? ioReturnValue then
                                  assert_ NDEBUG false
                                    "if we had gotten this, then we should have kept looping"
                                else ret tt) ;;
                               LogErrorWhenFunctorIsntEmpty
                                 ("getNextEvent failed. code: "
                                    +:+ format_int ioReturnValue)
                             else ret tt) ;;
                            ret (Some tt)
                        end) st).
  { unfold final. unfold bind at 1. unfold gets at 1. rewrite P.
    cbn [m_hidQueue with_hidQueue].
    replace (queue =? 0) with false by (symmetry; apply Z.eqb_neq; exact Hq).
    reflexivity. }
  rewrite Hg. apply final_bind.
  - destruct fuel as [|fuel]; [lia|]. cbn [ReadFromQueue_loop].
    unfold final. unfold bind at 1. unfold call_through.
    replace (queue =? 0) with false by (symmetry; apply Z.eqb_neq; exact Hq).
    rewrite call_run.
    match goal with
    | |- trace_extends ?T (snd (?k ?s)) =>
        change (trace_extends T (final k s));
        assert (Hk : preserves (trace_extends T) k)
    end.
    { repeat first [ apply trace_extends_ReadFromQueue_loop
                   | keeps_step trace_update ]. }
    apply Hk. exists []. cbn. rewrite app_nil_r. reflexivity.
  - intros r. unfold assert_.
    repeat first [ apply trace_extends_log | keeps_step trace_update ].
Qed.

Lemma unstarted_queue_is_read_witness :
  yields (CreateQueue unstartable_queue_keyboard) before_resolution
    = Returned false /\
  trace_extends
    [Call_allocQueue 13; Call_queue_create 14; Call_queue_start 14;
     Call_queue_getNextEvent 14]
    (final (ReadFromQueue_Experimental false full_keyboard 5)
           (final (CreateQueue unstartable_queue_keyboard) before_resolution)).
Proof.
  split; [vm_compute; reflexivity|].
  apply (unstarted_queue_is_read false unstartable_queue_keyboard
           before_resolution
           {| m_hidDevice := 11; m_hidDeviceInterface := 13;
              m_plugInInterface := 12; m_hidQueue := 0 |}
           false
           (final (CreateQueue unstartable_queue_keyboard) before_resolution)
           5%nat).
  - reflexivity.
  - simpl. lia.
  - simpl. lia.
  - vm_compute. reflexivity.
  - lia.
Defined.



(** * The order in which resources are given back *)

Lemma CreatePluginInterface_trace drv st this :
  m_pimpl st = Some this ->
  driver_calls (final (CreatePluginInterface drv) st)
  = driver_calls st
      ++ Call_IOCreatePlugInInterfaceForService (m_hidDevice this)
      :: (if fst (drv_IOCreatePlugInInterfaceForService drv (m_hidDevice this))
               =? kIOReturnSuccess
          then map (Call_IORegistryEntryCreateCFProperty (m_hidDevice this))
                   keyboard_property_keys
          else []).
Proof.
  intros Hp. unfold final, CreatePluginInterface.
  unfold bind at 1. unfold pimpl, bind, gets. rewrite Hp. unfold ret at 1.
  unfold call, modify.
  destruct (drv_IOCreatePlugInInterfaceForService drv (m_hidDevice this))
    as [r plug]. cbn [fst snd].
  destruct (r =? kIOReturnSuccess); cbn [negb].
  - rewrite GetKeyboardProperties_as_loop.
    erewrite StoreOneProperty_each by reflexivity.
    unfold ret. cbn. rewrite <- app_assoc. reflexivity.
  - rewrite LogErrorWhenFunctorIsntEmpty_run. unfold ret.
    cbn [m_errorLoggerFunctor set_pimpl add_call].
    destruct (m_errorLoggerFunctor st); reflexivity.
Qed.

Lemma FindKeypressCookies_trace NDEBUG to_IOHIDElementCookie drv st this b st' :
  m_pimpl st = Some this ->
  FindKeypressCookies NDEBUG to_IOHIDElementCookie drv st = (Returned b, st') ->
  driver_calls st'
  = driver_calls st ++ [Call_copyMatchingElements (m_hidDeviceInterface this)].
Proof.
  intros Hp H.
  destruct (drv_copyMatchingElements drv (m_hidDeviceInterface this))
    as [r els] eqn:Hd.
  rewrite (FindKeypressCookies_unfold NDEBUG to_IOHIDElementCookie drv st this
             r els Hp Hd) in H.
  apply bind_Returned in H as ([] & s1 & H1 & H).
  apply bind_Returned in H as ([] & s2 & H2 & H).
  rewrite FindKeypressCookies_end in H. injection H as _ <-.
  unfold call_through in H1.
  destruct (m_hidDeviceInterface this =? 0); [discriminate|].
  unfold call, modify in H1. injection H1 as <-.
  destruct (negb (r =? kIOReturnSuccess)).
  - rewrite LogErrorWhenFunctorIsntEmpty_run in H2. injection H2 as <-.
    destruct (m_errorLoggerFunctor _); reflexivity.
  - pose proof (scan_frame_for_each NDEBUG to_IOHIDElementCookie els
                  (add_call (Call_copyMatchingElements
                               (m_hidDeviceInterface this)) st)) as F.
    rewrite (final_run _ _ _ _ H2) in F.
    destruct F as (_ & _ & _ & _ & Fc & _). exact Fc.
Qed.

Lemma PopulateVectorOfKeyInfo_false NDEBUG st st' :
  PopulateVectorOfKeyInfo NDEBUG st = (Returned false, st') -> st' = st.
Proof.
  intros H. destruct (m_keys st) as [|k ks] eqn:E.
  - rewrite (PopulateVectorOfKeyInfo_empty _ _ E) in H. discriminate.
  - unfold PopulateVectorOfKeyInfo in H. unfold_monad.
    rewrite E in H. simpl in H. destruct NDEBUG; [|discriminate].
    injection H as <-. reflexivity.
Qed.

(** The requests for the properties of the device hand no resource over. *)
Lemma no_resource_with_properties drv device keys :
  omap (acquired drv) (map (Call_IORegistryEntryCreateCFProperty device) keys)
  = [].
Proof. induction keys as [|key keys IH]; [reflexivity|exact IH]. Qed.

(** A session that holds a device, a plug-in object and whatever
    [QueryInterface] gave, and no queue, gives back what was acquired in the
    reverse order. *)
Lemma release_mirrors_acquisition drv this properties after :
  m_hidDevice this = drv_IOServiceGetMatchingService drv ->
  m_hidDevice this <> 0 ->
  m_plugInInterface this
    = snd (drv_IOCreatePlugInInterfaceForService drv (m_hidDevice this)) ->
  m_plugInInterface this <> 0 ->
  m_hidDeviceInterface this
    = snd (drv_QueryInterface drv (m_plugInInterface this)) ->
  m_hidQueue this = 0 ->
  omap (acquired drv) properties = [] ->
  omap (acquired drv) after = [] ->
  omap released (release_sequence this)
  = rev (omap (acquired drv)
           (Call_IOServiceMatching :: Call_IOServiceGetMatchingService
              :: Call_IOCreatePlugInInterfaceForService (m_hidDevice this)
              :: properties
              ++ Call_QueryInterface (m_plugInInterface this) :: after)).
Proof.
  intros Hd Hd0 Hp Hp0 Hi Hq Hprops Hafter.
  cbn [omap list_omap acquired].
  rewrite omap_app, Hprops. cbn [omap list_omap acquired app].
  rewrite Hafter.
  rewrite <- Hd, <- Hp, <- Hi.
  unfold release_sequence. rewrite Hq.
  apply Z.eqb_neq in Hd0, Hp0. rewrite Hd0, Hp0.
  destruct (m_hidDeviceInterface this =? 0); reflexivity.
Qed.

(** When the basic initialization of a fresh object fails, the object holds
    no queue, and what it holds is given back in the reverse of the order in
    which it was acquired. *)
Lemma failed_initialization_holds NDEBUG to_IOHIDElementCookie drv st stage s1 :
  m_pimpl st = Some PrivateImpl_new ->
  basic_initialization_fails NDEBUG to_IOHIDElementCookie drv st stage s1 ->
  exists this,
    m_pimpl s1 = Some this /\
    m_hidQueue this = 0 /\
    omap released (release_sequence this)
    = rev (omap (acquired drv)
             (drop (length (driver_calls st)) (driver_calls s1))).
Proof.
  intros Hnew Hf.
  destruct (FindKeyboard_run drv st PrivateImpl_new Hnew)
    as (s1' & R1 & P1 & C1 & _).
  remember (drv_IOServiceMatching drv && drv_CFNumberCreate_usagePage drv
              && drv_CFNumberCreate_usage drv) as asked eqn:Easked.
  set (device := drv_IOServiceGetMatchingService drv) in *.
  (* what a successful device matching leaves *)
  assert (Hfound : forall s, FindKeyboard drv st = (Returned true, s) ->
            s = s1' /\ device <> 0 /\
            m_pimpl s1' = Some (with_hidDevice device PrivateImpl_new) /\
            driver_calls s1' = driver_calls st
              ++ [Call_IOServiceMatching; Call_IOServiceGetMatchingService]).
  { intros s H. rewrite H in R1. injection R1 as Hb <-.
    symmetry in Hb. apply negb_true_iff, Z.eqb_neq in Hb.
    split; [reflexivity|].
    destruct asked; [|contradiction Hb; reflexivity].
    symmetry in Easked. apply andb_true_iff in Easked as [Easked _].
    apply andb_true_iff in Easked as [Edict _]. rewrite Edict in P1.
    split; [exact Hb|]. split; [exact P1|exact C1]. }
  (* what a plug-in creation leaves after it *)
  assert (Hplug : forall b s, CreatePluginInterface drv s1' = (Returned b, s) ->
            m_pimpl s1' = Some (with_hidDevice device PrivateImpl_new) ->
            m_pimpl s
              = Some (with_plugInInterface
                        (snd (drv_IOCreatePlugInInterfaceForService drv device))
                        (with_hidDevice device PrivateImpl_new)) /\
            exists properties,
              omap (acquired drv) properties = [] /\
              driver_calls s = driver_calls s1'
                ++ Call_IOCreatePlugInInterfaceForService device :: properties).
  { intros b s H Hp.
    destruct (CreatePluginInterface_run drv s1' _ Hp) as (s' & R & P & _).
    rewrite H in R. injection R as _ <-. split; [exact P|].
    pose proof (CreatePluginInterface_trace drv s1' _ Hp) as T.
    rewrite (final_run _ _ _ _ H) in T.
    cbn [m_hidDevice with_hidDevice] in T.
    eexists. split; [|exact T].
    destruct (_ =? kIOReturnSuccess);
      [apply no_resource_with_properties|reflexivity]. }
  (* what a device-interface creation leaves after it *)
  assert (Hiface : forall b s2 s, 
            m_pimpl s2
              = Some (with_plugInInterface
                        (snd (drv_IOCreatePlugInInterfaceForService drv device))
                        (with_hidDevice device PrivateImpl_new)) ->
            CreateDeviceInterface drv s2 = (Returned b, s) ->
            snd (drv_IOCreatePlugInInterfaceForService drv device) <> 0 /\
            m_pimpl s
              = Some (with_hidDeviceInterface
                        (snd (drv_QueryInterface drv
                           (snd (drv_IOCreatePlugInInterfaceForService drv device))))
                        (with_plugInInterface
                           (snd (drv_IOCreatePlugInInterfaceForService drv device))
                           (with_hidDevice device PrivateImpl_new))) /\
            exists after,
              omap (acquired drv) after = [] /\
              driver_calls s = driver_calls s2
                ++ Call_QueryInterface
                     (snd (drv_IOCreatePlugInInterfaceForService drv device))
                :: after).
  { intros b s2 s Hp H.
    pose proof (CreateDeviceInterface_needs_plugIn drv s2 _ _ _ Hp H) as Hne.
    cbn [m_plugInInterface with_plugInInterface] in Hne.
    split; [exact Hne|].
    destruct (CreateDeviceInterface_run drv s2 _ Hp Hne)
      as (o & s' & R & _ & P & _ & C & _).
    rewrite H in R. injection R as _ <-.
    cbn [m_plugInInterface with_plugInInterface] in P, C.
    split; [exact P|]. eexists. split; [|exact C].
    destruct (drv_QueryInterface drv _) as [hr iface].
    destruct (hr =? S_OK); destruct (iface =? 0); reflexivity. }
  destruct Hf as [s H1|sa s H1 H2|sa sb s H1 H2 H3|sa sb sc s H1 H2 H3 H4
                  |sa sb sc sd s H1 H2 H3 H4 H5].
  - (* device matching *)
    rewrite H1 in R1. injection R1 as Hb <-.
    symmetry in Hb. apply negb_false_iff, Z.eqb_eq in Hb.
    rewrite Hb in P1.
    exists (if drv_IOServiceMatching drv
            then with_hidDevice 0 PrivateImpl_new else PrivateImpl_new).
    split; [exact P1|].
    split; [destruct (drv_IOServiceMatching drv); reflexivity|].
    rewrite C1, drop_app_length.
    assert (Hnone : release_sequence
              (if drv_IOServiceMatching drv
               then with_hidDevice 0 PrivateImpl_new else PrivateImpl_new) = [])
      by (destruct (drv_IOServiceMatching drv); reflexivity).
    rewrite Hnone.
    destruct asked; cbn [omap list_omap acquired app]; [|reflexivity].
    fold device. rewrite Hb. reflexivity.
  - (* plug-in creation *)
    destruct (Hfound _ H1) as (-> & Hd0 & P & C).
    destruct (Hplug _ _ H2 P) as (P2 & properties & Hprops & C2).
    eexists. split; [exact P2|]. split; [reflexivity|].
    rewrite C2, C, <- app_assoc, drop_app_length.
    rewrite omap_app. cbn [omap list_omap acquired app].
    rewrite Hprops. fold device.
    unfold release_sequence.
    cbn [m_hidDevice m_plugInInterface m_hidDeviceInterface m_hidQueue
         with_plugInInterface with_hidDevice PrivateImpl_new].
    apply Z.eqb_neq in Hd0. rewrite Hd0.
    destruct (snd (drv_IOCreatePlugInInterfaceForService drv device) =? 0);
      reflexivity.
  - (* device-interface creation *)
    destruct (Hfound _ H1) as (-> & Hd0 & P & C).
    destruct (Hplug _ _ H2 P) as (P2 & properties & Hprops & C2).
    destruct (Hiface _ _ _ P2 H3) as (Hp0 & P3 & after & Hafter & C3).
    eexists. split; [exact P3|]. split; [reflexivity|].
    rewrite C3, C2, C, <- !app_assoc, drop_app_length.
    cbn [app].
    match goal with
    | |- omap released (release_sequence ?this) = _ =>
        apply (release_mirrors_acquisition drv this properties after)
    end; try reflexivity; assumption.
  - (* table population *)
    destruct (Hfound _ H1) as (-> & Hd0 & P & C).
    destruct (Hplug _ _ H2 P) as (P2 & properties & Hprops & C2).
    destruct (Hiface _ _ _ P2 H3) as (Hp0 & P3 & after & Hafter & C3).
    apply PopulateVectorOfKeyInfo_false in H4. subst s.
    eexists. split; [exact P3|]. split; [reflexivity|].
    rewrite C3, C2, C, <- !app_assoc, drop_app_length.
    cbn [app].
    match goal with
    | |- omap released (release_sequence ?this) = _ =>
        apply (release_mirrors_acquisition drv this properties after)
    end; try reflexivity; assumption.
  - (* element resolution *)
    destruct (Hfound _ H1) as (-> & Hd0 & P & C).
    destruct (Hplug _ _ H2 P) as (P2 & properties & Hprops & C2).
    destruct (Hiface _ _ _ P2 H3) as (Hp0 & P3 & after & Hafter & C3).
    apply PopulateVectorOfKeyInfo_true in H4 as [_ ->].
    assert (P4 : m_pimpl (set_keys populated_table sc) = m_pimpl sc)
      by reflexivity.
    rewrite P3 in P4.
    pose proof (FindKeypressCookies_trace _ _ _ _ _ _ _ P4 H5) as C5.
    apply FindKeypressCookies_returned in H5 as (_ & P5 & _).
    eexists. split; [rewrite P5; exact P4|]. split; [reflexivity|].
    rewrite C5. cbn [driver_calls set_keys].
    rewrite C3, C2, C, <- !app_assoc, drop_app_length.
    cbn [app].
    match goal with
    | |- omap released (release_sequence ?this) = _ =>
        apply (release_mirrors_acquisition drv this properties
                 (after ++ [Call_copyMatchingElements (m_hidDeviceInterface this)]))
    end; try reflexivity; try assumption.
    rewrite omap_app, Hafter. reflexivity.
Qed.

(** C4, as the code has it: whenever a session gives its driver resources
    back, at destruction or when the basic initialization has failed at any
    stage, the calls are, in this order and each only for a handle that is
    held: close and release the device interface, destroy the plug-in object,
    release the queue, release the device reference.  The queue is never
    stopped, and it is released after the interface and the plug-in object,
    not before them.  When the basic initialization of a fresh object fails,
    no queue is held yet: the calls are then those for the device interface,
    the plug-in object and the device reference, and the resources are given
    back in the reverse of the order in which the driver handed them over. *)
Theorem resources_released_in_code_order :
  (forall st this,
     m_pimpl st = Some this ->
     exists st',
       HelperForKeyboardReaderIOKit_destructor st = (Returned tt, st') /\
       m_pimpl st' = None /\
       driver_calls st' = driver_calls st ++ release_sequence this) /\
  (forall NDEBUG to_IOHIDElementCookie drv st stage s1 this,
     basic_initialization_fails NDEBUG to_IOHIDElementCookie drv st stage s1 ->
     m_pimpl s1 = Some this ->
     exists st',
       Initialize NDEBUG to_IOHIDElementCookie drv st = (Returned tt, st') /\
       m_pimpl st' = None /\
       driver_calls st' = driver_calls s1 ++ release_sequence this) /\
  (forall this queue, ~ In (Call_queue_stop queue) (release_sequence this)) /\
  (forall this,
     m_hidDeviceInterface this <> 0 -> m_plugInInterface this <> 0 ->
     m_hidQueue this <> 0 -> m_hidDevice this <> 0 ->
     release_sequence this =
       [Call_close (m_hidDeviceInterface this);
        Call_Release (m_hidDeviceInterface this);
        Call_IODestroyPlugInInterface (m_plugInInterface this);
        Call_queue_Release (m_hidQueue this);
        Call_IOObjectRelease (m_hidDevice this)]) /\
  (forall NDEBUG to_IOHIDElementCookie drv st stage s1,
     m_pimpl st = Some PrivateImpl_new ->
     basic_initialization_fails NDEBUG to_IOHIDElementCookie drv st stage s1 ->
     exists this st',
       m_pimpl s1 = Some this /\
       m_hidQueue this = 0 /\
       Initialize NDEBUG to_IOHIDElementCookie drv st = (Returned tt, st') /\
       m_pimpl st' = None /\
       driver_calls st' = driver_calls s1 ++ release_sequence this /\
       release_sequence this =
         (if negb (m_hidDeviceInterface this =? 0)
          then [Call_close (m_hidDeviceInterface this);
                Call_Release (m_hidDeviceInterface this)] else []) ++
         (if negb (m_plugInInterface this =? 0)
          then [Call_IODestroyPlugInInterface (m_plugInInterface this)] else []) ++
         (if negb (m_hidDevice this =? 0)
          then [Call_IOObjectRelease (m_hidDevice this)] else []) /\
       omap released (release_sequence this)
       = rev (omap (acquired drv)
                (drop (length (driver_calls st)) (driver_calls s1)))).
Proof.
  split; [|split; [|split; [|split]]].
  - intros st this Hp. unfold HelperForKeyboardReaderIOKit_destructor.
    rewrite m_pimpl_reset_run, Hp. eexists. split; [reflexivity|]. auto.
  - intros NDEBUG to_IOHIDElementCookie drv st stage s1 this Hf Hp.
    apply basic_initialization_fails_chain in Hf.
    destruct (Initialize_after_failure _ _ _ _ _ Hf) as (st' & Hi & Hn & Hc).
    rewrite Hp in Hc. exists st'. auto.
  - intros this queue. unfold release_sequence.
    destruct (negb (m_hidDeviceInterface this =? 0));
      destruct (negb (m_plugInInterface this =? 0));
      destruct (negb (m_hidQueue this =? 0));
      destruct (negb (m_hidDevice this =? 0)); simpl; intuition discriminate.
  - intros this Hi Hp Hq Hd. unfold release_sequence.
    apply Z.eqb_neq in Hi, Hp, Hq, Hd. rewrite Hi, Hp, Hq, Hd. reflexivity.
  - intros NDEBUG to_IOHIDElementCookie drv st stage s1 Hnew Hf.
    destruct (failed_initialization_holds _ _ _ _ _ _ Hnew Hf)
      as (this & Hp & Hq & Hrev).
    apply basic_initialization_fails_chain in Hf.
    destruct (Initialize_after_failure _ _ _ _ _ Hf) as (st' & Hi & Hn & Hc).
    rewrite Hp in Hc. exists this, st'.
    split; [exact Hp|]. split; [exact Hq|]. split; [exact Hi|].
    split; [exact Hn|]. split; [exact Hc|]. split; [|exact Hrev].
    unfold release_sequence. rewrite Hq. reflexivity.
Qed.

Lemma resources_released_in_code_order_witness :
  (exists st',
     HelperForKeyboardReaderIOKit_destructor running_session = (Returned tt, st') /\
     m_pimpl st' = None /\
     driver_calls st' = driver_calls running_session ++
       [Call_close 13; Call_Release 13; Call_IODestroyPlugInInterface 12;
        Call_queue_Release 14; Call_IOObjectRelease 11]) /\
  (exists this st',
     m_pimpl (final (CreateDeviceInterface unopenable_keyboard)
                (final (CreatePluginInterface unopenable_keyboard)
                   (final (FindKeyboard unopenable_keyboard) fresh_object)))
       = Some this /\
     m_hidQueue this = 0 /\
     Initialize false cookie_uint32 unopenable_keyboard fresh_object
       = (Returned tt, st') /\
     m_pimpl st' = None /\
     driver_calls st' =
       [Call_IOServiceMatching; Call_IOServiceGetMatchingService;
        Call_IOCreatePlugInInterfaceForService 11;
        Call_IORegistryEntryCreateCFProperty 11 kIOHIDTransportKey;
        Call_IORegistryEntryCreateCFProperty 11 kIOHIDVendorIDKey;
        Call_IORegistryEntryCreateCFProperty 11 kIOHIDVendorIDSourceKey;
        Call_IORegistryEntryCreateCFProperty 11 kIOHIDProductIDKey;
        Call_IORegistryEntryCreateCFProperty 11 kIOHIDVersionNumberKey;
        Call_IORegistryEntryCreateCFProperty 11 kIOHIDManufacturerKey;
        Call_IORegistryEntryCreateCFProperty 11 kIOHIDProductKey;
        Call_IORegistryEntryCreateCFProperty 11 kIOHIDSerialNumberKey;
        Call_IORegistryEntryCreateCFProperty 11 kIOHIDCountryCodeKey;
        Call_IORegistryEntryCreateCFProperty 11 kIOHIDLocationIDKey;
        Call_QueryInterface 12; Call_open 13]
       ++ release_sequence this /\
     release_sequence this
       = [Call_close 13; Call_Release 13; Call_IODestroyPlugInInterface 12;
          Call_IOObjectRelease 11] /\
     omap released (release_sequence this)
       = rev [(DeviceReference, 11); (PlugInObject, 12); (DeviceInterface, 13)]).
Proof.
  pose proof resources_released_in_code_order as (H1 & _ & _ & _ & H5).
  split.
  - apply (H1 running_session
             {| m_hidDevice := 11; m_hidDeviceInterface := 13;
                m_plugInInterface := 12; m_hidQueue := 14 |}).
    vm_compute. reflexivity.
  - destruct (H5 false cookie_uint32 unopenable_keyboard fresh_object
                DeviceInterfaceCreation
                (final (CreateDeviceInterface unopenable_keyboard)
                   (final (CreatePluginInterface unopenable_keyboard)
                      (final (FindKeyboard unopenable_keyboard) fresh_object))))
      as (this & st' & Hp & Hq & Hi & Hn & Hc & Hs & Hr).
    + reflexivity.
    + eapply fails_DeviceInterfaceCreation; vm_compute; reflexivity.
    + exists this, st'.
      assert (Hthis : this = {| m_hidDevice := 11; m_hidDeviceInterface := 13;
                                m_plugInInterface := 12; m_hidQueue := 0 |}).
      { assert (E : m_pimpl (final (CreateDeviceInterface unopenable_keyboard)
                       (final (CreatePluginInterface unopenable_keyboard)
                          (final (FindKeyboard unopenable_keyboard) fresh_object)))
                    = Some {| m_hidDevice := 11; m_hidDeviceInterface := 13;
                              m_plugInInterface := 12; m_hidQueue := 0 |})
          by (vm_compute; reflexivity).
        rewrite E in Hp. injection Hp as <-. reflexivity. }
      split; [exact Hp|]. split; [exact Hq|]. split; [exact Hi|].
      split; [exact Hn|]. split; [exact Hc|].
      rewrite Hthis. split; vm_compute; reflexivity.
Defined.

(** C4 as the specification states it does not hold: the session a release
    build constructs on a full keyboard with the queue enabled holds all four
    resources, and when it is destroyed the queue is released after the
    device interface has been closed, not before. *)
Lemma release_order_not_as_specified :
  ~ (forall st this st',
       m_pimpl st = Some this ->
       m_hidDeviceInterface this <> 0 -> m_plugInInterface this <> 0 ->
       m_hidQueue this <> 0 -> m_hidDevice this <> 0 ->
       HelperForKeyboardReaderIOKit_destructor st = (Returned tt, st') ->
       released_in_specified_order this
         (drop (length (driver_calls st)) (driver_calls st'))).
Proof.
  intros H.
  specialize (H running_session
                {| m_hidDevice := 11; m_hidDeviceInterface := 13;
                   m_plugInInterface := 12; m_hidQueue := 14 |}
                (final HelperForKeyboardReaderIOKit_destructor running_session)).
  assert (Hp : m_pimpl running_session
               = Some {| m_hidDevice := 11; m_hidDeviceInterface := 13;
                         m_plugInInterface := 12; m_hidQueue := 14 |})
    by (vm_compute; reflexivity).
  assert (Hd : HelperForKeyboardReaderIOKit_destructor running_session
               = (Returned tt,
                  final HelperForKeyboardReaderIOKit_destructor running_session))
    by (vm_compute; reflexivity).
  destruct (H Hp) as [Hq _];
    [simpl; lia | simpl; lia | simpl; lia | simpl; lia | exact Hd |].
  vm_compute in Hq. lia.
Qed.

(** * Usage code 0 *)

(** The element resolution of a successful basic initialization starts from
    the populated table. *)
Lemma Initialize_basic_resolution NDEBUG to_IOHIDElementCookie drv st s :
  Initialize_basic NDEBUG to_IOHIDElementCookie drv st = (Returned true, s) ->
  exists s4,
    m_keys s4 = populated_table /\
    m_pimpl s4 = m_pimpl s /\
    FindKeypressCookies NDEBUG to_IOHIDElementCookie drv s4 = (Returned true, s).
Proof.
  intros H. unfold Initialize_basic in H.
  apply andM_true in H as (s4 & H & H5).
  apply andM_true in H as (s3 & _ & H4).
  apply PopulateVectorOfKeyInfo_true in H4 as [_ ->].
  exists (set_keys populated_table s3). split; [reflexivity|].
  split; [|exact H5].
  apply FindKeypressCookies_returned in H5 as (_ & P5 & _).
  symmetry. exact P5.
Qed.

(** The first keyboard-page descriptor with usage code 0 and a cookie other
    than 0 leaves its cookie in the placeholder. *)
Lemma placeholder_bound NDEBUG to_IOHIDElementCookie drv st this
    ds1 d ds2 temp b st1 :
  m_pimpl st = Some this ->
  m_hidDeviceInterface this <> 0 ->
  m_keys st = populated_table ->
  drv_copyMatchingElements drv (m_hidDeviceInterface this)
    = (kIOReturnSuccess, ds1 ++ d :: ds2) ->
  (forall e t, In e ds1 -> ~ reports e t 0 kHIDPage_KeyboardOrKeypad) ->
  reports d temp 0 kHIDPage_KeyboardOrKeypad ->
  to_IOHIDElementCookie temp <> 0 ->
  FindKeypressCookies NDEBUG to_IOHIDElementCookie drv st = (Returned b, st1) ->
  exists rest,
    m_keys st1
      = set_cookie (to_IOHIDElementCookie temp)
          {| name := "BOGUS PLACEHOLDER AT INDEX ZERO";
             usbOfficialUsageID := 0; macCookieValue := 0;
             mustBeIgnoredByOurApplication := false |} :: rest /\
    length (m_keys st1) = 165%nat.
Proof.
  intros Hp Hi Hkeys Hd Hno Hrep Hne Hrun.
  set (step := FindKeypressCookies_element NDEBUG to_IOHIDElementCookie) in *.
  set (s0 := add_call (Call_copyMatchingElements (m_hidDeviceInterface this)) st).
  rewrite (FindKeypressCookies_unfold NDEBUG to_IOHIDElementCookie drv st this
             _ _ Hp Hd) in Hrun.
  unfold bind at 1 in Hrun. unfold call_through, call, modify in Hrun.
  replace (m_hidDeviceInterface this =? 0) with false in Hrun
    by (symmetry; apply Z.eqb_neq; assumption).
  rewrite Z.eqb_refl in Hrun. cbn [negb] in Hrun. fold s0 in Hrun.
  fold step in Hrun.
  apply bind_Returned in Hrun as ([] & s3 & Hscan & Hrun).
  rewrite FindKeypressCookies_end in Hrun. injection Hrun as _ <-.
  rewrite for_each_app in Hscan.
  apply bind_Returned in Hscan as ([] & sa & Hsa & Hscan).
  cbn [for_each] in Hscan.
  apply bind_Returned in Hscan as ([] & sb & Hsb & Hs3).
  set (k0 := {| name := "BOGUS PLACEHOLDER AT INDEX ZERO";
                usbOfficialUsageID := 0; macCookieValue := 0;
                mustBeIgnoredByOurApplication := false |}).
  assert (Ha : m_keys sa !! 0%nat = Some k0).
  { pose proof (scan_keeps_slot_zero NDEBUG to_IOHIDElementCookie ds1 s0 Hno) as H.
    fold step in H. rewrite (final_run _ _ _ _ Hsa) in H. rewrite H.
    unfold s0. cbn [m_keys add_call]. rewrite Hkeys. reflexivity. }
  assert (Hb : m_keys sb !! 0%nat
               = Some (set_cookie (to_IOHIDElementCookie temp) k0)).
  { unfold step in Hsb.
    rewrite (element_binds_unset NDEBUG to_IOHIDElementCookie d temp 0 sa k0
               Hrep ltac:(lia) Ha eq_refl) in Hsb.
    injection Hsb as <-. cbn [m_keys set_keys].
    apply list_lookup_insert_eq. apply (lookup_lt_Some _ _ _ Ha). }
  assert (H3 : m_keys s3 !! 0%nat
               = Some (set_cookie (to_IOHIDElementCookie temp) k0)).
  { pose proof (bound_slot_kept NDEBUG to_IOHIDElementCookie ds2 sb 0%nat _ Hb Hne)
      as H.
    fold step in H. rewrite (final_run _ _ _ _ Hs3) in H. exact H. }
  assert (Hframe : scan_frame s0 s3).
  { pose proof (scan_frame_for_each NDEBUG to_IOHIDElementCookie
                  (ds1 ++ d :: ds2) s0) as F.
    fold step in F. unfold final in F. rewrite for_each_app in F.
    unfold bind in F. rewrite Hsa in F. cbn [for_each] in F.
    unfold bind in F. rewrite Hsb, Hs3 in F. exact F. }
  destruct Hframe as (_ & _ & _ & _ & _ & _ & Flen & _).
  assert (Hlen : length (m_keys s3) = 165%nat).
  { rewrite Flen. unfold s0. cbn [m_keys add_call]. rewrite Hkeys. reflexivity. }
  destruct (m_keys s3) as [|k rest] eqn:Ek; [discriminate|].
  cbn [lookup list_lookup] in H3. injection H3 as ->.
  exists rest. split; [reflexivity|exact Hlen].
Qed.

(** On a session that holds the device interface and the full table,
    [CountOfCurrentlyDepressedKeys] asks the driver for the value of the
    entry at index 0 when that entry is resolved: right after the calls of
    [DebugCheckErrorKeys]. *)
Lemma resolved_head_is_polled st this k rest :
  m_pimpl st = Some this ->
  m_hidDeviceInterface this <> 0 ->
  m_keys st = k :: rest ->
  length (m_keys st) = 165%nat ->
  resolved k = true ->
  forall NDEBUG _DEBUG drv,
    exists pre post,
      driver_calls (final (DebugCheckErrorKeys _DEBUG drv) st)
        = driver_calls st ++ pre /\
      (_DEBUG = false -> pre = []) /\
      driver_calls (final (CountOfCurrentlyDepressedKeys NDEBUG _DEBUG drv) st)
        = driver_calls st ++ pre
            ++ Call_getElementValue (m_hidDeviceInterface this)
                 (macCookieValue k) :: post.
Proof.
  intros Hp Hi Ek Hlen Hres NDEBUG _DEBUG drv.
  destruct (DebugCheckErrorKeys_run _DEBUG drv st this Hp Hi)
    as (sd & pre & Ed & Pd & Kd & Cd & Hpre).
  { rewrite Hlen. vm_compute. lia. }
  destruct (count_key_resolved NDEBUG drv this 0 k sd Hres Hi) as [o Ho].
  assert (Hcount : exists post,
    driver_calls (final (CountOfCurrentlyDepressedKeys NDEBUG _DEBUG drv) st)
    = driver_calls sd
        ++ Call_getElementValue (m_hidDeviceInterface this)
             (macCookieValue k) :: post).
  { unfold final, CountOfCurrentlyDepressedKeys. unfold bind at 1. unfold gets.
    rewrite Hp. unfold bind at 1. rewrite Ed. unfold bind at 1.
    rewrite Kd, Ek. cbn [for_each_with]. unfold bind at 1. rewrite Ho.
    destruct o as [score'|f].
    - destruct (count_loop_extends NDEBUG drv this rest score'
                  (add_call (Call_getElementValue (m_hidDeviceInterface this)
                               (macCookieValue k)) sd)) as [post Hpost].
      exists post. unfold final in Hpost. rewrite Hpost.
      cbn [driver_calls add_call]. rewrite <- app_assoc. reflexivity.
    - exists []. reflexivity. }
  destruct Hcount as [post Hcount].
  exists pre, post. split; [|split].
  - rewrite (final_run _ _ _ _ Ed). exact Cd.
  - exact Hpre.
  - rewrite Hcount, Cd, <- app_assoc. reflexivity.
Qed.

(** C10, as the code has it: when the driver reports a keyboard-page
    descriptor with usage code 0 whose cookie is not 0, and no earlier
    descriptor of the array has usage code 0, [FindKeypressCookies] binds
    that cookie into the placeholder at index 0 of the populated table.  The
    placeholder is not marked ignored, so it then counts as a resolved key in
    the score that decides success.  On the session the constructor leaves,
    if it leaves one, the placeholder holds the cookie and
    [CountOfCurrentlyDepressedKeys] asks the driver for its value, right
    after the calls of [DebugCheckErrorKeys] (of which there are none in a
    build without [_DEBUG]).  If the element resolution fails all the same,
    the constructor leaves no session, and [CountOfCurrentlyDepressedKeys]
    returns -1 without asking the driver for anything. *)
Theorem usage_zero_binds_placeholder NDEBUG to_IOHIDElementCookie drv
    ds1 d ds2 temp :
  (forall e t, In e ds1 -> ~ reports e t 0 kHIDPage_KeyboardOrKeypad) ->
  reports d temp 0 kHIDPage_KeyboardOrKeypad ->
  to_IOHIDElementCookie temp <> 0 ->
  (forall st this b st1,
     m_pimpl st = Some this ->
     m_hidDeviceInterface this <> 0 ->
     m_keys st = populated_table ->
     drv_copyMatchingElements drv (m_hidDeviceInterface this)
       = (kIOReturnSuccess, ds1 ++ d :: ds2) ->
     FindKeypressCookies NDEBUG to_IOHIDElementCookie drv st = (Returned b, st1) ->
     exists k rest,
       m_keys st1 = k :: rest /\
       name k = "BOGUS PLACEHOLDER AT INDEX ZERO" /\
       macCookieValue k = to_IOHIDElementCookie temp /\
       mustBeIgnoredByOurApplication k = false /\
       resolved k = true /\
       FindKeypressCookies_score (m_keys st1)
         = 1 + FindKeypressCookies_score rest /\
       b = (40 <? 1 + FindKeypressCookies_score rest)) /\
  (forall enableQueue errorLoggerFunctor st0 st' this,
     HelperForKeyboardReaderIOKit_constructor NDEBUG to_IOHIDElementCookie drv
       enableQueue errorLoggerFunctor st0 = (Returned tt, st') ->
     m_pimpl st' = Some this ->
     drv_copyMatchingElements drv (m_hidDeviceInterface this)
       = (kIOReturnSuccess, ds1 ++ d :: ds2) ->
     exists k rest,
       m_keys st' = k :: rest /\
       name k = "BOGUS PLACEHOLDER AT INDEX ZERO" /\
       macCookieValue k = to_IOHIDElementCookie temp /\
       resolved k = true /\
       forall NDEBUG' _DEBUG drv',
         exists pre post,
           driver_calls (final (DebugCheckErrorKeys _DEBUG drv') st')
             = driver_calls st' ++ pre /\
           (_DEBUG = false -> pre = []) /\
           driver_calls
             (final (CountOfCurrentlyDepressedKeys NDEBUG' _DEBUG drv') st')
             = driver_calls st' ++ pre
                 ++ Call_getElementValue (m_hidDeviceInterface this)
                      (to_IOHIDElementCookie temp) :: post) /\
  (forall enableQueue errorLoggerFunctor st0 s1,
     basic_initialization_fails NDEBUG to_IOHIDElementCookie drv
       (member_initialisers enableQueue errorLoggerFunctor st0)
       ElementResolution s1 ->
     exists st',
       HelperForKeyboardReaderIOKit_constructor NDEBUG to_IOHIDElementCookie drv
         enableQueue errorLoggerFunctor st0 = (Returned tt, st') /\
       m_pimpl st' = None /\
       forall NDEBUG' _DEBUG drv',
         CountOfCurrentlyDepressedKeys NDEBUG' _DEBUG drv' st'
         = (Returned (-1), st')).
Proof.
  intros Hno Hrep Hne.
  assert (Hres : resolved
            (set_cookie (to_IOHIDElementCookie temp)
               {| name := "BOGUS PLACEHOLDER AT INDEX ZERO";
                  usbOfficialUsageID := 0; macCookieValue := 0;
                  mustBeIgnoredByOurApplication := false |}) = true).
  { unfold resolved. cbn [macCookieValue set_cookie mustBeIgnoredByOurApplication].
    apply Z.eqb_neq in Hne. rewrite Hne. reflexivity. }
  split; [|split].
  - intros st this b st1 Hp Hi Hkeys Hd Hrun.
    destruct (placeholder_bound _ _ _ _ _ _ _ _ _ _ _ Hp Hi Hkeys Hd Hno Hrep
                Hne Hrun) as (rest & Ek & _).
    apply FindKeypressCookies_returned in Hrun as (Hb & _).
    eexists _, rest. split; [exact Ek|].
    split; [reflexivity|]. split; [reflexivity|]. split; [reflexivity|].
    split; [exact Hres|].
    assert (Hscore : FindKeypressCookies_score (m_keys st1)
                     = 1 + FindKeypressCookies_score rest).
    { rewrite Ek, !FindKeypressCookies_score_count. cbn [List.filter].
      rewrite Hres. cbn [length]. lia. }
    split; [exact Hscore|]. rewrite <- Hscore. exact Hb.
  - intros enableQueue errorLoggerFunctor st0 st' this Hrun Hp Hd.
    unfold HelperForKeyboardReaderIOKit_constructor in Hrun.
    unfold bind at 1 in Hrun. unfold modify at 1 in Hrun.
    destruct (Initialize_returned NDEBUG to_IOHIDElementCookie drv
                (member_initialisers enableQueue errorLoggerFunctor st0) st'
                eq_refl eq_refl Hrun)
      as [[_ Hn]|(s & this0 & Hbasic & Ps & Ks & Hq)].
    { rewrite Hn in Hp. discriminate. }
    destruct (Initialize_basic_true NDEBUG to_IOHIDElementCookie drv
                (member_initialisers enableQueue errorLoggerFunctor st0) s
                eq_refl eq_refl Hbasic)
      as (this1 & Ps1 & _ & _ & _ & Hi & _).
    rewrite Ps in Ps1. injection Ps1 as <-.
    assert (Hsame : m_hidDeviceInterface this = m_hidDeviceInterface this0).
    { destruct Hq as [[_ H]|[_ H]]; rewrite H in Hp; injection Hp as <-;
        reflexivity. }
    destruct (Initialize_basic_resolution _ _ _ _ _ Hbasic)
      as (s4 & K4 & P4 & H5).
    rewrite Ps in P4. rewrite Hsame in Hd.
    destruct (placeholder_bound _ _ _ _ _ _ _ _ _ _ _ P4 Hi K4 Hd Hno Hrep
                Hne H5) as (rest & Ek & Hlen).
    rewrite <- Ks in Ek, Hlen.
    eexists _, rest. split; [exact Ek|].
    split; [reflexivity|]. split; [reflexivity|]. split; [exact Hres|].
    intros NDEBUG' _DEBUG drv'.
    rewrite <- Hsame in Hi.
    apply (resolved_head_is_polled st' this _ rest Hp Hi Ek Hlen Hres).
  - intros enableQueue errorLoggerFunctor st0 s1 Hf.
    apply basic_initialization_fails_chain in Hf.
    destruct (Initialize_after_failure _ _ _ _ _ Hf) as (st' & Hi & Hn & _).
    exists st'. split; [exact Hi|]. split; [exact Hn|].
    intros NDEBUG' _DEBUG drv'.
    unfold CountOfCurrentlyDepressedKeys, bind, gets. rewrite Hn. reflexivity.
Qed.

Lemma usage_zero_binds_placeholder_witness :
  exists k rest,
    m_keys (final (HelperForKeyboardReaderIOKit_constructor true cookie_uint32
                     (keyboard_reporting
                        (descriptor 100 0 kHIDPage_KeyboardOrKeypad
                           :: keys_from 4 41))
                     true true) process_start) = k :: rest /\
    name k = "BOGUS PLACEHOLDER AT INDEX ZERO" /\
    macCookieValue k = cookie_uint32 100 /\
    resolved k = true /\
    exists pre post,
      driver_calls
        (final (CountOfCurrentlyDepressedKeys true false
                  (keyboard_reporting
                     (descriptor 100 0 kHIDPage_KeyboardOrKeypad
                        :: keys_from 4 41)))
           (final (HelperForKeyboardReaderIOKit_constructor true cookie_uint32
                     (keyboard_reporting
                        (descriptor 100 0 kHIDPage_KeyboardOrKeypad
                           :: keys_from 4 41))
                     true true) process_start))
      = pre ++ Call_getElementValue 13 (cookie_uint32 100) :: post.
Proof.
  pose proof (usage_zero_binds_placeholder true cookie_uint32
                (keyboard_reporting
                   (descriptor 100 0 kHIDPage_KeyboardOrKeypad :: keys_from 4 41))
                [] (descriptor 100 0 kHIDPage_KeyboardOrKeypad) (keys_from 4 41)
                100) as H.
  destruct H as (_ & H & _).
  - intros e t [].
  - repeat split.
  - vm_compute. discriminate.
  - destruct (H true true process_start
                (final (HelperForKeyboardReaderIOKit_constructor true
                          cookie_uint32
                          (keyboard_reporting
                             (descriptor 100 0 kHIDPage_KeyboardOrKeypad
                                :: keys_from 4 41))
                          true true) process_start)
                {| m_hidDevice := 11; m_hidDeviceInterface := 13;
                   m_plugInInterface := 12; m_hidQueue := 14 |})
      as (k & rest & Ek & Hname & Hcookie & Hres & Hpoll).
    + vm_compute. reflexivity.
    + vm_compute. reflexivity.
    + reflexivity.
    + exists k, rest. split; [exact Ek|]. split; [exact Hname|].
      split; [exact Hcookie|]. split; [exact Hres|].
      destruct (Hpoll true false
                  (keyboard_reporting
                     (descriptor 100 0 kHIDPage_KeyboardOrKeypad
                        :: keys_from 4 41)))
        as (pre & post & _ & _ & Hcalls).
      eexists _, post. rewrite Hcalls, app_assoc. reflexivity.
Defined.

(** C10 as the specification states it does not hold.  A keyboard that
    reports usage code 0 and 39 other keys has the cookie of usage code 0
    bound into the placeholder, which makes 40 resolved keys: one too few.
    The element resolution fails, the constructor leaves no session, and
    [CountOfCurrentlyDepressedKeys] asks the driver for nothing: the
    placeholder is bound and counted, and never polled. *)
Lemma placeholder_bound_but_never_polled :
  ~ (forall NDEBUG to_IOHIDElementCookie drv interface ds1 d ds2 temp
            enableQueue errorLoggerFunctor st0,
       drv_copyMatchingElements drv interface
         = (kIOReturnSuccess, ds1 ++ d :: ds2) ->
       (forall e t, In e ds1 -> ~ reports e t 0 kHIDPage_KeyboardOrKeypad) ->
       reports d temp 0 kHIDPage_KeyboardOrKeypad ->
       let st' :=
         final (HelperForKeyboardReaderIOKit_constructor NDEBUG
                  to_IOHIDElementCookie drv enableQueue errorLoggerFunctor) st0 in
       macCookieValue <$> m_keys st' !! 0%nat
         = Some (to_IOHIDElementCookie temp) /\
       In (Call_getElementValue interface (to_IOHIDElementCookie temp))
          (drop (length (driver_calls st'))
             (driver_calls
                (final (CountOfCurrentlyDepressedKeys NDEBUG false drv) st')))).
Proof.
  intros H.
  destruct (H true cookie_uint32
              (keyboard_reporting
                 (descriptor 100 0 kHIDPage_KeyboardOrKeypad :: keys_from 4 39))
              13 [] (descriptor 100 0 kHIDPage_KeyboardOrKeypad)
              (keys_from 4 39) 100 true true process_start) as [_ Hin].
  - reflexivity.
  - intros e t [].
  - repeat split.
  - vm_compute in Hin. exact Hin.
Qed.
